(** * ARDP: the AllJoyn Reliable Datagram Protocol engine

    A shallow embedding of [alljoyn_core/router/ArdpProtocol.cc] and the
    properties of its send window, receive window, timer list and public
    entry points.

    Conventions of the embedding.
    - Every C integer is a [Z]; the wrap-around of [uint8_t], [uint16_t]
      and [uint32_t] arithmetic is written out with [u8], [u16] and [u32].
    - Header structures are kept decoded, in host order: a matching
      [htonl]/[ntohl] pair is the identity and is not written.
    - Pointers to connection records and to timers are names ([ConnPtr],
      [TimerPtr]); pointers into the send and receive arrays are indices.
      A user payload pointer is an address in [Z], [0] being [NULL].
    - The socket, the clock, [random()], [malloc] and the return values of
      the user callbacks are oracles held in [World]; everything the engine
      does to the outside is appended to the [trace].
    - A function of the engine is a computation in the monad [M]: it
      either completes with a value and a new state, or stops at a failed
      [assert] (when assertions are compiled in), at an operation that C++
      leaves undefined, or because the iteration bound given to a loop
      was used up. *)

From Stdlib Require Import ZArith Lia Bool String.
From stdpp Require Import base list.

Open Scope Z_scope.

(** ** Machine integers *)

Definition u8 (x : Z) : Z := x mod 2 ^ 8.
Definition u16 (x : Z) : Z := x mod 2 ^ 16.
Definition u32 (x : Z) : Z := x mod 2 ^ 32.

(** [(int32_t) x] for an [x] that is already a [uint32_t] value. *)
Definition i32 (x : Z) : Z := if x <? 2 ^ 31 then x else x - 2 ^ 32.

(** [#define SEQ32_LT(a, b) ((int32_t)((uint32_t)(a) - (uint32_t)(b)) < 0)] *)
Definition SEQ32_LT (a b : Z) : bool := i32 (u32 (a - b)) <? 0.

(** [#define SEQ32_LET(a, b) (SEQ32_LT(a, b) || (a == b))] *)
Definition SEQ32_LET (a b : Z) : bool := SEQ32_LT a b || (a =? b).

(** [IN_RANGE(uint32_t, beg, sz, p)]: [p] lies in [[beg, beg+sz)], the
    interval taken modulo [2^32]. *)
Definition IN_RANGE (beg sz p : Z) : bool :=
  let e := u32 (beg + sz) in
  ((beg <? e) && (beg <=? p) && (p <? e))
  || ((e <? beg) && negb ((p <? beg) && (e <=? p))).

(** [(x & flag) != 0] *)
Definition has_flag (x flag : Z) : bool := negb (Z.land x flag =? 0).

(** ** Status codes, states and constants *)

Inductive QStatus : Type :=
| ER_OK
| ER_FAIL
| ER_WOULDBLOCK
| ER_OUT_OF_MEMORY
| ER_INVALID_DATA
| ER_TIMEOUT
| ER_OS_ERROR
| ER_ARDP_BACKPRESSURE
| ER_ARDP_TTL_EXPIRED
| ER_ARDP_INVALID_STATE.

#[global] Instance QStatus_eq_dec : EqDecision QStatus.
Proof. solve_decision. Defined.

Inductive ArdpState : Type :=
| CLOSED | LISTEN | SYN_SENT | SYN_RCVD | OPEN | CLOSE_WAIT.

#[global] Instance ArdpState_eq_dec : EqDecision ArdpState.
Proof. solve_decision. Defined.

Inductive ArdpTimerType : Type :=
| DISCONNECT_TIMER | CONNECT_TIMER | RETRANSMIT_TIMER | RECV_TIMER
| WINDOW_CHECK_TIMER.

#[global] Instance ArdpTimerType_eq_dec : EqDecision ArdpTimerType.
Proof. solve_decision. Defined.

Definition ARDP_TIMWAIT : Z := 1000.
Definition ARDP_CONNECT_TIMEOUT : Z := 10000.
Definition ARDP_RETRANSMIT_TIMEOUT : Z := 500.
Definition ARDP_URGENT_RETRANSMIT_TIMEOUT : Z := Z.shiftr ARDP_RETRANSMIT_TIMEOUT 2.
Definition ARDP_RETRANSMIT_RETRY : Z := 4.
Definition ARDP_RECV_TIMEOUT : Z := 300.
Definition ARDP_RECV_RETRY : Z := 4.
Definition ARDP_WINDOW_CHECK_TIMEOUT : Z := 5000.
Definition ARDP_LINK_TIMEOUT : Z := 5 * ARDP_WINDOW_CHECK_TIMEOUT.
Definition ARDP_DISCONNECT_RETRY : Z := 0.
Definition ARDP_CONNECT_RETRY : Z := 0.
Definition ARDP_RETRY_ALWAYS : Z := 65535.

(** Modelled from the spec: the flag bits are declared in ArdpProtocol.h,
    which is not part of the sources at hand; the values are those of the
    wire-format table (SYN=0x01, ACK=0x02, EACK=0x04, RST=0x08, NUL=0x10,
    FRAG=0x20, VER=0x40). *)
Definition ARDP_FLAG_SYN : Z := 1.
Definition ARDP_FLAG_ACK : Z := 2.
Definition ARDP_FLAG_EACK : Z := 4.
Definition ARDP_FLAG_RST : Z := 8.
Definition ARDP_FLAG_NUL : Z := 16.
Definition ARDP_FLAG_FRAG : Z := 32.
Definition ARDP_FLAG_VER : Z := 64.

(** [sizeof(ArdpSynSegment)]: 1+1+2+2+2+4+4+4+2+2+2+2 octets, no padding. *)
Definition sizeof_ArdpSynSegment : Z := 28.

(** What the translation unit takes from its build and from
    ArdpProtocol.h and that the sources at hand do not fix. *)
Record Platform : Type := mkPlatform {
  (** [NDEBUG]: [assert] expands to nothing. *)
  ndebug : bool;
  (** [ARDP_NO_TIMEOUT] *)
  ARDP_NO_TIMEOUT : Z;
  (** [sizeof(ArdpHeader) - sizeof(uint32_t) * ARDP_MAX_EACK_MASK] *)
  ARDP_FIXED_HEADER_LEN : Z;
  (** [ARDP_MAX_EACK_MASK], the length of the mask arrays *)
  ARDP_MAX_EACK_MASK : Z;
  (** [ALLJOYN_MAX_PACKET_LEN] *)
  ALLJOYN_MAX_PACKET_LEN : Z;
  (** [ARDP_FLAG_SDM] *)
  ARDP_FLAG_SDM : Z;
  (** the host is big-endian: [ntohs] is the identity *)
  big_endian : bool
}.

(** [ntohs] applied to a value that is already in host order, as the
    source does in two places. *)
Definition bswap16 (x : Z) : Z := u16 (Z.shiftl (x mod 256) 8 + Z.shiftr (u16 x) 8).

(** ** Data model *)

Definition ConnPtr : Type := nat.
Definition TimerPtr : Type := nat.

(** The five functions that are stored in [ArdpTimer.handler]. *)
Inductive ArdpTimeoutHandler : Type :=
| DisconnectTimerHandler_fn
| ConnectTimerHandler_fn
| RetransmitTimerHandler_fn
| RecvTimerHandler_fn
| WindowCheckTimerHandler_fn.

(** [void* context] of a timer: [NULL], the address of a send slot, the
    address of a receive slot, or the timer itself. *)
Inductive TimerContext : Type :=
| CtxNULL
| CtxSndBuf (index : nat)
| CtxRcvBuf (index : nat)
| CtxTimer (t : TimerPtr).

(** [ArdpHeader] (declared in ArdpProtocol.h), decoded; [h_ackMsk] holds the
    words of the EACK bitmask of an inbound segment. *)
Record ArdpHeader : Type := mkHeader {
  h_flags : Z;
  h_hlen : Z;
  h_src : Z;
  h_dst : Z;
  h_dlen : Z;
  h_seq : Z;
  h_ack : Z;
  h_window : Z;
  h_ttl : Z;
  h_som : Z;
  h_fcnt : Z;
  h_ackMsk : list Z
}.

(** Assignments to the fields of [ArdpHeader]. *)
Definition set_h_flags (v : Z) (r : ArdpHeader) : ArdpHeader :=
  mkHeader v (h_hlen r) (h_src r) (h_dst r) (h_dlen r) (h_seq r) (h_ack r) (h_window r) (h_ttl r) (h_som r) (h_fcnt r) (h_ackMsk r).
Definition set_h_hlen (v : Z) (r : ArdpHeader) : ArdpHeader :=
  mkHeader (h_flags r) v (h_src r) (h_dst r) (h_dlen r) (h_seq r) (h_ack r) (h_window r) (h_ttl r) (h_som r) (h_fcnt r) (h_ackMsk r).
Definition set_h_src (v : Z) (r : ArdpHeader) : ArdpHeader :=
  mkHeader (h_flags r) (h_hlen r) v (h_dst r) (h_dlen r) (h_seq r) (h_ack r) (h_window r) (h_ttl r) (h_som r) (h_fcnt r) (h_ackMsk r).
Definition set_h_dst (v : Z) (r : ArdpHeader) : ArdpHeader :=
  mkHeader (h_flags r) (h_hlen r) (h_src r) v (h_dlen r) (h_seq r) (h_ack r) (h_window r) (h_ttl r) (h_som r) (h_fcnt r) (h_ackMsk r).
Definition set_h_dlen (v : Z) (r : ArdpHeader) : ArdpHeader :=
  mkHeader (h_flags r) (h_hlen r) (h_src r) (h_dst r) v (h_seq r) (h_ack r) (h_window r) (h_ttl r) (h_som r) (h_fcnt r) (h_ackMsk r).
Definition set_h_seq (v : Z) (r : ArdpHeader) : ArdpHeader :=
  mkHeader (h_flags r) (h_hlen r) (h_src r) (h_dst r) (h_dlen r) v (h_ack r) (h_window r) (h_ttl r) (h_som r) (h_fcnt r) (h_ackMsk r).
Definition set_h_ack (v : Z) (r : ArdpHeader) : ArdpHeader :=
  mkHeader (h_flags r) (h_hlen r) (h_src r) (h_dst r) (h_dlen r) (h_seq r) v (h_window r) (h_ttl r) (h_som r) (h_fcnt r) (h_ackMsk r).
Definition set_h_window (v : Z) (r : ArdpHeader) : ArdpHeader :=
  mkHeader (h_flags r) (h_hlen r) (h_src r) (h_dst r) (h_dlen r) (h_seq r) (h_ack r) v (h_ttl r) (h_som r) (h_fcnt r) (h_ackMsk r).
Definition set_h_ttl (v : Z) (r : ArdpHeader) : ArdpHeader :=
  mkHeader (h_flags r) (h_hlen r) (h_src r) (h_dst r) (h_dlen r) (h_seq r) (h_ack r) (h_window r) v (h_som r) (h_fcnt r) (h_ackMsk r).
Definition set_h_som (v : Z) (r : ArdpHeader) : ArdpHeader :=
  mkHeader (h_flags r) (h_hlen r) (h_src r) (h_dst r) (h_dlen r) (h_seq r) (h_ack r) (h_window r) (h_ttl r) v (h_fcnt r) (h_ackMsk r).
Definition set_h_fcnt (v : Z) (r : ArdpHeader) : ArdpHeader :=
  mkHeader (h_flags r) (h_hlen r) (h_src r) (h_dst r) (h_dlen r) (h_seq r) (h_ack r) (h_window r) (h_ttl r) (h_som r) v (h_ackMsk r).
Definition set_h_ackMsk (v : list Z) (r : ArdpHeader) : ArdpHeader :=
  mkHeader (h_flags r) (h_hlen r) (h_src r) (h_dst r) (h_dlen r) (h_seq r) (h_ack r) (h_window r) (h_ttl r) (h_som r) (h_fcnt r) v.

(** [ArdpTimer]; [t_ptr] is the address of the record. *)
Record ArdpTimer : Type := mkTimer {
  t_ptr : TimerPtr;
  t_handler : option ArdpTimeoutHandler;
  t_conn : ConnPtr;
  t_type : ArdpTimerType;
  t_context : TimerContext;
  t_delta : Z;
  t_when : Z;
  t_retry : Z
}.

(** Assignments to the fields of [ArdpTimer]. *)
Definition set_t_ptr (v : TimerPtr) (r : ArdpTimer) : ArdpTimer :=
  mkTimer v (t_handler r) (t_conn r) (t_type r) (t_context r) (t_delta r) (t_when r) (t_retry r).
Definition set_t_handler (v : option ArdpTimeoutHandler) (r : ArdpTimer) : ArdpTimer :=
  mkTimer (t_ptr r) v (t_conn r) (t_type r) (t_context r) (t_delta r) (t_when r) (t_retry r).
Definition set_t_conn (v : ConnPtr) (r : ArdpTimer) : ArdpTimer :=
  mkTimer (t_ptr r) (t_handler r) v (t_type r) (t_context r) (t_delta r) (t_when r) (t_retry r).
Definition set_t_type (v : ArdpTimerType) (r : ArdpTimer) : ArdpTimer :=
  mkTimer (t_ptr r) (t_handler r) (t_conn r) v (t_context r) (t_delta r) (t_when r) (t_retry r).
Definition set_t_context (v : TimerContext) (r : ArdpTimer) : ArdpTimer :=
  mkTimer (t_ptr r) (t_handler r) (t_conn r) (t_type r) v (t_delta r) (t_when r) (t_retry r).
Definition set_t_delta (v : Z) (r : ArdpTimer) : ArdpTimer :=
  mkTimer (t_ptr r) (t_handler r) (t_conn r) (t_type r) (t_context r) v (t_when r) (t_retry r).
Definition set_t_when (v : Z) (r : ArdpTimer) : ArdpTimer :=
  mkTimer (t_ptr r) (t_handler r) (t_conn r) (t_type r) (t_context r) (t_delta r) v (t_retry r).
Definition set_t_retry (v : Z) (r : ArdpTimer) : ArdpTimer :=
  mkTimer (t_ptr r) (t_handler r) (t_conn r) (t_type r) (t_context r) (t_delta r) (t_when r) v.

(** [ArdpSndBuf]: a slot of the send array.  [snd_hdr] is the header the
    slot owns ([hdr] points into a block allocated by [InitSBUF]),
    [snd_data] the borrowed payload pointer. *)
Record ArdpSndBuf : Type := mkSndBuf {
  snd_data : Z;
  snd_datalen : Z;
  snd_hdr : ArdpHeader;
  snd_timer : option TimerPtr;
  snd_ttl : Z;
  snd_tStart : Z;
  snd_onTheWire : bool;
  snd_inUse : bool;
  snd_hdrlen : Z
}.

(** Assignments to the fields of [ArdpSndBuf]. *)
Definition set_snd_data (v : Z) (r : ArdpSndBuf) : ArdpSndBuf :=
  mkSndBuf v (snd_datalen r) (snd_hdr r) (snd_timer r) (snd_ttl r) (snd_tStart r) (snd_onTheWire r) (snd_inUse r) (snd_hdrlen r).
Definition set_snd_datalen (v : Z) (r : ArdpSndBuf) : ArdpSndBuf :=
  mkSndBuf (snd_data r) v (snd_hdr r) (snd_timer r) (snd_ttl r) (snd_tStart r) (snd_onTheWire r) (snd_inUse r) (snd_hdrlen r).
Definition set_snd_hdr (v : ArdpHeader) (r : ArdpSndBuf) : ArdpSndBuf :=
  mkSndBuf (snd_data r) (snd_datalen r) v (snd_timer r) (snd_ttl r) (snd_tStart r) (snd_onTheWire r) (snd_inUse r) (snd_hdrlen r).
Definition set_snd_timer (v : option TimerPtr) (r : ArdpSndBuf) : ArdpSndBuf :=
  mkSndBuf (snd_data r) (snd_datalen r) (snd_hdr r) v (snd_ttl r) (snd_tStart r) (snd_onTheWire r) (snd_inUse r) (snd_hdrlen r).
Definition set_snd_ttl (v : Z) (r : ArdpSndBuf) : ArdpSndBuf :=
  mkSndBuf (snd_data r) (snd_datalen r) (snd_hdr r) (snd_timer r) v (snd_tStart r) (snd_onTheWire r) (snd_inUse r) (snd_hdrlen r).
Definition set_snd_tStart (v : Z) (r : ArdpSndBuf) : ArdpSndBuf :=
  mkSndBuf (snd_data r) (snd_datalen r) (snd_hdr r) (snd_timer r) (snd_ttl r) v (snd_onTheWire r) (snd_inUse r) (snd_hdrlen r).
Definition set_snd_onTheWire (v : bool) (r : ArdpSndBuf) : ArdpSndBuf :=
  mkSndBuf (snd_data r) (snd_datalen r) (snd_hdr r) (snd_timer r) (snd_ttl r) (snd_tStart r) v (snd_inUse r) (snd_hdrlen r).
Definition set_snd_inUse (v : bool) (r : ArdpSndBuf) : ArdpSndBuf :=
  mkSndBuf (snd_data r) (snd_datalen r) (snd_hdr r) (snd_timer r) (snd_ttl r) (snd_tStart r) (snd_onTheWire r) v (snd_hdrlen r).
Definition set_snd_hdrlen (v : Z) (r : ArdpSndBuf) : ArdpSndBuf :=
  mkSndBuf (snd_data r) (snd_datalen r) (snd_hdr r) (snd_timer r) (snd_ttl r) (snd_tStart r) (snd_onTheWire r) (snd_inUse r) v.

(** [ArdpRcvBuf] (declared in ArdpProtocol.h): a slot of the receive
    array; [rcv_next] is the index [next] points to. *)
Record ArdpRcvBuf : Type := mkRcvBuf {
  rcv_data : list Z;
  rcv_datalen : Z;
  rcv_seq : Z;
  rcv_inUse : bool;
  rcv_isDelivered : bool;
  rcv_som : Z;
  rcv_fcnt : Z;
  rcv_timer : option TimerPtr;
  rcv_next : nat
}.

(** Assignments to the fields of [ArdpRcvBuf]. *)
Definition set_rcv_data (v : list Z) (r : ArdpRcvBuf) : ArdpRcvBuf :=
  mkRcvBuf v (rcv_datalen r) (rcv_seq r) (rcv_inUse r) (rcv_isDelivered r) (rcv_som r) (rcv_fcnt r) (rcv_timer r) (rcv_next r).
Definition set_rcv_datalen (v : Z) (r : ArdpRcvBuf) : ArdpRcvBuf :=
  mkRcvBuf (rcv_data r) v (rcv_seq r) (rcv_inUse r) (rcv_isDelivered r) (rcv_som r) (rcv_fcnt r) (rcv_timer r) (rcv_next r).
Definition set_rcv_seq (v : Z) (r : ArdpRcvBuf) : ArdpRcvBuf :=
  mkRcvBuf (rcv_data r) (rcv_datalen r) v (rcv_inUse r) (rcv_isDelivered r) (rcv_som r) (rcv_fcnt r) (rcv_timer r) (rcv_next r).
Definition set_rcv_inUse (v : bool) (r : ArdpRcvBuf) : ArdpRcvBuf :=
  mkRcvBuf (rcv_data r) (rcv_datalen r) (rcv_seq r) v (rcv_isDelivered r) (rcv_som r) (rcv_fcnt r) (rcv_timer r) (rcv_next r).
Definition set_rcv_isDelivered (v : bool) (r : ArdpRcvBuf) : ArdpRcvBuf :=
  mkRcvBuf (rcv_data r) (rcv_datalen r) (rcv_seq r) (rcv_inUse r) v (rcv_som r) (rcv_fcnt r) (rcv_timer r) (rcv_next r).
Definition set_rcv_som (v : Z) (r : ArdpRcvBuf) : ArdpRcvBuf :=
  mkRcvBuf (rcv_data r) (rcv_datalen r) (rcv_seq r) (rcv_inUse r) (rcv_isDelivered r) v (rcv_fcnt r) (rcv_timer r) (rcv_next r).
Definition set_rcv_fcnt (v : Z) (r : ArdpRcvBuf) : ArdpRcvBuf :=
  mkRcvBuf (rcv_data r) (rcv_datalen r) (rcv_seq r) (rcv_inUse r) (rcv_isDelivered r) (rcv_som r) v (rcv_timer r) (rcv_next r).
Definition set_rcv_timer (v : option TimerPtr) (r : ArdpRcvBuf) : ArdpRcvBuf :=
  mkRcvBuf (rcv_data r) (rcv_datalen r) (rcv_seq r) (rcv_inUse r) (rcv_isDelivered r) (rcv_som r) (rcv_fcnt r) v (rcv_next r).
Definition set_rcv_next (v : nat) (r : ArdpRcvBuf) : ArdpRcvBuf :=
  mkRcvBuf (rcv_data r) (rcv_datalen r) (rcv_seq r) (rcv_inUse r) (rcv_isDelivered r) (rcv_som r) (rcv_fcnt r) (rcv_timer r) v.

(** [ArdpRcvMsk]; [htnMask] holds the same words in network order. *)
Record ArdpRcvMsk : Type := mkRcvMsk {
  mask : list Z;
  htnMask : list Z;
  msk_sz : Z;
  msk_fixedSz : Z
}.

(** Assignments to the fields of [ArdpRcvMsk]. *)
Definition set_mask (v : list Z) (r : ArdpRcvMsk) : ArdpRcvMsk :=
  mkRcvMsk v (htnMask r) (msk_sz r) (msk_fixedSz r).
Definition set_htnMask (v : list Z) (r : ArdpRcvMsk) : ArdpRcvMsk :=
  mkRcvMsk (mask r) v (msk_sz r) (msk_fixedSz r).
Definition set_msk_sz (v : Z) (r : ArdpRcvMsk) : ArdpRcvMsk :=
  mkRcvMsk (mask r) (htnMask r) v (msk_fixedSz r).
Definition set_msk_fixedSz (v : Z) (r : ArdpRcvMsk) : ArdpRcvMsk :=
  mkRcvMsk (mask r) (htnMask r) (msk_sz r) v.

(** [struct ARDP_CONN_RECORD]; the members of [SND], [SBUF], [RCV] and
    [RBUF] carry the name of their structure. *)
Record ArdpConnRecord : Type := mkConn {
  STATE : ArdpState;
  passive : bool;
  SND_NXT : Z;
  SND_UNA : Z;
  SND_MAX : Z;
  SND_ISS : Z;
  SBUF_MAX : Z;
  SBUF_snd : list ArdpSndBuf;
  SBUF_maxDlen : Z;
  SBUF_pending : Z;
  RCV_CUR : Z;
  RCV_MAX : Z;
  RCV_IRS : Z;
  RBUF_MAX : Z;
  RBUF_rcv : list ArdpRcvBuf;
  RBUF_first : Z;
  RBUF_last : Z;
  RBUF_window : Z;
  local : Z;
  foreign : Z;
  sock : Z;
  ipAddr : Z;
  ipPort : Z;
  window : Z;
  minSendWindow : Z;
  sndHdrLen : Z;
  rcvHdrLen : Z;
  rcvMsk : ArdpRcvMsk;
  remoteMskSz : Z;
  lastSeen : Z;
  timers : list ArdpTimer;
  context : Z
}.

(** Assignments to the fields of [ArdpConnRecord]. *)
Definition set_STATE (v : ArdpState) (r : ArdpConnRecord) : ArdpConnRecord :=
  mkConn v (passive r) (SND_NXT r) (SND_UNA r) (SND_MAX r) (SND_ISS r) (SBUF_MAX r) (SBUF_snd r) (SBUF_maxDlen r) (SBUF_pending r) (RCV_CUR r) (RCV_MAX r) (RCV_IRS r) (RBUF_MAX r) (RBUF_rcv r) (RBUF_first r) (RBUF_last r) (RBUF_window r) (local r) (foreign r) (sock r) (ipAddr r) (ipPort r) (window r) (minSendWindow r) (sndHdrLen r) (rcvHdrLen r) (rcvMsk r) (remoteMskSz r) (lastSeen r) (timers r) (context r).
Definition set_passive (v : bool) (r : ArdpConnRecord) : ArdpConnRecord :=
  mkConn (STATE r) v (SND_NXT r) (SND_UNA r) (SND_MAX r) (SND_ISS r) (SBUF_MAX r) (SBUF_snd r) (SBUF_maxDlen r) (SBUF_pending r) (RCV_CUR r) (RCV_MAX r) (RCV_IRS r) (RBUF_MAX r) (RBUF_rcv r) (RBUF_first r) (RBUF_last r) (RBUF_window r) (local r) (foreign r) (sock r) (ipAddr r) (ipPort r) (window r) (minSendWindow r) (sndHdrLen r) (rcvHdrLen r) (rcvMsk r) (remoteMskSz r) (lastSeen r) (timers r) (context r).
Definition set_SND_NXT (v : Z) (r : ArdpConnRecord) : ArdpConnRecord :=
  mkConn (STATE r) (passive r) v (SND_UNA r) (SND_MAX r) (SND_ISS r) (SBUF_MAX r) (SBUF_snd r) (SBUF_maxDlen r) (SBUF_pending r) (RCV_CUR r) (RCV_MAX r) (RCV_IRS r) (RBUF_MAX r) (RBUF_rcv r) (RBUF_first r) (RBUF_last r) (RBUF_window r) (local r) (foreign r) (sock r) (ipAddr r) (ipPort r) (window r) (minSendWindow r) (sndHdrLen r) (rcvHdrLen r) (rcvMsk r) (remoteMskSz r) (lastSeen r) (timers r) (context r).
Definition set_SND_UNA (v : Z) (r : ArdpConnRecord) : ArdpConnRecord :=
  mkConn (STATE r) (passive r) (SND_NXT r) v (SND_MAX r) (SND_ISS r) (SBUF_MAX r) (SBUF_snd r) (SBUF_maxDlen r) (SBUF_pending r) (RCV_CUR r) (RCV_MAX r) (RCV_IRS r) (RBUF_MAX r) (RBUF_rcv r) (RBUF_first r) (RBUF_last r) (RBUF_window r) (local r) (foreign r) (sock r) (ipAddr r) (ipPort r) (window r) (minSendWindow r) (sndHdrLen r) (rcvHdrLen r) (rcvMsk r) (remoteMskSz r) (lastSeen r) (timers r) (context r).
Definition set_SND_MAX (v : Z) (r : ArdpConnRecord) : ArdpConnRecord :=
  mkConn (STATE r) (passive r) (SND_NXT r) (SND_UNA r) v (SND_ISS r) (SBUF_MAX r) (SBUF_snd r) (SBUF_maxDlen r) (SBUF_pending r) (RCV_CUR r) (RCV_MAX r) (RCV_IRS r) (RBUF_MAX r) (RBUF_rcv r) (RBUF_first r) (RBUF_last r) (RBUF_window r) (local r) (foreign r) (sock r) (ipAddr r) (ipPort r) (window r) (minSendWindow r) (sndHdrLen r) (rcvHdrLen r) (rcvMsk r) (remoteMskSz r) (lastSeen r) (timers r) (context r).
Definition set_SND_ISS (v : Z) (r : ArdpConnRecord) : ArdpConnRecord :=
  mkConn (STATE r) (passive r) (SND_NXT r) (SND_UNA r) (SND_MAX r) v (SBUF_MAX r) (SBUF_snd r) (SBUF_maxDlen r) (SBUF_pending r) (RCV_CUR r) (RCV_MAX r) (RCV_IRS r) (RBUF_MAX r) (RBUF_rcv r) (RBUF_first r) (RBUF_last r) (RBUF_window r) (local r) (foreign r) (sock r) (ipAddr r) (ipPort r) (window r) (minSendWindow r) (sndHdrLen r) (rcvHdrLen r) (rcvMsk r) (remoteMskSz r) (lastSeen r) (timers r) (context r).
Definition set_SBUF_MAX (v : Z) (r : ArdpConnRecord) : ArdpConnRecord :=
  mkConn (STATE r) (passive r) (SND_NXT r) (SND_UNA r) (SND_MAX r) (SND_ISS r) v (SBUF_snd r) (SBUF_maxDlen r) (SBUF_pending r) (RCV_CUR r) (RCV_MAX r) (RCV_IRS r) (RBUF_MAX r) (RBUF_rcv r) (RBUF_first r) (RBUF_last r) (RBUF_window r) (local r) (foreign r) (sock r) (ipAddr r) (ipPort r) (window r) (minSendWindow r) (sndHdrLen r) (rcvHdrLen r) (rcvMsk r) (remoteMskSz r) (lastSeen r) (timers r) (context r).
Definition set_SBUF_snd (v : list ArdpSndBuf) (r : ArdpConnRecord) : ArdpConnRecord :=
  mkConn (STATE r) (passive r) (SND_NXT r) (SND_UNA r) (SND_MAX r) (SND_ISS r) (SBUF_MAX r) v (SBUF_maxDlen r) (SBUF_pending r) (RCV_CUR r) (RCV_MAX r) (RCV_IRS r) (RBUF_MAX r) (RBUF_rcv r) (RBUF_first r) (RBUF_last r) (RBUF_window r) (local r) (foreign r) (sock r) (ipAddr r) (ipPort r) (window r) (minSendWindow r) (sndHdrLen r) (rcvHdrLen r) (rcvMsk r) (remoteMskSz r) (lastSeen r) (timers r) (context r).
Definition set_SBUF_maxDlen (v : Z) (r : ArdpConnRecord) : ArdpConnRecord :=
  mkConn (STATE r) (passive r) (SND_NXT r) (SND_UNA r) (SND_MAX r) (SND_ISS r) (SBUF_MAX r) (SBUF_snd r) v (SBUF_pending r) (RCV_CUR r) (RCV_MAX r) (RCV_IRS r) (RBUF_MAX r) (RBUF_rcv r) (RBUF_first r) (RBUF_last r) (RBUF_window r) (local r) (foreign r) (sock r) (ipAddr r) (ipPort r) (window r) (minSendWindow r) (sndHdrLen r) (rcvHdrLen r) (rcvMsk r) (remoteMskSz r) (lastSeen r) (timers r) (context r).
Definition set_SBUF_pending (v : Z) (r : ArdpConnRecord) : ArdpConnRecord :=
  mkConn (STATE r) (passive r) (SND_NXT r) (SND_UNA r) (SND_MAX r) (SND_ISS r) (SBUF_MAX r) (SBUF_snd r) (SBUF_maxDlen r) v (RCV_CUR r) (RCV_MAX r) (RCV_IRS r) (RBUF_MAX r) (RBUF_rcv r) (RBUF_first r) (RBUF_last r) (RBUF_window r) (local r) (foreign r) (sock r) (ipAddr r) (ipPort r) (window r) (minSendWindow r) (sndHdrLen r) (rcvHdrLen r) (rcvMsk r) (remoteMskSz r) (lastSeen r) (timers r) (context r).
Definition set_RCV_CUR (v : Z) (r : ArdpConnRecord) : ArdpConnRecord :=
  mkConn (STATE r) (passive r) (SND_NXT r) (SND_UNA r) (SND_MAX r) (SND_ISS r) (SBUF_MAX r) (SBUF_snd r) (SBUF_maxDlen r) (SBUF_pending r) v (RCV_MAX r) (RCV_IRS r) (RBUF_MAX r) (RBUF_rcv r) (RBUF_first r) (RBUF_last r) (RBUF_window r) (local r) (foreign r) (sock r) (ipAddr r) (ipPort r) (window r) (minSendWindow r) (sndHdrLen r) (rcvHdrLen r) (rcvMsk r) (remoteMskSz r) (lastSeen r) (timers r) (context r).
Definition set_RCV_MAX (v : Z) (r : ArdpConnRecord) : ArdpConnRecord :=
  mkConn (STATE r) (passive r) (SND_NXT r) (SND_UNA r) (SND_MAX r) (SND_ISS r) (SBUF_MAX r) (SBUF_snd r) (SBUF_maxDlen r) (SBUF_pending r) (RCV_CUR r) v (RCV_IRS r) (RBUF_MAX r) (RBUF_rcv r) (RBUF_first r) (RBUF_last r) (RBUF_window r) (local r) (foreign r) (sock r) (ipAddr r) (ipPort r) (window r) (minSendWindow r) (sndHdrLen r) (rcvHdrLen r) (rcvMsk r) (remoteMskSz r) (lastSeen r) (timers r) (context r).
Definition set_RCV_IRS (v : Z) (r : ArdpConnRecord) : ArdpConnRecord :=
  mkConn (STATE r) (passive r) (SND_NXT r) (SND_UNA r) (SND_MAX r) (SND_ISS r) (SBUF_MAX r) (SBUF_snd r) (SBUF_maxDlen r) (SBUF_pending r) (RCV_CUR r) (RCV_MAX r) v (RBUF_MAX r) (RBUF_rcv r) (RBUF_first r) (RBUF_last r) (RBUF_window r) (local r) (foreign r) (sock r) (ipAddr r) (ipPort r) (window r) (minSendWindow r) (sndHdrLen r) (rcvHdrLen r) (rcvMsk r) (remoteMskSz r) (lastSeen r) (timers r) (context r).
Definition set_RBUF_MAX (v : Z) (r : ArdpConnRecord) : ArdpConnRecord :=
  mkConn (STATE r) (passive r) (SND_NXT r) (SND_UNA r) (SND_MAX r) (SND_ISS r) (SBUF_MAX r) (SBUF_snd r) (SBUF_maxDlen r) (SBUF_pending r) (RCV_CUR r) (RCV_MAX r) (RCV_IRS r) v (RBUF_rcv r) (RBUF_first r) (RBUF_last r) (RBUF_window r) (local r) (foreign r) (sock r) (ipAddr r) (ipPort r) (window r) (minSendWindow r) (sndHdrLen r) (rcvHdrLen r) (rcvMsk r) (remoteMskSz r) (lastSeen r) (timers r) (context r).
Definition set_RBUF_rcv (v : list ArdpRcvBuf) (r : ArdpConnRecord) : ArdpConnRecord :=
  mkConn (STATE r) (passive r) (SND_NXT r) (SND_UNA r) (SND_MAX r) (SND_ISS r) (SBUF_MAX r) (SBUF_snd r) (SBUF_maxDlen r) (SBUF_pending r) (RCV_CUR r) (RCV_MAX r) (RCV_IRS r) (RBUF_MAX r) v (RBUF_first r) (RBUF_last r) (RBUF_window r) (local r) (foreign r) (sock r) (ipAddr r) (ipPort r) (window r) (minSendWindow r) (sndHdrLen r) (rcvHdrLen r) (rcvMsk r) (remoteMskSz r) (lastSeen r) (timers r) (context r).
Definition set_RBUF_first (v : Z) (r : ArdpConnRecord) : ArdpConnRecord :=
  mkConn (STATE r) (passive r) (SND_NXT r) (SND_UNA r) (SND_MAX r) (SND_ISS r) (SBUF_MAX r) (SBUF_snd r) (SBUF_maxDlen r) (SBUF_pending r) (RCV_CUR r) (RCV_MAX r) (RCV_IRS r) (RBUF_MAX r) (RBUF_rcv r) v (RBUF_last r) (RBUF_window r) (local r) (foreign r) (sock r) (ipAddr r) (ipPort r) (window r) (minSendWindow r) (sndHdrLen r) (rcvHdrLen r) (rcvMsk r) (remoteMskSz r) (lastSeen r) (timers r) (context r).
Definition set_RBUF_last (v : Z) (r : ArdpConnRecord) : ArdpConnRecord :=
  mkConn (STATE r) (passive r) (SND_NXT r) (SND_UNA r) (SND_MAX r) (SND_ISS r) (SBUF_MAX r) (SBUF_snd r) (SBUF_maxDlen r) (SBUF_pending r) (RCV_CUR r) (RCV_MAX r) (RCV_IRS r) (RBUF_MAX r) (RBUF_rcv r) (RBUF_first r) v (RBUF_window r) (local r) (foreign r) (sock r) (ipAddr r) (ipPort r) (window r) (minSendWindow r) (sndHdrLen r) (rcvHdrLen r) (rcvMsk r) (remoteMskSz r) (lastSeen r) (timers r) (context r).
Definition set_RBUF_window (v : Z) (r : ArdpConnRecord) : ArdpConnRecord :=
  mkConn (STATE r) (passive r) (SND_NXT r) (SND_UNA r) (SND_MAX r) (SND_ISS r) (SBUF_MAX r) (SBUF_snd r) (SBUF_maxDlen r) (SBUF_pending r) (RCV_CUR r) (RCV_MAX r) (RCV_IRS r) (RBUF_MAX r) (RBUF_rcv r) (RBUF_first r) (RBUF_last r) v (local r) (foreign r) (sock r) (ipAddr r) (ipPort r) (window r) (minSendWindow r) (sndHdrLen r) (rcvHdrLen r) (rcvMsk r) (remoteMskSz r) (lastSeen r) (timers r) (context r).
Definition set_local (v : Z) (r : ArdpConnRecord) : ArdpConnRecord :=
  mkConn (STATE r) (passive r) (SND_NXT r) (SND_UNA r) (SND_MAX r) (SND_ISS r) (SBUF_MAX r) (SBUF_snd r) (SBUF_maxDlen r) (SBUF_pending r) (RCV_CUR r) (RCV_MAX r) (RCV_IRS r) (RBUF_MAX r) (RBUF_rcv r) (RBUF_first r) (RBUF_last r) (RBUF_window r) v (foreign r) (sock r) (ipAddr r) (ipPort r) (window r) (minSendWindow r) (sndHdrLen r) (rcvHdrLen r) (rcvMsk r) (remoteMskSz r) (lastSeen r) (timers r) (context r).
Definition set_foreign (v : Z) (r : ArdpConnRecord) : ArdpConnRecord :=
  mkConn (STATE r) (passive r) (SND_NXT r) (SND_UNA r) (SND_MAX r) (SND_ISS r) (SBUF_MAX r) (SBUF_snd r) (SBUF_maxDlen r) (SBUF_pending r) (RCV_CUR r) (RCV_MAX r) (RCV_IRS r) (RBUF_MAX r) (RBUF_rcv r) (RBUF_first r) (RBUF_last r) (RBUF_window r) (local r) v (sock r) (ipAddr r) (ipPort r) (window r) (minSendWindow r) (sndHdrLen r) (rcvHdrLen r) (rcvMsk r) (remoteMskSz r) (lastSeen r) (timers r) (context r).
Definition set_sock (v : Z) (r : ArdpConnRecord) : ArdpConnRecord :=
  mkConn (STATE r) (passive r) (SND_NXT r) (SND_UNA r) (SND_MAX r) (SND_ISS r) (SBUF_MAX r) (SBUF_snd r) (SBUF_maxDlen r) (SBUF_pending r) (RCV_CUR r) (RCV_MAX r) (RCV_IRS r) (RBUF_MAX r) (RBUF_rcv r) (RBUF_first r) (RBUF_last r) (RBUF_window r) (local r) (foreign r) v (ipAddr r) (ipPort r) (window r) (minSendWindow r) (sndHdrLen r) (rcvHdrLen r) (rcvMsk r) (remoteMskSz r) (lastSeen r) (timers r) (context r).
Definition set_ipAddr (v : Z) (r : ArdpConnRecord) : ArdpConnRecord :=
  mkConn (STATE r) (passive r) (SND_NXT r) (SND_UNA r) (SND_MAX r) (SND_ISS r) (SBUF_MAX r) (SBUF_snd r) (SBUF_maxDlen r) (SBUF_pending r) (RCV_CUR r) (RCV_MAX r) (RCV_IRS r) (RBUF_MAX r) (RBUF_rcv r) (RBUF_first r) (RBUF_last r) (RBUF_window r) (local r) (foreign r) (sock r) v (ipPort r) (window r) (minSendWindow r) (sndHdrLen r) (rcvHdrLen r) (rcvMsk r) (remoteMskSz r) (lastSeen r) (timers r) (context r).
Definition set_ipPort (v : Z) (r : ArdpConnRecord) : ArdpConnRecord :=
  mkConn (STATE r) (passive r) (SND_NXT r) (SND_UNA r) (SND_MAX r) (SND_ISS r) (SBUF_MAX r) (SBUF_snd r) (SBUF_maxDlen r) (SBUF_pending r) (RCV_CUR r) (RCV_MAX r) (RCV_IRS r) (RBUF_MAX r) (RBUF_rcv r) (RBUF_first r) (RBUF_last r) (RBUF_window r) (local r) (foreign r) (sock r) (ipAddr r) v (window r) (minSendWindow r) (sndHdrLen r) (rcvHdrLen r) (rcvMsk r) (remoteMskSz r) (lastSeen r) (timers r) (context r).
Definition set_window (v : Z) (r : ArdpConnRecord) : ArdpConnRecord :=
  mkConn (STATE r) (passive r) (SND_NXT r) (SND_UNA r) (SND_MAX r) (SND_ISS r) (SBUF_MAX r) (SBUF_snd r) (SBUF_maxDlen r) (SBUF_pending r) (RCV_CUR r) (RCV_MAX r) (RCV_IRS r) (RBUF_MAX r) (RBUF_rcv r) (RBUF_first r) (RBUF_last r) (RBUF_window r) (local r) (foreign r) (sock r) (ipAddr r) (ipPort r) v (minSendWindow r) (sndHdrLen r) (rcvHdrLen r) (rcvMsk r) (remoteMskSz r) (lastSeen r) (timers r) (context r).
Definition set_minSendWindow (v : Z) (r : ArdpConnRecord) : ArdpConnRecord :=
  mkConn (STATE r) (passive r) (SND_NXT r) (SND_UNA r) (SND_MAX r) (SND_ISS r) (SBUF_MAX r) (SBUF_snd r) (SBUF_maxDlen r) (SBUF_pending r) (RCV_CUR r) (RCV_MAX r) (RCV_IRS r) (RBUF_MAX r) (RBUF_rcv r) (RBUF_first r) (RBUF_last r) (RBUF_window r) (local r) (foreign r) (sock r) (ipAddr r) (ipPort r) (window r) v (sndHdrLen r) (rcvHdrLen r) (rcvMsk r) (remoteMskSz r) (lastSeen r) (timers r) (context r).
Definition set_sndHdrLen (v : Z) (r : ArdpConnRecord) : ArdpConnRecord :=
  mkConn (STATE r) (passive r) (SND_NXT r) (SND_UNA r) (SND_MAX r) (SND_ISS r) (SBUF_MAX r) (SBUF_snd r) (SBUF_maxDlen r) (SBUF_pending r) (RCV_CUR r) (RCV_MAX r) (RCV_IRS r) (RBUF_MAX r) (RBUF_rcv r) (RBUF_first r) (RBUF_last r) (RBUF_window r) (local r) (foreign r) (sock r) (ipAddr r) (ipPort r) (window r) (minSendWindow r) v (rcvHdrLen r) (rcvMsk r) (remoteMskSz r) (lastSeen r) (timers r) (context r).
Definition set_rcvHdrLen (v : Z) (r : ArdpConnRecord) : ArdpConnRecord :=
  mkConn (STATE r) (passive r) (SND_NXT r) (SND_UNA r) (SND_MAX r) (SND_ISS r) (SBUF_MAX r) (SBUF_snd r) (SBUF_maxDlen r) (SBUF_pending r) (RCV_CUR r) (RCV_MAX r) (RCV_IRS r) (RBUF_MAX r) (RBUF_rcv r) (RBUF_first r) (RBUF_last r) (RBUF_window r) (local r) (foreign r) (sock r) (ipAddr r) (ipPort r) (window r) (minSendWindow r) (sndHdrLen r) v (rcvMsk r) (remoteMskSz r) (lastSeen r) (timers r) (context r).
Definition set_rcvMsk (v : ArdpRcvMsk) (r : ArdpConnRecord) : ArdpConnRecord :=
  mkConn (STATE r) (passive r) (SND_NXT r) (SND_UNA r) (SND_MAX r) (SND_ISS r) (SBUF_MAX r) (SBUF_snd r) (SBUF_maxDlen r) (SBUF_pending r) (RCV_CUR r) (RCV_MAX r) (RCV_IRS r) (RBUF_MAX r) (RBUF_rcv r) (RBUF_first r) (RBUF_last r) (RBUF_window r) (local r) (foreign r) (sock r) (ipAddr r) (ipPort r) (window r) (minSendWindow r) (sndHdrLen r) (rcvHdrLen r) v (remoteMskSz r) (lastSeen r) (timers r) (context r).
Definition set_remoteMskSz (v : Z) (r : ArdpConnRecord) : ArdpConnRecord :=
  mkConn (STATE r) (passive r) (SND_NXT r) (SND_UNA r) (SND_MAX r) (SND_ISS r) (SBUF_MAX r) (SBUF_snd r) (SBUF_maxDlen r) (SBUF_pending r) (RCV_CUR r) (RCV_MAX r) (RCV_IRS r) (RBUF_MAX r) (RBUF_rcv r) (RBUF_first r) (RBUF_last r) (RBUF_window r) (local r) (foreign r) (sock r) (ipAddr r) (ipPort r) (window r) (minSendWindow r) (sndHdrLen r) (rcvHdrLen r) (rcvMsk r) v (lastSeen r) (timers r) (context r).
Definition set_lastSeen (v : Z) (r : ArdpConnRecord) : ArdpConnRecord :=
  mkConn (STATE r) (passive r) (SND_NXT r) (SND_UNA r) (SND_MAX r) (SND_ISS r) (SBUF_MAX r) (SBUF_snd r) (SBUF_maxDlen r) (SBUF_pending r) (RCV_CUR r) (RCV_MAX r) (RCV_IRS r) (RBUF_MAX r) (RBUF_rcv r) (RBUF_first r) (RBUF_last r) (RBUF_window r) (local r) (foreign r) (sock r) (ipAddr r) (ipPort r) (window r) (minSendWindow r) (sndHdrLen r) (rcvHdrLen r) (rcvMsk r) (remoteMskSz r) v (timers r) (context r).
Definition set_timers (v : list ArdpTimer) (r : ArdpConnRecord) : ArdpConnRecord :=
  mkConn (STATE r) (passive r) (SND_NXT r) (SND_UNA r) (SND_MAX r) (SND_ISS r) (SBUF_MAX r) (SBUF_snd r) (SBUF_maxDlen r) (SBUF_pending r) (RCV_CUR r) (RCV_MAX r) (RCV_IRS r) (RBUF_MAX r) (RBUF_rcv r) (RBUF_first r) (RBUF_last r) (RBUF_window r) (local r) (foreign r) (sock r) (ipAddr r) (ipPort r) (window r) (minSendWindow r) (sndHdrLen r) (rcvHdrLen r) (rcvMsk r) (remoteMskSz r) (lastSeen r) v (context r).
Definition set_context (v : Z) (r : ArdpConnRecord) : ArdpConnRecord :=
  mkConn (STATE r) (passive r) (SND_NXT r) (SND_UNA r) (SND_MAX r) (SND_ISS r) (SBUF_MAX r) (SBUF_snd r) (SBUF_maxDlen r) (SBUF_pending r) (RCV_CUR r) (RCV_MAX r) (RCV_IRS r) (RBUF_MAX r) (RBUF_rcv r) (RBUF_first r) (RBUF_last r) (RBUF_window r) (local r) (foreign r) (sock r) (ipAddr r) (ipPort r) (window r) (minSendWindow r) (sndHdrLen r) (rcvHdrLen r) (rcvMsk r) (remoteMskSz r) (lastSeen r) (timers r) v.

Record ArdpGlobalConfig : Type := mkConfig {
  connectTimeout : Z;
  persistTimeout : Z;
  probeTimeout : Z;
  timewait : Z
}.

(** Which callbacks are installed ([NULL] or not); what an installed
    callback answers is an oracle of the [World]. *)
Record ArdpCallbacks : Type := mkCallbacks {
  AcceptCb : bool;
  ConnectCb : bool;
  DisconnectCb : bool;
  RecvCb : bool;
  SendCb : bool;
  SendWindowCb : bool
}.

(** [struct ArdpSynSegment], decoded. *)
Record ArdpSynSegment : Type := mkSyn {
  ss_flags : Z; ss_hlen : Z; ss_src : Z; ss_dst : Z; ss_dlen : Z;
  ss_seq : Z; ss_ack : Z; ss_segmax : Z; ss_segbmax : Z; ss_options : Z
}.

(** [ArdpSeg], the decoded view [Receive] and [Accept] hand to the state
    machine. *)
Record ArdpSeg : Type := mkSeg {
  SEQ : Z; ACK : Z; SEG_MAX : Z; BMAX : Z; SOM : Z; FCNT : Z; DLEN : Z;
  DST : Z; SRC : Z; WINDOW : Z; TTL : Z; FLG : Z; HLEN : Z
}.

(** A datagram as [recvfrom] delivers it: its length, the octets read
    through [ArdpHeader], the two fields [ArdpSynSegment] places elsewhere,
    and the payload after the header. *)
Record Datagram : Type := mkDatagram {
  d_nbytes : Z;
  d_hdr : ArdpHeader;
  d_segmax : Z;
  d_segbmax : Z;
  d_payload : list Z
}.

(** Outcome of [sendmsg]/[sendto]: sent, [EAGAIN]/[EINTR]/[EWOULDBLOCK],
    or another error. *)
Inductive SockResult : Type := SockSent | SockAgain | SockError.

(** Outcome of [qcc::RecvFrom]. *)
Inductive RecvResult : Type :=
| RecvDatagram (address : Z) (port : Z) (d : Datagram)
| RecvStatus (status : QStatus).

(** What is handed to the socket. *)
Inductive Packet : Type :=
| PktHeader (h : ArdpHeader) (htnMask : list Z)
| PktData (h : ArdpHeader) (htnMask : list Z) (data : Z) (datalen : Z)
| PktSyn (ss : ArdpSynSegment) (buf : Z) (len : Z)
| PktRst (ipAddr ipPort : Z) (h : ArdpHeader).

(** Everything the engine does to its surroundings. *)
Inductive Event : Type :=
| EvSendmsg (conn : ConnPtr) (p : Packet) (r : SockResult)
| EvSendTo (p : Packet) (r : SockResult)
| EvAcceptCb (conn : ConnPtr) (len : Z) (status : QStatus) (answer : bool)
| EvConnectCb (conn : ConnPtr) (is_passive : bool) (len : Z) (status : QStatus)
| EvDisconnectCb (conn : ConnPtr) (status : QStatus)
| EvRecvCb (conn : ConnPtr) (rcvbuf : nat) (status : QStatus) (answer : bool)
| EvSendCb (conn : ConnPtr) (buf : Z) (len : Z) (status : QStatus)
| EvSendWindowCb (conn : ConnPtr) (win : Z) (status : QStatus).

(** The surroundings of the engine: the clock and the scripts of the
    oracles.  [ticks] are the advances of the clock before each reading,
    [sendq] the outcomes of [sendmsg]/[sendto], [recvq] those of
    [qcc::RecvFrom], [recvcbq] and [acceptcbq] the answers of [RecvCb] and
    [AcceptCb], [randq] the values of [random()], [mallocq] the successes
    of [malloc]. *)
Record World : Type := mkWorld {
  now : Z;
  ticks : list Z;
  sendq : list SockResult;
  recvq : list RecvResult;
  recvcbq : list bool;
  acceptcbq : list bool;
  randq : list Z;
  mallocq : list bool
}.

(** Assignments to the fields of [World]. *)
Definition set_now (v : Z) (r : World) : World :=
  mkWorld v (ticks r) (sendq r) (recvq r) (recvcbq r) (acceptcbq r) (randq r) (mallocq r).
Definition set_ticks (v : list Z) (r : World) : World :=
  mkWorld (now r) v (sendq r) (recvq r) (recvcbq r) (acceptcbq r) (randq r) (mallocq r).
Definition set_sendq (v : list SockResult) (r : World) : World :=
  mkWorld (now r) (ticks r) v (recvq r) (recvcbq r) (acceptcbq r) (randq r) (mallocq r).
Definition set_recvq (v : list RecvResult) (r : World) : World :=
  mkWorld (now r) (ticks r) (sendq r) v (recvcbq r) (acceptcbq r) (randq r) (mallocq r).
Definition set_recvcbq (v : list bool) (r : World) : World :=
  mkWorld (now r) (ticks r) (sendq r) (recvq r) v (acceptcbq r) (randq r) (mallocq r).
Definition set_acceptcbq (v : list bool) (r : World) : World :=
  mkWorld (now r) (ticks r) (sendq r) (recvq r) (recvcbq r) v (randq r) (mallocq r).
Definition set_randq (v : list Z) (r : World) : World :=
  mkWorld (now r) (ticks r) (sendq r) (recvq r) (recvcbq r) (acceptcbq r) v (mallocq r).
Definition set_mallocq (v : list bool) (r : World) : World :=
  mkWorld (now r) (ticks r) (sendq r) (recvq r) (recvcbq r) (acceptcbq r) (randq r) v.

(** [struct ARDP_HANDLE]; [conns] lists the records in the order of the
    linked list, each with its address. *)
Record ArdpHandle : Type := mkHandle {
  config : ArdpGlobalConfig;
  cb : ArdpCallbacks;
  accepting : bool;
  conns : list (ConnPtr * ArdpConnRecord);
  h_context : Z
}.

(** Assignments to the fields of [ArdpHandle]. *)
Definition set_config (v : ArdpGlobalConfig) (r : ArdpHandle) : ArdpHandle :=
  mkHandle v (cb r) (accepting r) (conns r) (h_context r).
Definition set_cb (v : ArdpCallbacks) (r : ArdpHandle) : ArdpHandle :=
  mkHandle (config r) v (accepting r) (conns r) (h_context r).
Definition set_accepting (v : bool) (r : ArdpHandle) : ArdpHandle :=
  mkHandle (config r) (cb r) v (conns r) (h_context r).
Definition set_conns (v : list (ConnPtr * ArdpConnRecord)) (r : ArdpHandle) : ArdpHandle :=
  mkHandle (config r) (cb r) (accepting r) v (h_context r).
Definition set_h_context (v : Z) (r : ArdpHandle) : ArdpHandle :=
  mkHandle (config r) (cb r) (accepting r) (conns r) v.

(** The state a computation runs in. *)
Record St : Type := mkSt {
  handle : ArdpHandle;
  world : World;
  trace : list Event;
  next_ptr : nat
}.

(** Assignments to the fields of [St]. *)
Definition set_handle (v : ArdpHandle) (r : St) : St :=
  mkSt v (world r) (trace r) (next_ptr r).
Definition set_world (v : World) (r : St) : St :=
  mkSt (handle r) v (trace r) (next_ptr r).
Definition set_trace (v : list Event) (r : St) : St :=
  mkSt (handle r) (world r) v (next_ptr r).
Definition set_next_ptr (v : nat) (r : St) : St :=
  mkSt (handle r) (world r) (trace r) v.

(** ** The monad of the engine *)

Inductive Fault : Type :=
| AssertionFailed (msg : string)
| UndefinedBehaviour (msg : string)
| OutOfFuel.

Inductive Res (A : Type) : Type :=
| Ok (a : A) (s : St)
| Abort (f : Fault) (s : St).
Arguments Ok {A} a s.
Arguments Abort {A} f s.

Definition M (A : Type) : Type := St -> Res A.

Definition ret {A : Type} (a : A) : M A := fun s => Ok a s.

Definition bind {A B : Type} (m : M A) (k : A -> M B) : M B :=
  fun s => match m s with
           | Ok a s' => k a s'
           | Abort f s' => Abort f s'
           end.

Notation "x <- c1 ;; c2" := (bind c1 (fun x => c2))
  (at level 100, c1 at next level, right associativity).
Notation "c1 ;; c2" := (bind c1 (fun _ => c2))
  (at level 100, right associativity).

Definition get : M St := fun s => Ok s s.
Definition put (s : St) : M unit := fun _ => Ok tt s.
Definition modify (f : St -> St) : M unit := fun s => Ok tt (f s).
Definition abort {A : Type} (f : Fault) : M A := fun s => Abort f s.
Definition undefined {A : Type} (msg : string) : M A :=
  abort (UndefinedBehaviour msg).
Definition when_ (b : bool) (m : M unit) : M unit := if b then m else ret tt.

(** Append an event to the trace. *)
Definition emit (e : Event) : M unit :=
  modify (fun s => set_trace (trace s ++ [e]) s).

(** Take the next answer of an oracle; [d] once the script is used up. *)
Definition pop {A : Type} (q : World -> list A) (setq : list A -> World -> World)
    (d : A) : M A :=
  s <- get ;;
  match q (world s) with
  | [] => ret d
  | a :: rest => put (set_world (setq rest (world s)) s) ;; ret a
  end.

(** [TimeNow(handle->tbase)]: the clock advances by the next tick, then is
    read (milliseconds, [uint32_t]). *)
Definition TimeNow : M Z :=
  d <- pop ticks set_ticks 0 ;;
  s <- get ;;
  let t := u32 (now (world s) + d) in
  put (set_world (set_now t (world s)) s) ;;
  ret t.

(** [new]: a fresh name for a timer or a connection record. *)
Definition fresh_ptr : M nat :=
  s <- get ;;
  put (set_next_ptr (S (next_ptr s)) s) ;;
  ret (next_ptr s).

Definition get_handle : M ArdpHandle := s <- get ;; ret (handle s).
Definition modify_handle (f : ArdpHandle -> ArdpHandle) : M unit :=
  modify (fun s => set_handle (f (handle s)) s).

(** ** Connection records and the list they are on *)

Fixpoint lookup_conn (c : ConnPtr) (l : list (ConnPtr * ArdpConnRecord))
    : option ArdpConnRecord :=
  match l with
  | [] => None
  | (c', k) :: rest => if Nat.eqb c c' then Some k else lookup_conn c rest
  end.

Fixpoint update_conn (c : ConnPtr) (f : ArdpConnRecord -> ArdpConnRecord)
    (l : list (ConnPtr * ArdpConnRecord)) : list (ConnPtr * ArdpConnRecord) :=
  match l with
  | [] => []
  | (c', k) :: rest =>
      if Nat.eqb c c' then (c', f k) :: rest else (c', k) :: update_conn c f rest
  end.

Fixpoint remove_conn (c : ConnPtr) (l : list (ConnPtr * ArdpConnRecord))
    : list (ConnPtr * ArdpConnRecord) :=
  match l with
  | [] => []
  | (c', k) :: rest =>
      if Nat.eqb c c' then rest else (c', k) :: remove_conn c rest
  end.

(** [IsConnValid]: the record is on [handle->conns]. *)
Definition IsConnValid (c : ConnPtr) : M bool :=
  h <- get_handle ;;
  ret (match lookup_conn c (conns h) with Some _ => true | None => false end).

(** [*conn]: reading through a pointer to a record that was deleted is
    undefined. *)
Definition get_conn (c : ConnPtr) : M ArdpConnRecord :=
  h <- get_handle ;;
  match lookup_conn c (conns h) with
  | Some k => ret k
  | None => undefined "use of a deleted connection record"
  end.

Definition modify_conn (c : ConnPtr) (f : ArdpConnRecord -> ArdpConnRecord)
    : M unit :=
  get_conn c ;;
  modify_handle (fun h => set_conns (update_conn c f (conns h)) h).

(** [conn->SBUF.snd[i]] and [conn->RBUF.rcv[i]]; an index outside the
    array is undefined. *)
Definition get_snd (c : ConnPtr) (i : nat) : M ArdpSndBuf :=
  k <- get_conn c ;;
  match SBUF_snd k !! i with
  | Some b => ret b
  | None => undefined "SBUF.snd index out of range"
  end.

Definition modify_snd (c : ConnPtr) (i : nat) (f : ArdpSndBuf -> ArdpSndBuf)
    : M unit :=
  b <- get_snd c i ;;
  modify_conn c (fun k => set_SBUF_snd (<[i := f b]> (SBUF_snd k)) k).

Definition get_rcv (c : ConnPtr) (i : nat) : M ArdpRcvBuf :=
  k <- get_conn c ;;
  match RBUF_rcv k !! i with
  | Some b => ret b
  | None => undefined "RBUF.rcv index out of range"
  end.

Definition modify_rcv (c : ConnPtr) (i : nat) (f : ArdpRcvBuf -> ArdpRcvBuf)
    : M unit :=
  b <- get_rcv c i ;;
  modify_conn c (fun k => set_RBUF_rcv (<[i := f b]> (RBUF_rcv k)) k).

(** ** The list of timers of a connection *)

Fixpoint find_timer (t : TimerPtr) (l : list ArdpTimer) : option ArdpTimer :=
  match l with
  | [] => None
  | x :: rest => if Nat.eqb t (t_ptr x) then Some x else find_timer t rest
  end.

Fixpoint update_timer (t : TimerPtr) (f : ArdpTimer -> ArdpTimer)
    (l : list ArdpTimer) : list ArdpTimer :=
  match l with
  | [] => []
  | x :: rest =>
      if Nat.eqb t (t_ptr x) then f x :: rest else x :: update_timer t f rest
  end.

Fixpoint remove_timer (t : TimerPtr) (l : list ArdpTimer) : list ArdpTimer :=
  match l with
  | [] => []
  | x :: rest =>
      if Nat.eqb t (t_ptr x) then rest else x :: remove_timer t rest
  end.

(** [ln->fwd] on the circular list whose sentinel is [&conn->timers]:
    [None] stands for the sentinel. *)
Fixpoint timer_after (t : TimerPtr) (l : list ArdpTimer) : option ArdpTimer :=
  match l with
  | [] => None
  | x :: rest =>
      if Nat.eqb t (t_ptr x) then head rest else timer_after t rest
  end.

Definition list_fwd (ln : option TimerPtr) (l : list ArdpTimer)
    : option ArdpTimer :=
  match ln with
  | None => head l
  | Some t => timer_after t l
  end.

(** [ln->bwd] of a timer that is on the list. *)
Fixpoint timer_before (prev : option TimerPtr) (t : TimerPtr)
    (l : list ArdpTimer) : option TimerPtr :=
  match l with
  | [] => None
  | x :: rest =>
      if Nat.eqb t (t_ptr x) then prev else timer_before (Some (t_ptr x)) t rest
  end.

Definition list_bwd (t : TimerPtr) (l : list ArdpTimer) : option TimerPtr :=
  timer_before None t l.

(** [*timer]: the timer must still be on the list of its connection. *)
Definition get_timer (c : ConnPtr) (t : TimerPtr) : M ArdpTimer :=
  k <- get_conn c ;;
  match find_timer t (timers k) with
  | Some x => ret x
  | None => undefined "use of a deleted timer"
  end.

Definition modify_timer (c : ConnPtr) (t : TimerPtr)
    (f : ArdpTimer -> ArdpTimer) : M unit :=
  get_timer c t ;;
  modify_conn c (fun k => set_timers (update_timer t f (timers k)) k).

Section Engine.

(** [P] is the build; [fuel] bounds the number of iterations of every loop
    whose length is not fixed when it is entered. *)
Context (P : Platform) (fuel : nat).

(** [assert(b && msg)] *)
Definition assert_ (b : bool) (msg : string) : M unit :=
  if ndebug P then ret tt
  else if b then ret tt else abort (AssertionFailed msg).

(** [AddTimer]: the new timer goes to the tail of [conn->timers]. *)
Definition AddTimer (conn : ConnPtr) (type : ArdpTimerType)
    (handler : ArdpTimeoutHandler) (context : TimerContext)
    (timeout : Z) (retry : Z) : M TimerPtr :=
  timer <- fresh_ptr ;;
  let ctx := match type with
             | WINDOW_CHECK_TIMER => CtxTimer timer
             | _ => context
             end in
  t <- TimeNow ;;
  let rec := mkTimer timer (Some handler) conn type ctx timeout
                     (u32 (t + timeout)) (u16 retry) in
  modify_conn conn (fun k => set_timers (timers k ++ [rec]) k) ;;
  ret timer.

(** [DeleteTimer]: [DeList] then [delete].  On a timer that is no longer
    on a list, [DeList] asserts and [delete] frees a second time. *)
Definition DeleteTimer (conn : ConnPtr) (timer : TimerPtr) : M unit :=
  k <- get_conn conn ;;
  match find_timer timer (timers k) with
  | Some _ =>
      modify_conn conn (fun k => set_timers (remove_timer timer (timers k)) k)
  | None =>
      assert_ false "DeList(): called on empty list" ;;
      undefined "DeleteTimer: delete of a timer already deleted"
  end.

Fixpoint cancel_first (type : ArdpTimerType) (context : TimerContext)
    (l : list ArdpTimer) : list ArdpTimer :=
  match l with
  | [] => []
  | x :: rest =>
      if bool_decide (t_type x = type)
         && match context with
            | CtxNULL => true
            | CtxSndBuf i => match t_context x with CtxSndBuf j => Nat.eqb i j | _ => false end
            | CtxRcvBuf i => match t_context x with CtxRcvBuf j => Nat.eqb i j | _ => false end
            | CtxTimer i => match t_context x with CtxTimer j => Nat.eqb i j | _ => false end
            end
      then rest
      else x :: cancel_first type context rest
  end.

(** [CancelTimer]: delete the first timer of that type (and context). *)
Definition CancelTimer (conn : ConnPtr) (type : ArdpTimerType)
    (context : TimerContext) : M unit :=
  modify_conn conn (fun k => set_timers (cancel_first type context (timers k)) k).

(** [CancelAllTimers] *)
Definition CancelAllTimers (conn : ConnPtr) : M unit :=
  modify_conn conn (set_timers []).

(** [SetState] *)
Definition SetState (conn : ConnPtr) (state : ArdpState) : M unit :=
  modify_conn conn (set_STATE state).

(** [DelConnRecord] *)
Definition DelConnRecord (conn : ConnPtr) : M unit :=
  k <- get_conn conn ;;
  assert_ (bool_decide (STATE k = CLOSED))
          "DelConnRecord(): Delete while not CLOSED" ;;
  CancelAllTimers conn ;;
  modify_handle (fun h => set_conns (remove_conn conn (conns h)) h).

(** [DisconnectTimerHandler] *)
Definition DisconnectTimerHandler (conn : ConnPtr) (context : TimerContext)
    : M unit :=
  SetState conn CLOSED ;;
  h <- get_handle ;;
  when_ (DisconnectCb (cb h)) (emit (EvDisconnectCb conn ER_OK)) ;;
  DelConnRecord conn.

(** [ConnectTimerHandler] *)
Definition ConnectTimerHandler (conn : ConnPtr) (context : TimerContext)
    : M unit :=
  h <- get_handle ;;
  k <- get_conn conn ;;
  when_ (ConnectCb (cb h)) (emit (EvConnectCb conn (passive k) 0 ER_FAIL)) ;;
  SetState conn CLOSED ;;
  DelConnRecord conn.

(** [SendMsg]: one [sendmsg] on the socket of the connection. *)
Definition SendMsg (conn : ConnPtr) (p : Packet) : M QStatus :=
  get_conn conn ;;
  r <- pop sendq set_sendq SockSent ;;
  emit (EvSendmsg conn p r) ;;
  ret (match r with
       | SockSent => ER_OK
       | SockAgain => ER_WOULDBLOCK
       | SockError => ER_FAIL
       end).

(** [SendMsgHeader] *)
Definition SendMsgHeader (conn : ConnPtr) (h : ArdpHeader) : M QStatus :=
  k <- get_conn conn ;;
  let h' := if msk_sz (rcvMsk k) =? 0 then h
            else set_h_flags (u8 (Z.lor (h_flags h) ARDP_FLAG_EACK)) h in
  SendMsg conn (PktHeader h' (take (Z.to_nat (msk_fixedSz (rcvMsk k)))
                                   (htnMask (rcvMsk k)))).

(** [SendMsgData] on the slot [conn->SBUF.snd[index]]. *)
Definition SendMsgData (conn : ConnPtr) (index : nat) : M QStatus :=
  k <- get_conn conn ;;
  modify_snd conn index (fun b =>
    let h := snd_hdr b in
    let h := set_h_ack (RCV_CUR k) h in
    let h := set_h_window (u16 (RBUF_window k)) h in
    let h := if msk_sz (rcvMsk k) =? 0
             then set_h_flags (Z.land (h_flags h) (255 - ARDP_FLAG_EACK)) h
             else set_h_flags (u8 (Z.lor (h_flags h) ARDP_FLAG_EACK)) h in
    set_snd_hdr h b) ;;
  sndBuf <- get_snd conn index ;;
  expired <-
    (if snd_ttl sndBuf =? 0 then ret false
     else
       t <- TimeNow ;;
       let msElapsed := u32 (t - snd_tStart sndBuf) in
       if negb (snd_onTheWire sndBuf)
       then ret (snd_ttl sndBuf <=? msElapsed)
       else ret false) ;;
  if expired : bool then ret ER_ARDP_TTL_EXPIRED
  else
    modify_snd conn index (set_snd_onTheWire true) ;;
    sndBuf <- get_snd conn index ;;
    k <- get_conn conn ;;
    SendMsg conn (PktData (snd_hdr sndBuf)
                          (take (Z.to_nat (msk_fixedSz (rcvMsk k)))
                                (htnMask (rcvMsk k)))
                          (snd_data sndBuf) (snd_datalen sndBuf)).

(** [Send]: a header-only segment.  The fields [ttl], [som] and [fcnt] of
    the local [ArdpHeader] are left uninitialised by the source; they are
    0 here. *)
Definition Send (conn : ConnPtr) (flags seq ack window : Z) : M QStatus :=
  k <- get_conn conn ;;
  let h := mkHeader (u8 flags) (u8 (sndHdrLen k / 2)) (local k) (foreign k) 0
                    (u32 seq) (u32 ack) (u16 window) 0 0 0 [] in
  SendMsgHeader conn h.

(** [ARDP_Disconnect] *)
Definition ARDP_Disconnect (conn : ConnPtr) : M QStatus :=
  valid <- IsConnValid conn ;;
  if negb valid then ret ER_ARDP_INVALID_STATE
  else
    k <- get_conn conn ;;
    h <- get_handle ;;
    if bool_decide (STATE k = CLOSED) || bool_decide (STATE k = CLOSE_WAIT)
    then ret ER_ARDP_INVALID_STATE
    else if bool_decide (STATE k = OPEN) then
      AddTimer conn DISCONNECT_TIMER DisconnectTimerHandler_fn CtxNULL
               (timewait (config h)) ARDP_DISCONNECT_RETRY ;;
      SetState conn CLOSE_WAIT ;;
      Send conn (Z.lor ARDP_FLAG_RST ARDP_FLAG_VER) (SND_NXT k) (RCV_CUR k)
           (RBUF_window k)
    else
      SetState conn CLOSED ;;
      AddTimer conn DISCONNECT_TIMER DisconnectTimerHandler_fn CtxNULL 0
               ARDP_DISCONNECT_RETRY ;;
      ret ER_OK.

(** A call through [handle->cb.SendCb], which the source does not test
    for [NULL]. *)
Definition call_SendCb (conn : ConnPtr) (buf len : Z) (status : QStatus)
    : M unit :=
  h <- get_handle ;;
  if SendCb (cb h) then emit (EvSendCb conn buf len status)
  else undefined "call through a NULL SendCb".

(** A call through [handle->cb.RecvCb]. *)
Definition call_RecvCb (conn : ConnPtr) (rcvbuf : nat) (status : QStatus)
    : M bool :=
  h <- get_handle ;;
  if RecvCb (cb h) then
    a <- pop recvcbq set_recvcbq true ;;
    emit (EvRecvCb conn rcvbuf status a) ;;
    ret a
  else undefined "call through a NULL RecvCb".

(** The loop of [RetransmitTimerHandler] over the [fcnt] slots of an
    abandoned message; [timer] is the timer that fired, [h] the header the
    local variable [h] points to.  Returns the last value of [h]. *)
Fixpoint abandon_fragments (n : nat) (conn : ConnPtr) (timer : TimerPtr)
    (index : Z) (h : ArdpHeader) : M ArdpHeader :=
  match n with
  | O => ret h
  | S n' =>
      b <- get_snd conn (Z.to_nat index) ;;
      let h := snd_hdr b in
      assert_ (has_flag (h_flags h) ARDP_FLAG_FRAG)
              "RetransmitTimerHandler: Not a fragment!" ;;
      match snd_timer b with
      | Some t' => modify_timer conn t' (set_t_retry 0)
      | None => ret tt
      end ;;
      modify_conn conn (fun k => set_SBUF_pending (u16 (SBUF_pending k - 1)) k) ;;
      modify_snd conn (Z.to_nat index) (set_snd_inUse false) ;;
      modify_conn conn (fun k => set_SBUF_pending (u16 (SBUF_pending k - 1)) k) ;;
      k <- get_conn conn ;;
      if RBUF_MAX k =? 0 then undefined "remainder by zero (RBUF.MAX)"
      else
        let index' := u16 (u32 (index + 1) mod RBUF_MAX k) in
        assert_ (0 <=? SBUF_pending k)
                "RetransmitTimerHandler: Number of pending segments in send queue cannot be negative!" ;;
        b' <- get_snd conn (Z.to_nat index') ;;
        match snd_timer b' with
        | Some _ =>
            DeleteTimer conn timer ;;
            modify_snd conn (Z.to_nat index') (set_snd_timer None)
        | None => ret tt
        end ;;
        abandon_fragments n' conn timer index' h
  end.

(** [RetransmitTimerHandler].  [timer->conn] in the last line is read from
    the value the timer had when the handler was entered. *)
Definition RetransmitTimerHandler (conn : ConnPtr) (context : TimerContext)
    : M unit :=
  match context with
  | CtxSndBuf sidx =>
      sndBuf <- get_snd conn sidx ;;
      assert_ (snd_inUse sndBuf)
              "RetransmitTimerHandler: trying to resend flushed buffer" ;;
      match snd_timer sndBuf with
      | None => undefined "RetransmitTimerHandler: snd->timer is NULL"
      | Some timer =>
          t <- get_timer conn timer ;;
          if 1 <? t_retry t then
            status <- SendMsgData conn sidx ;;
            match status with
            | ER_WOULDBLOCK =>
                modify_timer conn timer (set_t_delta ARDP_URGENT_RETRANSMIT_TIMEOUT)
            | ER_OK =>
                modify_timer conn timer (set_t_delta ARDP_RETRANSMIT_TIMEOUT)
            | _ => ret tt
            end ;;
            modify_timer conn timer (fun t => set_t_retry (u16 (t_retry t - 1)) t)
          else
            let h := snd_hdr sndBuf in
            modify_timer conn timer (set_t_retry 0) ;;
            modify_snd conn sidx (set_snd_timer None) ;;
            bl <-
              (if has_flag (h_flags h) ARDP_FLAG_FRAG then
                 let fcnt := h_fcnt h in
                 let som := h_som h in
                 k <- get_conn conn ;;
                 if RBUF_MAX k =? 0 then undefined "remainder by zero (RBUF.MAX)"
                 else
                   let index := u16 (som mod RBUF_MAX k) in
                   first <- get_snd conn (Z.to_nat index) ;;
                   h' <- abandon_fragments (Z.to_nat fcnt) conn timer index h ;;
                   k <- get_conn conn ;;
                   ret (snd_data first,
                        u32 (SBUF_maxDlen k * (fcnt - 1) + h_dlen h'))
               else ret (snd_data sndBuf, snd_datalen sndBuf)) ;;
            call_SendCb (t_conn t) (fst bl) (snd bl) ER_FAIL
      end
  | _ => undefined "RetransmitTimerHandler: context is not a send buffer"
  end.

(** [for (i = 0; i < current->fcnt; i++) { fragment->isDelivered = true;
    fragment = fragment->next; }]; returns the final [fragment]. *)
Fixpoint mark_delivered (n : nat) (conn : ConnPtr) (fragment : nat) : M nat :=
  match n with
  | O => ret fragment
  | S n' =>
      b <- get_rcv conn fragment ;;
      modify_rcv conn fragment (set_rcv_isDelivered true) ;;
      mark_delivered n' conn (rcv_next b)
  end.

(** The [while (deliver)] loop of [RecvTimerHandler]. *)
Fixpoint deliver_pending (n : nat) (conn : ConnPtr) (deliver : bool)
    (current : nat) : M unit :=
  if negb deliver then ret tt
  else
    match n with
    | O => abort OutOfFuel
    | S n' =>
        b <- get_rcv conn current ;;
        assert_ (rcv_inUse b) "Attempt to deliver invalid segment" ;;
        assert_ (rcv_isDelivered b)
                "Attempt to deliver segment that has been pushed already" ;;
        a <- call_RecvCb conn current ER_OK ;;
        if negb a then
          timer <- AddTimer conn RECV_TIMER RecvTimerHandler_fn (CtxRcvBuf current)
                            ARDP_RECV_TIMEOUT ARDP_RECV_RETRY ;;
          modify_rcv conn current (set_rcv_timer (Some timer))
        else
          fragment <- mark_delivered (Z.to_nat (rcv_fcnt b)) conn current ;;
          f <- get_rcv conn fragment ;;
          nx <- get_rcv conn (rcv_next f) ;;
          deliver_pending n' conn (u32 (rcv_seq f + 1) =? rcv_seq nx) (rcv_next f)
    end.

(** [RecvTimerHandler] *)
Definition RecvTimerHandler (conn : ConnPtr) (context : TimerContext)
    : M unit :=
  match context with
  | CtxRcvBuf cur =>
      current <- get_rcv conn cur ;;
      let timer := rcv_timer current in
      h <- get_handle ;;
      assert_ (RecvCb (cb h)) "handle->cb.RecvCb != NULL" ;;
      a <- call_RecvCb conn cur ER_OK ;;
      match timer with
      | None => undefined "RecvTimerHandler: current->timer is NULL"
      | Some timer =>
          if a then
            fragment <- mark_delivered (Z.to_nat (rcv_fcnt current)) conn cur ;;
            modify_timer conn timer (set_t_retry 0) ;;
            modify_rcv conn cur (set_rcv_timer None) ;;
            f <- get_rcv conn fragment ;;
            nx <- get_rcv conn (rcv_next f) ;;
            deliver_pending fuel conn (u32 (rcv_seq f + 1) =? rcv_seq nx)
                            (rcv_next f)
          else
            modify_timer conn timer (fun t => set_t_retry (u16 (t_retry t - 1)) t) ;;
            t <- get_timer conn timer ;;
            if t_retry t <=? 0 then ARDP_Disconnect conn ;; ret tt
            else ret tt
      end
  | _ => undefined "RecvTimerHandler: context is not a receive buffer"
  end.

(** [WindowCheckTimerHandler] *)
Definition WindowCheckTimerHandler (conn : ConnPtr) (context : TimerContext)
    : M unit :=
  match context with
  | CtxTimer timer =>
      h <- get_handle ;;
      let linkTimeout := u32 (probeTimeout (config h) * 10) in
      t <- get_timer conn timer ;;
      k <- get_conn conn ;;
      (if linkTimeout <=? u32 (t_when t - lastSeen k)
       then ARDP_Disconnect conn ;; ret tt
       else ret tt) ;;
      t <- get_timer conn timer ;;
      k <- get_conn conn ;;
      if (lastSeen k <? u32 (t_when t - persistTimeout (config h)))
         || (window k <? minSendWindow k)
      then
        Send conn (Z.lor (Z.lor ARDP_FLAG_ACK ARDP_FLAG_VER) ARDP_FLAG_NUL)
             (SND_NXT k) (RCV_CUR k) (RBUF_window k) ;;
        ret tt
      else ret tt
  | _ => undefined "WindowCheckTimerHandler: context is not a timer"
  end.

(** [(timer->handler)(handle, timer->conn, timer->context)] *)
Definition call_handler (fn : ArdpTimeoutHandler) (conn : ConnPtr)
    (context : TimerContext) : M unit :=
  match fn with
  | DisconnectTimerHandler_fn => DisconnectTimerHandler conn context
  | ConnectTimerHandler_fn => ConnectTimerHandler conn context
  | RetransmitTimerHandler_fn => RetransmitTimerHandler conn context
  | RecvTimerHandler_fn => RecvTimerHandler conn context
  | WindowCheckTimerHandler_fn => WindowCheckTimerHandler conn context
  end.

(** What one iteration of the loop of [CheckConnTimers] leaves behind:
    the loop variable [ln] and the local [next], or a [break]. *)
Inductive LoopStep : Type :=
| Continue (ln : TimerPtr) (next : Z)
| ContinueFrom (ln : option TimerPtr) (next : Z)
| Break (next : Z).

(** [if (timer->when < next) next = timer->when;] *)
Definition earlier (when_ next : Z) : Z := if when_ <? next then when_ else next.

(** The body of the loop of [CheckConnTimers] for the timer [timer] that
    [ln] points to.  After [DeleteTimer(timer)] the source still reads
    [timer->when]; the freed record is taken to hold what it held when it
    was deleted. *)
Definition CheckConnTimers_body (conn : ConnPtr) (timer : ArdpTimer)
    (next now : Z) : M LoopStep :=
  if t_when timer <=? now then
    destroyed <-
      match t_handler timer with
      | Some fn =>
          call_handler fn (t_conn timer) (t_context timer) ;;
          valid <- IsConnValid conn ;;
          ret (negb valid)
      | None => ret false
      end ;;
    if destroyed : bool then ret (Break next)
    else
      timer' <- get_timer conn (t_ptr timer) ;;
      if t_retry timer' <=? 0 then
        k <- get_conn conn ;;
        let ln := list_bwd (t_ptr timer) (timers k) in
        DeleteTimer conn (t_ptr timer) ;;
        k <- get_conn conn ;;
        match timers k with
        | [] => ret (Break next)
        | _ => ret (ContinueFrom ln (earlier (t_when timer') next))
        end
      else
        t <- TimeNow ;;
        let when' := u32 (t + t_delta timer') in
        modify_timer conn (t_ptr timer) (set_t_when when') ;;
        ret (Continue (t_ptr timer) (earlier when' next))
  else ret (Continue (t_ptr timer) (earlier (t_when timer) next)).

(** [for (; (ln = ln->fwd) != &conn->timers;) { ... }] *)
Fixpoint CheckConnTimers_loop (n : nat) (conn : ConnPtr)
    (ln : option TimerPtr) (next now : Z) : M Z :=
  match n with
  | O => abort OutOfFuel
  | S n' =>
      k <- get_conn conn ;;
      match list_fwd ln (timers k) with
      | None => ret next
      | Some timer =>
          r <- CheckConnTimers_body conn timer next now ;;
          match r with
          | Break next' => ret next'
          | Continue ln' next' =>
              CheckConnTimers_loop n' conn (Some ln') next' now
          | ContinueFrom ln' next' =>
              CheckConnTimers_loop n' conn ln' next' now
          end
      end
  end.

(** [CheckConnTimers] *)
Definition CheckConnTimers (conn : ConnPtr) (next now : Z) : M Z :=
  k <- get_conn conn ;;
  match timers k with
  | [] => ret next
  | _ =>
      next' <- CheckConnTimers_loop fuel conn None next now ;;
      ret (if next' =? ARDP_NO_TIMEOUT P then ARDP_NO_TIMEOUT P
           else u32 (next' - now))
  end.

(** [ln->fwd] and [ln->bwd] on [handle->conns]; [None] is the sentinel. *)
Fixpoint conn_after (c : ConnPtr) (l : list (ConnPtr * ArdpConnRecord))
    : option ConnPtr :=
  match l with
  | [] => None
  | (c', _) :: rest =>
      if Nat.eqb c c' then fst <$> head rest else conn_after c rest
  end.

Definition conns_fwd (ln : option ConnPtr) (l : list (ConnPtr * ArdpConnRecord))
    : option ConnPtr :=
  match ln with
  | None => fst <$> head l
  | Some c => conn_after c l
  end.

Fixpoint conn_before (prev : option ConnPtr) (c : ConnPtr)
    (l : list (ConnPtr * ArdpConnRecord)) : option ConnPtr :=
  match l with
  | [] => None
  | (c', _) :: rest =>
      if Nat.eqb c c' then prev else conn_before (Some c') c rest
  end.

(** The loop of [CheckTimers] over the connections. *)
Fixpoint CheckTimers_loop (n : nat) (ln : option ConnPtr) (nextTime now : Z)
    : M Z :=
  match n with
  | O => abort OutOfFuel
  | S n' =>
      h <- get_handle ;;
      match conns_fwd ln (conns h) with
      | None => ret nextTime
      | Some c =>
          let temp := conn_before None c (conns h) in
          nextTime' <- CheckConnTimers c nextTime now ;;
          valid <- IsConnValid c ;;
          let ln' := if valid : bool then Some c else temp in
          h' <- get_handle ;;
          match conns h' with
          | [] => ret nextTime'
          | _ => CheckTimers_loop n' ln' nextTime' now
          end
      end
  end.

(** [CheckTimers]: fire the expired timers, return the next one. *)
Definition CheckTimers : M Z :=
  now <- TimeNow ;;
  h <- get_handle ;;
  match conns h with
  | [] => ret (ARDP_NO_TIMEOUT P)
  | _ => CheckTimers_loop fuel None (ARDP_NO_TIMEOUT P) now
  end.

(** The [for] loop of [SendData]: [n] fragments are still to be queued,
    [i] is the loop counter, [timeout] and [status] the locals. *)
Fixpoint SendData_loop (n : nat) (conn : ConnPtr) (i fcnt lastLen som : Z)
    (segData ttl timeout : Z) (status : QStatus) : M QStatus :=
  match n with
  | O => ret status
  | S n' =>
      k <- get_conn conn ;;
      if SND_MAX k =? 0 then undefined "remainder by zero (SND.MAX)"
      else
        let index := Z.to_nat (u16 (SND_NXT k mod SND_MAX k)) in
        get_snd conn index ;;
        let segLen := u16 (if i =? fcnt - 1 then lastLen else SBUF_maxDlen k) in
        assert_ (u32 (SND_NXT k - SND_UNA k) <? SND_MAX k)
                "(conn->SND.NXT - conn->SND.UNA) < conn->SND.MAX" ;;
        let flags := Z.lor ARDP_FLAG_ACK ARDP_FLAG_VER in
        let flags := if 1 <? fcnt then Z.lor flags ARDP_FLAG_FRAG else flags in
        modify_snd conn index (fun b =>
          let h := snd_hdr b in
          let h := set_h_flags flags h in
          let h := set_h_som som h in
          let h := set_h_fcnt fcnt h in
          let h := set_h_hlen (u8 (sndHdrLen k / 2)) h in
          let h := set_h_src (local k) h in
          let h := set_h_dst (foreign k) h in
          let h := set_h_dlen segLen h in
          let h := set_h_seq (SND_NXT k) h in
          let h := set_h_ttl ttl h in
          set_snd_hdr h (set_snd_ttl ttl b)) ;;
        t <- TimeNow ;;
        modify_snd conn index (fun b =>
          set_snd_hdrlen (sndHdrLen k)
            (set_snd_datalen segLen (set_snd_data segData (set_snd_tStart t b)))) ;;
        assert_ (SBUF_pending k <? SND_MAX k)
                "Number of pending segments in send queue exceeds MAX!" ;;
        status <- SendMsgData conn index ;;
        let timeout := if bool_decide (status = ER_WOULDBLOCK)
                       then ARDP_URGENT_RETRANSMIT_TIMEOUT else timeout in
        let status := if bool_decide (status = ER_WOULDBLOCK)
                      then ER_OK else status in
        if bool_decide (status = ER_OK) then
          timer <- AddTimer conn RETRANSMIT_TIMER RetransmitTimerHandler_fn
                            (CtxSndBuf index) timeout (ARDP_RETRANSMIT_RETRY + 1) ;;
          modify_snd conn index (set_snd_timer (Some timer)) ;;
          modify_conn conn (fun k => set_SBUF_pending (u16 (SBUF_pending k + 1)) k) ;;
          modify_conn conn (fun k => set_SND_NXT (u32 (SND_NXT k + 1)) k) ;;
          modify_snd conn index (set_snd_inUse true) ;;
          SendData_loop n' conn (i + 1) fcnt lastLen som segData ttl timeout status
        else if negb (bool_decide (status = ER_ARDP_TTL_EXPIRED)) then
          ARDP_Disconnect conn ;;
          ret status
        else
          SendData_loop n' conn (i + 1) fcnt lastLen som segData ttl timeout status
  end.

(** [fcnt = (len + (conn->SBUF.maxDlen - 1)) / conn->SBUF.maxDlen], a
    [uint16_t] computed in [uint32_t]. *)
Definition fragment_count (len maxDlen : Z) : Z :=
  u16 (u32 (len + (maxDlen - 1)) / maxDlen).

(** [SendData].  [segData] is initialised to [buf] and never advanced, so
    every fragment refers to the start of the user buffer. *)
Definition SendData (conn : ConnPtr) (buf len ttl : Z) : M QStatus :=
  k <- get_conn conn ;;
  let som := SND_NXT k in
  if u32 (SND_NXT k - SND_UNA k) <? SND_MAX k then
    if len <=? SBUF_maxDlen k then
      SendData_loop 1 conn 0 1 len som buf ttl ARDP_RETRANSMIT_TIMEOUT ER_OK
    else if SBUF_maxDlen k =? 0 then undefined "division by zero (SBUF.maxDlen)"
    else
      let fcnt := fragment_count len (SBUF_maxDlen k) in
      let lastLen := len mod SBUF_maxDlen k in
      if SND_MAX k <? fcnt then ret ER_FAIL
      else if window k <? fcnt then ret ER_ARDP_BACKPRESSURE
      else
        SendData_loop (Z.to_nat fcnt) conn 0 fcnt lastLen som buf ttl
                      ARDP_RETRANSMIT_TIMEOUT ER_OK
  else ret ER_ARDP_BACKPRESSURE.

(** One slot of the loop of [FlushAckedSegments]. *)
Definition FlushAckedSegments_slot (conn : ConnPtr) (i : nat) (ack : Z)
    : M unit :=
  b <- get_snd conn i ;;
  let h := snd_hdr b in
  let seq := h_seq h in
  if SEQ32_LET seq ack && snd_inUse b then
    match snd_timer b with
    | Some t => DeleteTimer conn t ;; modify_snd conn i (set_snd_timer None)
    | None => ret tt
    end ;;
    modify_snd conn i (set_snd_inUse false) ;;
    modify_conn conn (fun k => set_SBUF_pending (u16 (SBUF_pending k - 1)) k) ;;
    k <- get_conn conn ;;
    assert_ (0 <=? SBUF_pending k)
            "Negative number of pending segments in send queue!" ;;
    if has_flag (h_flags h) ARDP_FLAG_FRAG then
      let fcnt := h_fcnt h in
      if negb (h_seq h =? u32 (h_som h + fcnt)) then ret tt
      else
        if SND_MAX k =? 0 then undefined "remainder by zero (SND.MAX)"
        else
          let index := Z.to_nat (u16 (h_som h mod SND_MAX k)) in
          let len := u32 (SBUF_maxDlen k * (fcnt - 1) + h_dlen h) in
          first <- get_snd conn index ;;
          call_SendCb conn (snd_data first) len ER_OK
    else call_SendCb conn (snd_data b) (snd_datalen b) ER_OK
  else ret tt.

Fixpoint FlushAckedSegments_loop (n : nat) (conn : ConnPtr) (i : nat) (ack : Z)
    : M unit :=
  match n with
  | O => ret tt
  | S n' =>
      FlushAckedSegments_slot conn i ack ;;
      FlushAckedSegments_loop n' conn (S i) ack
  end.

(** [FlushAckedSegments] *)
Definition FlushAckedSegments (conn : ConnPtr) (ack : Z) : M unit :=
  k <- get_conn conn ;;
  FlushAckedSegments_loop (Z.to_nat (SND_MAX k)) conn 0 ack.

(** [while (mask32 != 0) { ... mask32 = mask32 << 1; index++; }] *)
Fixpoint CancelEacked_word (n : nat) (conn : ConnPtr) (mask32 index : Z)
    : M unit :=
  if mask32 =? 0 then ret tt
  else
    match n with
    | O => abort OutOfFuel
    | S n' =>
        b <- get_snd conn (Z.to_nat index) ;;
        k <- get_conn conn ;;
        (if has_flag mask32 (2 ^ 31) then
           match snd_timer b with
           | Some timer =>
               assert_ (index <? SND_MAX k)
                       "CancelEackedSegments():SND array out of range" ;;
               DeleteTimer conn timer ;;
               modify_snd conn (Z.to_nat index) (set_snd_timer None)
           | None => ret tt
           end
         else ret tt) ;;
        CancelEacked_word n' conn (u32 (Z.shiftl mask32 1)) (u16 (index + 1))
    end.

Fixpoint CancelEacked_words (n : nat) (conn : ConnPtr) (bitMask : list Z)
    (start i : Z) : M unit :=
  match n with
  | O => ret tt
  | S n' =>
      k <- get_conn conn ;;
      let mask32 := nth (Z.to_nat i) bitMask 0 in
      if SND_MAX k =? 0 then undefined "remainder by zero (SND.MAX)"
      else
        CancelEacked_word 33 conn mask32 (u16 (u32 (start + i * 32) mod SND_MAX k)) ;;
        CancelEacked_words n' conn bitMask start (i + 1)
  end.

(** [CancelEackedSegments]; a word of the mask that the datagram does not
    hold reads as 0. *)
Definition CancelEackedSegments (conn : ConnPtr) (hdr : ArdpHeader) : M unit :=
  k <- get_conn conn ;;
  if SND_MAX k =? 0 then undefined "remainder by zero (SND.MAX)"
  else
    let start := SND_UNA k in
    let index := Z.to_nat (u16 (start mod SND_MAX k)) in
    b <- get_snd conn index ;;
    match snd_timer b with
    | Some timer =>
        modify_timer conn timer (fun t => set_t_when (u32 (t_when t - t_delta t)) t)
    | None => ret tt
    end ;;
    CancelEacked_words (Z.to_nat (remoteMskSz k)) conn (h_ackMsk hdr)
                       (u32 (start + 1)) 0.

(** [mask[i]] of a [uint32_t mask[ARDP_MAX_EACK_MASK]]. *)
Definition get_mask (l : list Z) (i : Z) : M Z :=
  match l !! Z.to_nat i with
  | Some w => ret w
  | None => undefined "EACK mask index out of range"
  end.

Definition store_word (i w : Z) (l : list Z) : list Z := <[Z.to_nat i := w]> l.

(** The [for] loop of [UpdateRcvMsk]. *)
Fixpoint UpdateRcvMsk_loop (n : nat) (conn : ConnPtr) (i skip lshift rshift : Z)
    (newSz : Z) : M Z :=
  match n with
  | O => ret newSz
  | S n' =>
      k <- get_conn conn ;;
      mi <- get_mask (mask (rcvMsk k)) i ;;
      if mi =? 0 then
        UpdateRcvMsk_loop n' conn (i + 1) skip lshift rshift newSz
      else
        mp <- get_mask (mask (rcvMsk k)) (i - 1) ;;
        let saveBits := Z.shiftr mi rshift in
        let mi' := u32 (Z.shiftl mi lshift) in
        let mp' := Z.lor mp saveBits in
        let newSz := if 0 <? mi' then u16 (i - skip) else newSz in
        modify_conn conn (fun k =>
          let m := rcvMsk k in
          let msk' := store_word (i - 1) mp' (store_word i mi' (mask m)) in
          let htn' := store_word i mi' (store_word (i - 1) mp' (htnMask m)) in
          set_rcvMsk (set_htnMask htn' (set_mask msk' m)) k) ;;
        UpdateRcvMsk_loop n' conn (i + 1) skip lshift rshift newSz
  end.

(** [UpdateRcvMsk]; a shift of a [uint32_t] by 32 is undefined. *)
Definition UpdateRcvMsk (conn : ConnPtr) (delta : Z) : M unit :=
  let skip := delta / 32 in
  let lshift := 32 - delta mod 32 in
  let rshift := 32 - lshift in
  k <- get_conn conn ;;
  ms <- get_mask (mask (rcvMsk k)) skip ;;
  if lshift =? 32 then undefined "shift of a 32-bit value by 32"
  else
    let m0 := u32 (Z.shiftl ms lshift) in
    modify_conn conn (fun k =>
      set_rcvMsk (set_mask (store_word 0 m0 (mask (rcvMsk k))) (rcvMsk k)) k) ;;
    let newSz := if 0 <? m0 then 1 else 0 in
    newSz <- UpdateRcvMsk_loop (Z.to_nat (msk_sz (rcvMsk k) - (skip + 1))) conn
                               (skip + 1) skip lshift rshift newSz ;;
    modify_conn conn (fun k => set_rcvMsk (set_msk_sz newSz (rcvMsk k)) k).

(** [AddRcvMsk] *)
Definition AddRcvMsk (conn : ConnPtr) (delta : Z) : M unit :=
  let bin32 := u32 (delta - 1) / 32 in
  let offset := u32 (32 - u32 (delta - u32 (Z.shiftl bin32 5))) in
  k <- get_conn conn ;;
  assert_ (bin32 <? msk_fixedSz (rcvMsk k)) "bin32 < conn->rcvMsk.fixedSz" ;;
  mb <- get_mask (mask (rcvMsk k)) bin32 ;;
  if 32 <=? offset then undefined "shift of an int by 32 or more"
  else
    let mb' := Z.lor mb (u32 (Z.shiftl 1 offset)) in
    modify_conn conn (fun k =>
      let m := rcvMsk k in
      let m := set_mask (store_word bin32 mb' (mask m)) m in
      let m := if msk_sz m <? bin32 + 1 then set_msk_sz (u16 (bin32 + 1)) m else m in
      let m := set_htnMask (store_word bin32 mb' (htnMask m)) m in
      set_rcvMsk m k).

(** The validation loop over the fragments of a re-assembled message;
    returns the final [fragment]. *)
Fixpoint check_fragments (n : nat) (conn : ConnPtr) (seg : ArdpSeg)
    (fragment : nat) : M nat :=
  match n with
  | O => ret fragment
  | S n' =>
      f <- get_rcv conn fragment ;;
      assert_ (rcv_inUse f) "Gap in fragmented message" ;;
      assert_ (negb (rcv_isDelivered f))
              "Error: Fragment has been delivered already?" ;;
      assert_ ((rcv_som f =? SOM seg) && (rcv_fcnt f =? FCNT seg))
              "Lost track of received fragment" ;;
      check_fragments n' conn seg (rcv_next f)
  end.

(** The [do ... while] loop of [AddRcvBuffer]; returns [delta]. *)
Fixpoint AddRcvBuffer_deliver (n : nat) (conn : ConnPtr) (seg : ArdpSeg)
    (current : nat) (delta : Z) (deliver : bool) : M Z :=
  match n with
  | O => abort OutOfFuel
  | S n' =>
      cur <- get_rcv conn current ;;
      modify_conn conn (set_RCV_CUR (rcv_seq cur)) ;;
      deliver <-
        (if 1 <? rcv_fcnt cur then
           if rcv_seq cur =? u32 (rcv_som cur + (rcv_fcnt cur - 1)) then
             k <- get_conn conn ;;
             if RCV_MAX k =? 0 then undefined "remainder by zero (RCV.MAX)"
             else
               let startFrag := Z.to_nat (u16 (SOM seg mod RCV_MAX k)) in
               fragment <- check_fragments (Z.to_nat (rcv_fcnt cur)) conn seg startFrag ;;
               a <- call_RecvCb conn startFrag ER_OK ;;
               if negb a then
                 timer <- AddTimer conn RECV_TIMER RecvTimerHandler_fn
                                   (CtxRcvBuf startFrag) ARDP_RECV_TIMEOUT ARDP_RECV_RETRY ;;
                 modify_rcv conn current (set_rcv_timer (Some timer)) ;;
                 ret false
               else
                 mark_delivered (Z.to_nat (rcv_fcnt cur)) conn fragment ;;
                 ret true
           else ret deliver
         else if deliver then
           a <- call_RecvCb conn current ER_OK ;;
           if negb a then
             timer <- AddTimer conn RECV_TIMER RecvTimerHandler_fn
                               (CtxRcvBuf current) ARDP_RECV_TIMEOUT ARDP_RECV_RETRY ;;
             modify_rcv conn current (set_rcv_timer (Some timer)) ;;
             ret false
           else
             modify_rcv conn current (set_rcv_isDelivered true) ;;
             ret true
         else ret false) ;;
      let delta := u32 (delta + 1) in
      nx <- get_rcv conn (rcv_next cur) ;;
      if rcv_seq nx =? u32 (SEQ seg + delta)
      then AddRcvBuffer_deliver n' conn seg (rcv_next cur) delta deliver
      else ret delta
  end.

(** [AddRcvBuffer]; [payload] is what follows the header in [buf]. *)
Definition AddRcvBuffer (conn : ConnPtr) (seg : ArdpSeg) (payload : list Z)
    (len : Z) (ordered : bool) : M QStatus :=
  k <- get_conn conn ;;
  if RCV_MAX k =? 0 then undefined "remainder by zero (RCV.MAX)"
  else
    let index := u16 (SEQ seg mod RCV_MAX k) in
    let current := Z.to_nat index in
    let previous := Z.to_nat (u32 (index - 1) mod RCV_MAX k) in
    let hdrlen := rcvHdrLen k in
    (if negb (hdrlen =? len - DLEN seg) then assert_ false "false" else ret tt) ;;
    if (RBUF_window k =? 0) && negb (SEQ32_LT (SEQ seg) (RBUF_last k)) then
      assert_ false "AddRcvBuffer: Attempt to add to a full window" ;;
      ret ER_FAIL
    else if RBUF_MAX k <? DLEN seg then ret ER_FAIL
    else
      cur <- get_rcv conn current ;;
      assert_ (negb (rcv_inUse cur))
              "AddRcvBuffer: attempt to overwrite buffer that has not been released" ;;
      (if SEQ32_LT (RBUF_last k) (SEQ seg) then
         assert_ (u32 (SEQ seg - RBUF_last k) <? RCV_MAX k)
                 "(seg->SEQ - conn->RBUF.last) < conn->RCV.MAX" ;;
         modify_conn conn (set_RBUF_last (SEQ seg))
       else ret tt) ;;
      modify_rcv conn current (fun b =>
        set_rcv_som (SOM seg)
          (set_rcv_fcnt (FCNT seg)
            (set_rcv_data (take (Z.to_nat (DLEN seg)) payload)
              (set_rcv_inUse true
                (set_rcv_datalen (DLEN seg) (set_rcv_seq (SEQ seg) b)))))) ;;
      (if ordered then
         prev <- get_rcv conn previous ;;
         delta <- AddRcvBuffer_deliver fuel conn seg current 0 (rcv_isDelivered prev) ;;
         if 1 <? delta then UpdateRcvMsk conn (u32 (delta + 1)) else ret tt
       else
         k <- get_conn conn ;;
         AddRcvMsk conn (u32 (SEQ seg - (RCV_CUR k + 1)))) ;;
      modify_conn conn (fun k =>
        set_RBUF_window (u32 (RCV_MAX k - (u32 (RBUF_last k - RBUF_first k) + 1))) k) ;;
      ret ER_OK.

(** The release loop of [UpdateRcvBuffers]. *)
Fixpoint UpdateRcvBuffers_release (n : nat) (conn : ConnPtr) (consumed : nat)
    : M unit :=
  match n with
  | O => ret tt
  | S n' =>
      b <- get_rcv conn consumed ;;
      assert_ (rcv_inUse b)
              "UpdateRcvBuffers: Attempt to release a buffer that is not in use" ;;
      assert_ (rcv_isDelivered b)
              "UpdateRcvBuffers: Attempt to release a buffer that has not been delivered" ;;
      modify_rcv conn consumed (fun b => set_rcv_isDelivered false (set_rcv_inUse false b)) ;;
      modify_conn conn (fun k => set_RBUF_first (u32 (RBUF_first k + 1)) k) ;;
      UpdateRcvBuffers_release n' conn (rcv_next b)
  end.

(** [UpdateRcvBuffers]; [consumed] is the slot the user hands back. *)
Definition UpdateRcvBuffers (conn : ConnPtr) (consumed : nat) : M QStatus :=
  k <- get_conn conn ;;
  b <- get_rcv conn consumed ;;
  let count := rcv_fcnt b in
  assert_ (RBUF_first k =? rcv_seq b) "conn->RBUF.first == consumed->seq" ;;
  let seq := rcv_seq b in
  if RCV_MAX k =? 0 then undefined "remainder by zero (RCV.MAX)"
  else
    let index := Z.to_nat (u16 (seq mod RCV_MAX k)) in
    if negb (Nat.eqb index consumed) then
      assert_ false "UpdateRcvBuffers: Buffer sequence validation failed" ;;
      ret ER_FAIL
    else
      assert_ (rcv_fcnt b <? 1) "fcnt cannot be less than one!" ;;
      UpdateRcvBuffers_release (Z.to_nat count) conn consumed ;;
      k <- get_conn conn ;;
      (if SEQ32_LT (RBUF_last k) (RBUF_first k) then
         modify_conn conn (fun k =>
           set_RBUF_last (RBUF_first k) (set_RBUF_window (RCV_MAX k) k))
       else
         modify_conn conn (fun k =>
           set_RBUF_window (u32 (RCV_MAX k - (u32 (RBUF_last k - RBUF_first k) + 1))) k)) ;;
      ret ER_OK.

(** [ARDP_RecvReady] *)
Definition ARDP_RecvReady (conn : ConnPtr) (rcv : nat) : M QStatus :=
  valid <- IsConnValid conn ;;
  if negb valid then ret ER_ARDP_INVALID_STATE
  else UpdateRcvBuffers conn rcv.

(** [ARDP_Send]; [buf] is the address of the user buffer, 0 for [NULL]. *)
Definition ARDP_Send (conn : ConnPtr) (buf len ttl : Z) : M QStatus :=
  valid <- IsConnValid conn ;;
  if negb valid then ret ER_ARDP_INVALID_STATE
  else
    k <- get_conn conn ;;
    if negb (bool_decide (STATE k = OPEN)) then ret ER_ARDP_INVALID_STATE
    else if (buf =? 0) || (len =? 0) then ret ER_INVALID_DATA
    else if (window k =? 0) || (window k <=? u32 (SND_NXT k - SND_UNA k))
    then ret ER_ARDP_BACKPRESSURE
    else SendData conn buf len ttl.

(** [random()] *)
Definition random : M Z := pop randq set_randq 0.

(** [malloc]: [true] when the allocation succeeds. *)
Definition malloc_ok : M bool := pop mallocq set_mallocq true.

(** A record after [memset(conn, 0, sizeof(ArdpConnRecord))].  [STATE] has
    no constant for 0; the record is given [CLOSED], which [InitConnRecord]
    assigns before the field is read. *)
Definition zero_conn : ArdpConnRecord :=
  mkConn CLOSED false 0 0 0 0 0 [] 0 0 0 0 0 0 [] 0 0 0 0 0 0 0 0 0 0 0 0
         (mkRcvMsk (replicate (Z.to_nat (ARDP_MAX_EACK_MASK P)) 0)
                   (replicate (Z.to_nat (ARDP_MAX_EACK_MASK P)) 0) 0 0)
         0 0 [] 0.

(** [NewConnRecord] followed by [EnList(handle->conns.bwd, conn)].  The
    source puts the record on the list only after [InitConnRecord] (and,
    in [ARDP_Connect], [InitRcv]); nothing looks at the list in between. *)
Definition NewConnRecord : M ConnPtr :=
  conn <- fresh_ptr ;;
  modify_handle (fun h => set_conns (conns h ++ [(conn, zero_conn)]) h) ;;
  ret conn.

(** [InitSnd] *)
Definition InitSnd (conn : ConnPtr) : M unit :=
  r <- random ;;
  let iss := u32 r in
  modify_conn conn (fun k =>
    set_SND_MAX 0 (set_SND_UNA iss (set_SND_NXT (u32 (iss + 1)) (set_SND_ISS iss k)))).

Definition zero_rcv (next : nat) : ArdpRcvBuf :=
  mkRcvBuf [] 0 0 false true 0 0 None next.

(** [InitRcv] *)
Definition InitRcv (conn : ConnPtr) (segmax segbmax : Z) : M QStatus :=
  modify_conn conn (fun k =>
    set_RBUF_window segmax (set_RBUF_MAX segbmax (set_RCV_MAX segmax k))) ;;
  ok1 <- malloc_ok ;;
  if negb ok1 then ret ER_OUT_OF_MEMORY
  else
    ok2 <- malloc_ok ;;
    if negb ok2 then ret ER_OUT_OF_MEMORY
    else
      let n := Z.to_nat segmax in
      modify_conn conn (set_RBUF_rcv
        (map (fun i => zero_rcv (Nat.modulo (S i) n)) (seq 0 n))) ;;
      ret ER_OK.

Fixpoint PostInitRcv_loop (n : nat) (conn : ConnPtr) (i : nat) (irs : Z)
    : M unit :=
  match n with
  | O => ret tt
  | S n' =>
      modify_rcv conn i (set_rcv_seq irs) ;;
      PostInitRcv_loop n' conn (S i) irs
  end.

(** [PostInitRcv] *)
Definition PostInitRcv (conn : ConnPtr) : M unit :=
  modify_conn conn (fun k =>
    set_RBUF_last (u32 (RCV_CUR k + 1)) (set_RBUF_first (u32 (RCV_CUR k + 1)) k)) ;;
  k <- get_conn conn ;;
  PostInitRcv_loop (Z.to_nat (RCV_MAX k)) conn 0 (RCV_IRS k).

(** [InitConnRecord] *)
Definition InitConnRecord (conn : ConnPtr) (sock_ ipAddr_ ipPort_ foreign_ : Z)
    : M unit :=
  modify_conn conn (set_STATE CLOSED) ;;
  InitSnd conn ;;
  r <- random ;;
  modify_conn conn (fun k =>
    set_rcvHdrLen (ARDP_FIXED_HEADER_LEN P)
      (set_sndHdrLen (ARDP_FIXED_HEADER_LEN P)
        (set_timers []
          (set_ipPort ipPort_
            (set_ipAddr ipAddr_
              (set_sock sock_
                (set_foreign foreign_
                  (set_local (u16 (r mod 65534 + 1)) k)))))))).

Definition zero_hdr : ArdpHeader := mkHeader 0 0 0 0 0 0 0 0 0 0 0 [].

Definition zero_snd : ArdpSndBuf := mkSndBuf 0 0 zero_hdr None 0 0 false false 0.

(** [InitSBUF] *)
Definition InitSBUF (conn : ConnPtr) : M QStatus :=
  k <- get_conn conn ;;
  let overhead := 20 + 8 in
  let ackMaskSize := Z.shiftr (u32 (RCV_MAX k + 31)) 5 in
  let hdrLen := u8 (ARDP_FIXED_HEADER_LEN P + ackMaskSize * 4) in
  let maxDlen := u16 (u32 (SBUF_MAX k - overhead - hdrLen)) in
  modify_conn conn (fun k =>
    set_SBUF_maxDlen maxDlen
      (set_rcvMsk (set_msk_fixedSz (u16 ackMaskSize) (rcvMsk k))
        (set_sndHdrLen hdrLen k))) ;;
  if SBUF_MAX k <? overhead + hdrLen then ret ER_FAIL
  else
    ok1 <- malloc_ok ;;
    if negb ok1 then ret ER_OUT_OF_MEMORY
    else
      ok2 <- malloc_ok ;;
      if negb ok2 then ret ER_OUT_OF_MEMORY
      else
        modify_conn conn (set_SBUF_snd (replicate (Z.to_nat (SND_MAX k)) zero_snd)) ;;
        if maxDlen =? 0 then undefined "division by zero (SBUF.maxDlen)"
        else
          modify_conn conn (set_minSendWindow
            (u16 (u32 (ALLJOYN_MAX_PACKET_LEN P + (maxDlen - 1)) / maxDlen))) ;;
          ret ER_OK.

(** [ProtocolDemux]: ([local], [foreign]) *)
Definition ProtocolDemux (d : Datagram) : Z * Z :=
  (h_dst (d_hdr d), h_src (d_hdr d)).

(** [FindConn] *)
Fixpoint FindConn_list (l : list (ConnPtr * ArdpConnRecord)) (local_ foreign_ : Z)
    : option ConnPtr :=
  match l with
  | [] => None
  | (c, k) :: rest =>
      if (local k =? local_) && (foreign k =? foreign_) then Some c
      else FindConn_list rest local_ foreign_
  end.

Definition FindConn (local_ foreign_ : Z) : M (option ConnPtr) :=
  h <- get_handle ;;
  ret (FindConn_list (conns h) local_ foreign_).

(** [DoSendSyn]; [window] and [ttl] of the segment are not initialised by
    the source and are not part of [ArdpSynSegment] here. *)
Definition DoSendSyn (conn : ConnPtr) (synack : bool) (seq ack segmax segbmax : Z)
    (buf len : Z) : M QStatus :=
  k <- get_conn conn ;;
  h <- get_handle ;;
  let flags := Z.lor ARDP_FLAG_SYN ARDP_FLAG_VER in
  let flags := if synack then Z.lor flags ARDP_FLAG_ACK else flags in
  let ss := mkSyn flags (u8 (sizeof_ArdpSynSegment / 2)) (local k) (foreign k)
                  (u16 len) (u32 seq) (u32 ack) (u16 segmax) (u16 segbmax)
                  (u16 (ARDP_FLAG_SDM P)) in
  assert_ (negb (buf =? 0) && negb (len =? 0)) "buf != NULL && len != 0" ;;
  AddTimer conn CONNECT_TIMER ConnectTimerHandler_fn CtxNULL
           (connectTimeout (config h)) ARDP_CONNECT_RETRY ;;
  SendMsg conn (PktSyn ss buf (u16 len)).

(** [SendSyn] *)
Definition SendSyn (conn : ConnPtr) (iss segmax segbmax buf len : Z)
    : M QStatus :=
  SetState conn SYN_SENT ;;
  DoSendSyn conn false iss 0 segmax segbmax buf len.

(** [SendSynAck] *)
Definition SendSynAck (conn : ConnPtr) (seq ack recvmax recvbmax buf len : Z)
    : M QStatus :=
  DoSendSyn conn true seq ack recvmax recvbmax buf len.

(** [SendRst]: one [qcc::SendTo]; [seq], [ack] are 0 and the other fields
    of the local header are not initialised by the source. *)
Definition SendRst (ipAddr_ ipPort_ local_ foreign_ : Z) : M QStatus :=
  let h := mkHeader (Z.lor ARDP_FLAG_RST ARDP_FLAG_VER)
                    (u8 (ARDP_FIXED_HEADER_LEN P / 2)) local_ foreign_
                    0 0 0 0 0 0 0 [] in
  r <- pop sendq set_sendq SockSent ;;
  emit (EvSendTo (PktRst ipAddr_ ipPort_ h) r) ;;
  ret (match r with
       | SockSent => ER_OK
       | SockAgain => ER_WOULDBLOCK
       | SockError => ER_OS_ERROR
       end).

(** A call through [handle->cb.AcceptCb], tested for [NULL] by the caller. *)
Definition call_AcceptCb (conn : ConnPtr) (len : Z) (status : QStatus) : M bool :=
  a <- pop acceptcbq set_acceptcbq true ;;
  emit (EvAcceptCb conn len status a) ;;
  ret a.

(** [PostInitRcv], [SetState(conn, OPEN)], [CancelTimer(CONNECT_TIMER)],
    [conn->lastSeen = TimeNow(...)] and [AddTimer(WINDOW_CHECK_TIMER ...)]:
    the steps that both ways into [OPEN] take in this order. *)
Definition enter_OPEN (conn : ConnPtr) : M unit :=
  PostInitRcv conn ;;
  SetState conn OPEN ;;
  CancelTimer conn CONNECT_TIMER CtxNULL ;;
  t <- TimeNow ;;
  modify_conn conn (set_lastSeen t) ;;
  h <- get_handle ;;
  AddTimer conn WINDOW_CHECK_TIMER WindowCheckTimerHandler_fn CtxNULL
           (persistTimeout (config h)) ARDP_RETRY_ALWAYS ;;
  ret tt.

(** [ntohs] of a value that is already in host order. *)
Definition ntohs_again (x : Z) : Z := if big_endian P then u16 x else bswap16 x.

(** [ArdpMachine]; [d] is the datagram in [buf]. *)
Definition ArdpMachine (conn : ConnPtr) (seg : ArdpSeg) (d : Datagram) (len : Z)
    : M unit :=
  k <- get_conn conn ;;
  h <- get_handle ;;
  let RST_VER := Z.lor ARDP_FLAG_RST ARDP_FLAG_VER in
  let ACK_VER := Z.lor ARDP_FLAG_ACK ARDP_FLAG_VER in
  match STATE k with
  | CLOSED =>
      if has_flag (FLG seg) ARDP_FLAG_RST then ret tt
      else if has_flag (FLG seg) ARDP_FLAG_ACK || has_flag (FLG seg) ARDP_FLAG_NUL
      then Send conn RST_VER 0 (ACK seg + 1) (RCV_MAX k) ;; ret tt
      else Send conn (Z.lor RST_VER ARDP_FLAG_ACK) 0 (SEQ seg) (RCV_MAX k) ;; ret tt
  | LISTEN =>
      if has_flag (FLG seg) ARDP_FLAG_RST then ret tt
      else if has_flag (FLG seg) ARDP_FLAG_ACK || has_flag (FLG seg) ARDP_FLAG_NUL
      then Send conn RST_VER (ACK seg + 1) 0 0 ;; ret tt
      else if has_flag (FLG seg) ARDP_FLAG_SYN then
        let remote := u16 (Z.shiftr (u32 (SEG_MAX seg + 31)) 5) in
        modify_conn conn (fun k =>
          set_SBUF_MAX (ntohs_again (BMAX seg))
            (set_window (u16 (SEG_MAX seg))
              (set_rcvHdrLen (u16 (ARDP_FIXED_HEADER_LEN P + remote * 4))
                (set_remoteMskSz remote
                  (set_SND_MAX (SEG_MAX seg)
                    (set_RCV_IRS (SEQ seg) (set_RCV_CUR (SEQ seg) k))))))) ;;
        if AcceptCb (cb h) then
          a <- call_AcceptCb conn (DLEN seg) ER_OK ;;
          if negb a then DelConnRecord conn else ret tt
        else ret tt
      else ret tt
  | SYN_SENT =>
      if has_flag (FLG seg) ARDP_FLAG_RST then SetState conn CLOSED
      else if has_flag (FLG seg) ARDP_FLAG_SYN then
        let remote := u16 (Z.shiftr (u32 (SEG_MAX seg + 31)) 5) in
        modify_conn conn (fun k =>
          set_SBUF_MAX (d_segbmax d)
            (set_RCV_IRS (SEQ seg)
              (set_RCV_CUR (SEQ seg)
                (set_foreign (SRC seg)
                  (set_window (u16 (d_segmax d))
                    (set_rcvHdrLen (u16 (ARDP_FIXED_HEADER_LEN P + remote * 4))
                      (set_remoteMskSz remote
                        (set_SND_MAX (d_segmax d) k)))))))) ;;
        status <- InitSBUF conn ;;
        assert_ (bool_decide (status = ER_OK))
                "ArdpMachine():SYN_SENT: Failed to initialize Send queue" ;;
        if has_flag (FLG seg) ARDP_FLAG_ACK then
          modify_conn conn (set_SND_UNA (u32 (ACK seg + 1))) ;;
          enter_OPEN conn ;;
          k <- get_conn conn ;;
          (if ConnectCb (cb h) then
             assert_ (negb (passive k)) "!conn->passive" ;;
             emit (EvConnectCb conn false (DLEN seg) ER_OK)
           else ret tt) ;;
          Send conn ACK_VER (SND_NXT k) (RCV_CUR k) (RCV_MAX k) ;;
          ret tt
        else
          if AcceptCb (cb h) then call_AcceptCb conn (DLEN seg) ER_OK ;; ret tt
          else ret tt
      else if has_flag (FLG seg) ARDP_FLAG_ACK then
        if negb (has_flag (FLG seg) ARDP_FLAG_RST) && negb (ACK seg =? SND_ISS k)
        then
          SetState conn CLOSED ;;
          Send conn RST_VER (ACK seg + 1) 0 (RCV_MAX k) ;;
          ret tt
        else ret tt
      else ret tt
  | SYN_RCVD =>
      if negb (IN_RANGE (u32 (RCV_CUR k + 1)) (RCV_MAX k) (SEQ seg)) then
        Send conn ACK_VER (SND_NXT k) (RCV_CUR k) (RCV_MAX k) ;; ret tt
      else if has_flag (FLG seg) ARDP_FLAG_RST then
        if passive k then SetState conn LISTEN else SetState conn CLOSED
      else if has_flag (FLG seg) ARDP_FLAG_SYN then
        SetState conn CLOSED ;;
        Send conn RST_VER (ACK seg + 1) 0 (RCV_MAX k) ;; ret tt
      else if has_flag (FLG seg) ARDP_FLAG_EACK then
        Send conn RST_VER (ACK seg + 1) 0 (RCV_MAX k) ;; ret tt
      else if has_flag (FLG seg) ARDP_FLAG_ACK then
        if ACK seg =? SND_ISS k then
          enter_OPEN conn ;;
          k <- get_conn conn ;;
          (if ConnectCb (cb h) then
             assert_ (passive k) "conn->passive" ;;
             emit (EvConnectCb conn true 0 ER_OK)
           else ret tt) ;;
          if negb (DLEN seg =? 0) || has_flag (FLG seg) ARDP_FLAG_NUL then
            (if negb (DLEN seg =? 0) then
               status <- AddRcvBuffer conn seg (d_payload d) len
                                      (SEQ seg =? u32 (RCV_CUR k + 1)) ;;
               assert_ (bool_decide (status = ER_OK))
                       "ArdpMachine():SYN_RCVD: Failed to add the very first RCV buffer"
             else ret tt) ;;
            k <- get_conn conn ;;
            Send conn ACK_VER (SND_NXT k) (RCV_CUR k) (RBUF_window k) ;; ret tt
          else ret tt
        else
          Send conn RST_VER (ACK seg + 1) 0 (RCV_MAX k) ;; ret tt
      else ret tt
  | OPEN =>
      if negb (IN_RANGE (u32 (RCV_CUR k + 1)) (RCV_MAX k) (SEQ seg)) then
        assert_ false "false" ;;
        Send conn ACK_VER (SND_NXT k) (RCV_CUR k) (RBUF_window k) ;; ret tt
      else if has_flag (FLG seg) ARDP_FLAG_RST then
        AddTimer conn DISCONNECT_TIMER DisconnectTimerHandler_fn CtxNULL
                 (timewait (config h)) ARDP_DISCONNECT_RETRY ;;
        SetState conn CLOSE_WAIT
      else if has_flag (FLG seg) ARDP_FLAG_SYN then
        (if passive k then SetState conn LISTEN else SetState conn CLOSED) ;;
        Send conn RST_VER (ACK seg + 1) 0 (RBUF_window k) ;; ret tt
      else if has_flag (FLG seg) ARDP_FLAG_NUL then
        Send conn ACK_VER (SND_NXT k) (RCV_CUR k) (RBUF_window k) ;; ret tt
      else
        (if has_flag (FLG seg) ARDP_FLAG_ACK then
           if IN_RANGE (SND_UNA k) (u32 (u32 (SND_NXT k - SND_UNA k) + 1)) (ACK seg)
           then
             FlushAckedSegments conn (ACK seg) ;;
             modify_conn conn (set_SND_UNA (u32 (ACK seg + 1)))
           else ret tt
         else ret tt) ;;
        (if has_flag (FLG seg) ARDP_FLAG_EACK
         then CancelEackedSegments conn (d_hdr d) else ret tt) ;;
        (if negb (DLEN seg =? 0) then
           k <- get_conn conn ;;
           status <-
             (if SEQ32_LT (RCV_CUR k) (SEQ seg)
              then AddRcvBuffer conn seg (d_payload d) len
                                (SEQ seg =? u32 (RCV_CUR k + 1))
              else ret ER_OK) ;;
           if bool_decide (status = ER_OK) then
             k <- get_conn conn ;;
             Send conn ACK_VER (SND_NXT k) (RCV_CUR k) (RBUF_window k) ;; ret tt
           else ret tt
         else ret tt) ;;
        k <- get_conn conn ;;
        if negb (window k =? WINDOW seg) && SendWindowCb (cb h) then
          modify_conn conn (set_window (WINDOW seg)) ;;
          emit (EvSendWindowCb conn (WINDOW seg)
                  (if negb (WINDOW seg =? 0) then ER_OK else ER_ARDP_BACKPRESSURE))
        else ret tt
  | CLOSE_WAIT => ret tt
  end.

(** [Receive] *)
Definition Receive (conn : ConnPtr) (d : Datagram) (len : Z) : M QStatus :=
  k <- get_conn conn ;;
  let header := d_hdr d in
  (if negb (has_flag (h_flags header) ARDP_FLAG_SYN)
      && negb (h_hlen header * 2 =? rcvHdrLen k)
   then assert_ false "false" else ret tt) ;;
  let SEG := mkSeg (h_seq header) (h_ack header) (RCV_MAX k) (SBUF_MAX k)
                   (h_som header) (h_fcnt header) (h_dlen header)
                   (h_dst header) (h_src header) (h_window header)
                   (h_ttl header) (h_flags header) (h_hlen header) in
  ArdpMachine conn SEG d len ;;
  ret ER_OK.

(** [Accept]; the fields of [SEG] the source leaves uninitialised are 0. *)
Definition Accept (conn : ConnPtr) (d : Datagram) (len : Z) : M QStatus :=
  k <- get_conn conn ;;
  assert_ (bool_decide (STATE k = CLOSED)) "Accept(): ConnRecord in invalid state" ;;
  let syn := d_hdr d in
  if negb (h_flags syn =? Z.lor ARDP_FLAG_SYN ARDP_FLAG_VER) then
    assert_ false "false" ;;
    ret ER_FAIL
  else
    let SEG := mkSeg (h_seq syn) (h_ack syn) (d_segmax d) (d_segbmax d)
                     0 0 (h_dlen syn) (h_dst syn) (h_src syn) 0 0
                     (h_flags syn) 0 in
    modify_conn conn (fun k =>
      set_passive true
        (set_foreign (h_src syn)
          (set_STATE LISTEN
            (set_SBUF_MAX (d_segbmax d) (set_SND_MAX (d_segmax d) k))))) ;;
    ArdpMachine conn SEG d len ;;
    ret ER_OK.

(** What [ARDP_Run] does with a datagram that [RecvFrom] delivered:
    [Some status] when it returns [status], [None] when the loop goes on
    to the next [RecvFrom]. *)
Definition ARDP_Run_datagram (sock_ address port : Z) (d : Datagram)
    : M (option QStatus) :=
  let nbytes := d_nbytes d in
  if (0 <? nbytes) && (nbytes <? 65536) then
    let (local_, foreign_) := ProtocolDemux d in
    if local_ =? 0 then
      h <- get_handle ;;
      if accepting h && AcceptCb (cb h) then
        conn <- NewConnRecord ;;
        InitConnRecord conn sock_ address port foreign_ ;;
        status <- Accept conn d nbytes ;;
        ret (Some status)
      else
        status <- SendRst address port local_ foreign_ ;;
        ret (Some status)
    else
      c <- FindConn local_ foreign_ ;;
      match c with
      | Some conn =>
          t <- TimeNow ;;
          modify_conn conn (set_lastSeen t) ;;
          assert_ (negb (t =? 0)) "conn->lastSeen != 0" ;;
          status <- Receive conn d nbytes ;;
          ret (Some status)
      | None =>
          c <- FindConn local_ 0 ;;
          match c with
          | Some conn =>
              t <- TimeNow ;;
              modify_conn conn (set_lastSeen t) ;;
              status <- Receive conn d nbytes ;;
              ret (Some status)
          | None => ret None
          end
      end
  else ret None.

(** The [while (socketReady)] loop of [ARDP_Run].  [RecvStatus ER_OK]
    stands for a successful read of no octets ([nbytes = 0]). *)
Fixpoint ARDP_Run_loop (n : nat) (sock_ : Z) : M QStatus :=
  match n with
  | O => abort OutOfFuel
  | S n' =>
      r <- pop recvq set_recvq (RecvStatus ER_WOULDBLOCK) ;;
      match r with
      | RecvStatus ER_WOULDBLOCK => ret ER_OK
      | RecvStatus ER_OK => ARDP_Run_loop n' sock_
      | RecvStatus status => ret status
      | RecvDatagram address port d =>
          x <- ARDP_Run_datagram sock_ address port d ;;
          match x with
          | Some status => ret status
          | None => ARDP_Run_loop n' sock_
          end
      end
  end.

(** [ARDP_Run]: the status returned, and [*ms]. *)
Definition ARDP_Run (sock_ : Z) (socketReady : bool) : M (QStatus * Z) :=
  ms <- CheckTimers ;;
  if socketReady then
    status <- ARDP_Run_loop fuel sock_ ;;
    ret (status, ms)
  else ret (ER_FAIL, ms).

(** [ARDP_StartPassive] *)
Definition ARDP_StartPassive : M QStatus :=
  modify_handle (set_accepting true) ;;
  ret ER_OK.

(** [ARDP_Connect]: the status returned, and [*pConn]. *)
Definition ARDP_Connect (sock_ ipAddr_ ipPort_ segmax segbmax buf len ctx : Z)
    : M (QStatus * ConnPtr) :=
  conn <- NewConnRecord ;;
  InitConnRecord conn sock_ ipAddr_ ipPort_ 0 ;;
  status <- InitRcv conn segmax segbmax ;;
  if negb (bool_decide (status = ER_OK)) then
    modify_handle (fun h => set_conns (remove_conn conn (conns h)) h) ;;
    ret (status, conn)
  else
    modify_conn conn (fun k => set_passive false (set_context ctx k)) ;;
    k <- get_conn conn ;;
    status <- SendSyn conn (SND_ISS k) (RCV_MAX k) (RBUF_MAX k) buf len ;;
    ret (status, conn).

(** [ARDP_Accept] *)
Definition ARDP_Accept (conn : ConnPtr) (segmax segbmax buf len : Z)
    : M QStatus :=
  valid <- IsConnValid conn ;;
  if negb valid then ret ER_ARDP_INVALID_STATE
  else
    status <- InitRcv conn segmax segbmax ;;
    if negb (bool_decide (status = ER_OK)) then
      DelConnRecord conn ;; ret status
    else
      status <- InitSBUF conn ;;
      if negb (bool_decide (status = ER_OK)) then
        DelConnRecord conn ;; ret status
      else
        SetState conn SYN_RCVD ;;
        k <- get_conn conn ;;
        SendSynAck conn (SND_ISS k) (RCV_CUR k) (RCV_MAX k) (RBUF_MAX k) buf len ;;
        ret ER_OK.

End Engine.

(** [ARDP_AllocHandle]: the engine before the first call, in a world [w]. *)
Definition ARDP_AllocHandle (cfg : ArdpGlobalConfig) (w : World) : St :=
  mkSt (mkHandle cfg (mkCallbacks false false false false false false) false [] 0)
       w [] 1.

(** [ARDP_SetAcceptCb] ... [ARDP_SetSendWindowCb], with a non-[NULL]
    argument. *)
Definition ARDP_SetCallbacks (cbs : ArdpCallbacks) : M unit :=
  modify_handle (set_cb cbs).


(** * Properties *)

(** ** Views of the state *)

(** The record [c] points to, if it is on the list. *)
Definition conn_of (s : St) (c : ConnPtr) : option ArdpConnRecord :=
  lookup_conn c (conns (handle s)).

(** The state after an assignment [f] to the record [c]. *)
Definition upd_conn (c : ConnPtr) (f : ArdpConnRecord -> ArdpConnRecord)
    (s : St) : St :=
  set_handle (set_conns (update_conn c f (conns (handle s))) (handle s)) s.

(** The state with the receive queue [q]. *)
Definition with_recvq (q : list RecvResult) (s : St) : St :=
  set_world (set_recvq q (world s)) s.



(** ** Invariants of the send window *)

(** [0 <= SBUF.pending <= SND.MAX] and [SND.NXT - SND.UNA = SBUF.pending]. *)
Definition snd_accounting_ok (k : ArdpConnRecord) : bool :=
  (0 <=? SBUF_pending k) && (SBUF_pending k <=? SND_MAX k)
  && (u32 (SND_NXT k - SND_UNA k) =? SBUF_pending k).

(** The number of slots of the send array that are in use. *)
Definition snd_in_use (k : ArdpConnRecord) : Z :=
  Z.of_nat (length (filter (fun b => snd_inUse b = true) (SBUF_snd k))).

(** ** Observations on a trace *)

Definition is_SendCb (e : Event) : bool :=
  match e with EvSendCb _ _ _ _ => true | _ => false end.

Definition SendCb_events (t : list Event) : list Event :=
  filter (fun e => is_SendCb e = true) t.

(** The payload lengths of the data segments handed to the socket. *)
Fixpoint data_lengths (t : list Event) : list Z :=
  match t with
  | [] => []
  | EvSendmsg _ (PktData _ _ _ datalen) _ :: rest => datalen :: data_lengths rest
  | _ :: rest => data_lengths rest
  end.

(** The events [s'] has recorded after those of [s]. *)
Definition new_events (s s' : St) : list Event :=
  drop (length (trace s)) (trace s').

(** ** The receive window *)

Definition rcv_used (k : ArdpConnRecord) : list bool := rcv_inUse <$> RBUF_rcv k.


(** No receive slot is in use. *)
Definition ring_empty (k : ArdpConnRecord) : bool := forallb negb (rcv_used k).

(** [conn->RCV.MAX - ((conn->RBUF.last - conn->RBUF.first) + 1)] *)
Definition window_formula (k : ArdpConnRecord) : Z :=
  u32 (RCV_MAX k - (u32 (RBUF_last k - RBUF_first k) + 1)).

(** The accounting of the receive window. *)
Definition rcv_window_ok (k : ArdpConnRecord) : Prop :=
  if ring_empty k
  then RBUF_window k = RCV_MAX k /\ RBUF_last k = RBUF_first k
  else RBUF_window k = window_formula k.

(** ** The ring of receive slots *)



Definition ring_slot (k : ArdpConnRecord) (seq : Z) : nat :=
  Z.to_nat (u16 (seq mod RCV_MAX k)).



(** What the release loop of [UpdateRcvBuffers] does to the array. *)
Definition release (b : ArdpRcvBuf) : ArdpRcvBuf :=
  set_rcv_isDelivered false (set_rcv_inUse false b).

Fixpoint release_slots (cnt i : nat) (l : list ArdpRcvBuf) : list ArdpRcvBuf :=
  match cnt with
  | O => l
  | S m =>
      match l !! i with
      | Some b => release_slots m (rcv_next b) (<[i := release b]> l)
      | None => l
      end
  end.

Definition links_ok (l : list ArdpRcvBuf) : Prop :=
  forall i b, l !! i = Some b -> rcv_next b = ((i + 1) mod length l)%nat.

(** ** Datagrams [ARDP_Run] drops *)

(** A datagram [ARDP_Run] reads and drops: it is empty or too long, or it
    is addressed to a local port that no connection has. *)
Definition unmatched (h : ArdpHandle) (d : Datagram) : bool :=
  negb ((0 <? d_nbytes d) && (d_nbytes d <? 65536))
  || (negb (h_dst (d_hdr d) =? 0)
      && bool_decide (FindConn_list (conns h) (h_dst (d_hdr d)) (h_src (d_hdr d)) = None)
      && bool_decide (FindConn_list (conns h) (h_dst (d_hdr d)) 0 = None)).


(** ** The rules as the specification words them

    Three rules of the specification are compared with the code below;
    they are written down here as the specification states them. *)







(** ** Runs of the engine

    A connection is opened through the public entry points, against a
    peer whose datagrams and a clock whose readings are scripted. *)
Module Scenario.

Definition debug_build : Platform :=
  mkPlatform false 4294967295 28 8 135168 1 false.

Definition release_build : Platform :=
  mkPlatform true 4294967295 28 8 135168 1 false.

Definition config0 : ArdpGlobalConfig := mkConfig 10000 5000 5000 1000.

Definition all_callbacks : ArdpCallbacks := mkCallbacks true true true true true true.

(** The peer: address 10.0.0.1, UDP port 9955, ARDP port 9. *)
Definition peer_addr : Z := 167772161.
Definition peer_port : Z := 9955.

(** The state of a computation, whether it completed or stopped. *)
Definition state_of {A : Type} (r : Res A) : St :=
  match r with Ok _ s => s | Abort _ s => s end.

Definition with_ticks (q : list Z) (s : St) : St :=
  set_world (set_ticks q (world s)) s.
Definition with_sendq (q : list SockResult) (s : St) : St :=
  set_world (set_sendq q (world s)) s.
Definition from_peer (d : Datagram) : RecvResult :=
  RecvDatagram peer_addr peer_port d.

(** The SYN+ACK of the peer: it acknowledges [iss] and offers [segmax]
    segments of 1024 octets; its own sequence starts at 100. *)
Definition synack (iss segmax : Z) : Datagram :=
  mkDatagram 28 (mkHeader 67 14 9 42 0 100 iss 0 0 0 0 []) segmax 1024 [].

(** A bare ACK of the peer for [ack], advertising the window [win]. *)
Definition ack_segment (ack win : Z) : Datagram :=
  mkDatagram 32 (mkHeader 66 16 9 42 0 101 ack win 0 0 0 [0]) 0 0 [].

(** A data segment of the peer. *)
Definition data_segment (seq fcnt som : Z) (payload : list Z) : Datagram :=
  mkDatagram (32 + Z.of_nat (length payload))
             (mkHeader 66 16 9 42 (Z.of_nat (length payload)) seq 7 4 0 som fcnt [0])
             0 0 payload.

(** [ARDP_AllocHandle], the six [ARDP_Set...Cb], [ARDP_Connect] with
    [segmax = 4], [segbmax = 1024] and five octets at address 4096, then
    [ARDP_Run] on the SYN+ACK.  [random()] yields [iss], then 41 (the local
    port becomes 42); the clock reads 1000. *)
Definition opened (P : Platform) (iss segmax : Z) : St :=
  let s := ARDP_AllocHandle config0 (mkWorld 1000 [] [] [] [] [] [iss; 41] []) in
  let s := state_of (ARDP_SetCallbacks all_callbacks s) in
  let s := state_of (ARDP_Connect P 3 peer_addr peer_port 4 1024 4096 5 0 s) in
  state_of (ARDP_Run P 100 3 true (with_recvq [from_peer (synack iss segmax)] s)).

(** The connection record of these runs. *)
Definition the_conn : ConnPtr := 1%nat.

Definition conn_in (s : St) : ArdpConnRecord :=
  match lookup_conn the_conn (conns (handle s)) with
  | Some k => k
  | None => zero_conn debug_build
  end.

(** [ARDP_Run] with [socketReady = false], [dt] ms after the last reading
    of the clock. *)
Definition timers_after (P : Platform) (dt : Z) (s : St) : Res (QStatus * Z) :=
  ARDP_Run P 100 3 false (with_ticks [dt] s).

(** A message of two fragments (965 octets, [maxDlen = 964]) is sent; the
    socket takes the first fragment and reports [EAGAIN] for the second. *)
Definition two_fragments_sent : St :=
  state_of (ARDP_Send debug_build the_conn 4096 965 0
              (with_sendq [SockSent; SockAgain] (opened debug_build 1023 4))).

(** The timers are checked whenever one is due, until each retransmit
    timer has one retry left: at 1125, 1500, 1625, 2000, 2125, 2500, 2625
    and 3000 ms. *)
Definition before_abandon : St :=
  fold_left (fun s dt => state_of (timers_after debug_build dt s))
            [125; 375; 125; 375; 125; 375; 125; 375] two_fragments_sent.

(** A message of two fragments is sent and nothing is lost. *)
Definition fragments_in_flight : St :=
  state_of (ARDP_Send debug_build the_conn 4096 965 0 (opened debug_build 7 4)).

(** A message of one segment is sent. *)
Definition segment_in_flight : St :=
  state_of (ARDP_Send debug_build the_conn 4096 100 0 (opened debug_build 7 4)).

(** The peer offered one segment; a first message was sent and
    acknowledged, so that the only send slot has been used once. *)
Definition slot_reused : St :=
  let s := opened debug_build 7 1 in
  let s := state_of (ARDP_Send debug_build the_conn 4096 50 0 s) in
  state_of (ARDP_Run debug_build 100 3 true (with_recvq [from_peer (ack_segment 8 1)] s)).

(** One unfragmented segment of the peer was delivered to the user. *)
Definition delivered (P : Platform) : St :=
  state_of (ARDP_Run P 100 3 true
              (with_recvq [from_peer (data_segment 101 1 101 [1; 2; 3])] (opened P 7 4))).







End Scenario.

(** * Observations used by the statements about the engine *)

(** ** The surroundings, as the next call will find them *)

(** The next reading of the clock, and the state once it has been taken. *)
Definition clock_read (s : St) : Z :=
  u32 (now (world s) + match ticks (world s) with [] => 0 | d :: _ => d end).

Definition tick (s : St) : St :=
  set_world (set_now (clock_read s)
               (set_ticks (tail (ticks (world s))) (world s))) s.

(** The outcome of the next [sendmsg] or [sendto], the status [SendMsg]
    makes of it, and the state once the socket has answered. *)
Definition next_sent (s : St) : SockResult :=
  match sendq (world s) with [] => SockSent | r :: _ => r end.

Definition sendmsg_status (r : SockResult) : QStatus :=
  match r with
  | SockSent => ER_OK
  | SockAgain => ER_WOULDBLOCK
  | SockError => ER_FAIL
  end.

Definition socket_used (s : St) : St :=
  set_world (set_sendq (tail (sendq (world s))) (world s)) s.

(** The outcome of the next [malloc]. *)
Definition next_malloc (s : St) : bool :=
  match mallocq (world s) with [] => true | r :: _ => r end.

(** No two records of the handle have the same address, and [new] will
    not return the address of one of them. *)
Definition conns_distinct (s : St) : Prop :=
  NoDup (fst <$> conns (handle s)).

Definition fresh_conn (s : St) : Prop :=
  forall c k, (c, k) ∈ conns (handle s) -> (c < next_ptr s)%nat.

(** The timer [AddTimer] makes at the clock reading [t]. *)
Definition new_timer (timer : TimerPtr) (conn : ConnPtr) (type : ArdpTimerType)
    (handler : ArdpTimeoutHandler) (context : TimerContext) (timeout retry t : Z)
    : ArdpTimer :=
  mkTimer timer (Some handler) conn type
          (match type with WINDOW_CHECK_TIMER => CtxTimer timer | _ => context end)
          timeout (u32 (t + timeout)) (u16 retry).


(** The segment [Send] hands to the socket for the record [k]. *)
Definition header_only (k : ArdpConnRecord) (flags seq ack window : Z) : Packet :=
  let h := mkHeader (u8 flags) (u8 (sndHdrLen k / 2)) (local k) (foreign k) 0
                    (u32 seq) (u32 ack) (u16 window) 0 0 0 [] in
  PktHeader (if msk_sz (rcvMsk k) =? 0 then h
             else set_h_flags (u8 (Z.lor (h_flags h) ARDP_FLAG_EACK)) h)
            (take (Z.to_nat (msk_fixedSz (rcvMsk k))) (htnMask (rcvMsk k))).


(** The value of the next [random()] and the state once it was drawn;
    the state once [malloc] was called. *)
Definition next_random (s : St) : Z :=
  match randq (world s) with [] => 0 | r :: _ => r end.

Definition random_used (s : St) : St :=
  set_world (set_randq (tail (randq (world s))) (world s)) s.

Definition malloc_used (s : St) : St :=
  set_world (set_mallocq (tail (mallocq (world s))) (world s)) s.

(** The state in which the record [k] has just been put on the list
    under a new address. *)
Definition enlisted (k : ArdpConnRecord) (s : St) : St :=
  set_handle (set_conns (conns (handle s) ++ [(next_ptr s, k)]) (handle s))
             (set_next_ptr (S (next_ptr s)) s).


(** The earliest of [next] and the deadlines of the timers [l], taken in
    the order of the list as the loop of [CheckConnTimers] does. *)
Definition earliest (l : list ArdpTimer) (next : Z) : Z :=
  fold_left (fun n t => earlier (t_when t) n) l next.

(** No timer of the list is due at [now_]. *)
Definition none_due (now_ : Z) (l : list ArdpTimer) : bool :=
  forallb (fun t => now_ <? t_when t) l.

(** The timers of the record [k] have distinct addresses, none is due at
    [now_], and [fuel] covers a pass over them. *)
Definition idle_conn (fuel : nat) (now_ : Z) (k : ArdpConnRecord) : bool :=
  bool_decide (NoDup (t_ptr <$> timers k))
  && none_due now_ (timers k)
  && (length (timers k) <? fuel)%nat.

(** What [CheckConnTimers] returns for such a record, and [CheckTimers]
    for a list of them. *)
Definition idle_conn_next (P : Platform) (now_ : Z) (k : ArdpConnRecord)
    (next : Z) : Z :=
  match timers k with
  | [] => next
  | _ => if earliest (timers k) next =? ARDP_NO_TIMEOUT P
         then ARDP_NO_TIMEOUT P
         else u32 (earliest (timers k) next - now_)
  end.

Definition idle_next (P : Platform) (now_ : Z)
    (l : list (ConnPtr * ArdpConnRecord)) (next : Z) : Z :=
  fold_left (fun n ck => idle_conn_next P now_ (snd ck) n) l next.


(** What the loop of [PostInitRcv] does to the array: the [n] slots from
    [i] on get the sequence number [irs]. *)
Fixpoint stamp_seq (n i : nat) (irs : Z) (l : list ArdpRcvBuf) : list ArdpRcvBuf :=
  match n with
  | O => l
  | S n' =>
      match l !! i with
      | Some b => stamp_seq n' (S i) irs (<[i := set_rcv_seq irs b]> l)
      | None => l
      end
  end.


(** ** The remaining entry points *)

(** The loop of [ARDP_FreeHandle]: [tmp = ln; ln = ln->bwd;
    DelConnRecord(handle, tmp)]. *)
Fixpoint ARDP_FreeHandle_loop (P : Platform) (n : nat) (ln : option ConnPtr)
    : M unit :=
  match n with
  | O => abort OutOfFuel
  | S n' =>
      h <- get_handle ;;
      match conns_fwd ln (conns h) with
      | None => ret tt
      | Some tmp =>
          let ln' := conn_before None tmp (conns h) in
          DelConnRecord P tmp ;;
          ARDP_FreeHandle_loop P n' ln'
      end
  end.

(** [ARDP_FreeHandle], up to [delete handle]. *)
Definition ARDP_FreeHandle (P : Platform) (fuel : nat) : M unit :=
  h <- get_handle ;;
  match conns h with
  | [] => ret tt
  | _ => ARDP_FreeHandle_loop P fuel None
  end.

(** [ARDP_SetHandleContext] and [ARDP_GetHandleContext] *)
Definition ARDP_SetHandleContext (context : Z) : M unit :=
  modify_handle (set_h_context context).

Definition ARDP_GetHandleContext : M Z :=
  h <- get_handle ;; ret (h_context h).

(** [ARDP_SetConnContext]: the body of the source is a trace statement
    and nothing else. *)
Definition ARDP_SetConnContext (conn : ConnPtr) (context : Z) : M unit :=
  ret tt.

(** [ARDP_GetConnContext], [ARDP_GetIpAddrFromConn] and
    [ARDP_GetIpPortFromConn] *)
Definition ARDP_GetConnContext (conn : ConnPtr) : M Z :=
  k <- get_conn conn ;; ret (context k).

Definition ARDP_GetIpAddrFromConn (conn : ConnPtr) : M Z :=
  k <- get_conn conn ;; ret (ipAddr k).

Definition ARDP_GetIpPortFromConn (conn : ConnPtr) : M Z :=
  k <- get_conn conn ;; ret (ipPort k).

(** Every record of the list is [CLOSED]. *)
Definition all_closed (l : list (ConnPtr * ArdpConnRecord)) : bool :=
  forallb (fun ck => bool_decide (STATE (snd ck) = CLOSED)) l.

(** * Proofs *)

(** ** Running a computation step by step *)

Lemma bind_Ok {A B : Type} (m : M A) (k : A -> M B) s a s1 :
  m s = Ok a s1 -> bind m k s = k a s1.
Proof. intros H. unfold bind. now rewrite H. Qed.

Lemma bind_inv {A B : Type} (m : M A) (k : A -> M B) s b s' :
  bind m k s = Ok b s' -> exists a s1, m s = Ok a s1 /\ k a s1 = Ok b s'.
Proof.
  unfold bind. destruct (m s) as [a s1|f s1]; [|discriminate].
  intros H. now exists a, s1.
Qed.

Lemma IsConnValid_eq c s :
  IsConnValid c s
  = Ok (match conn_of s c with Some _ => true | None => false end) s.
Proof. reflexivity. Qed.

Lemma get_conn_Some c s k : conn_of s c = Some k -> get_conn c s = Ok k s.
Proof.
  unfold conn_of, get_conn, get_handle, bind, get, ret. simpl. now intros ->.
Qed.


Lemma modify_conn_Some c f s k :
  conn_of s c = Some k -> modify_conn c f s = Ok tt (upd_conn c f s).
Proof.
  intros H. unfold modify_conn.
  rewrite (bind_Ok _ _ _ _ _ (get_conn_Some _ _ _ H)). reflexivity.
Qed.


Lemma lookup_update_conn c c' f l :
  lookup_conn c (update_conn c' f l)
  = if Nat.eqb c c' then f <$> lookup_conn c l else lookup_conn c l.
Proof.
  induction l as [|[c0 k0] l IH]; simpl.
  - now destruct (Nat.eqb c c').
  - destruct (Nat.eqb c' c0) eqn:E1; simpl.
    + apply Nat.eqb_eq in E1 as ->. now destruct (Nat.eqb c c0).
    + destruct (Nat.eqb c c0) eqn:E2; simpl; [|apply IH].
      apply Nat.eqb_eq in E2 as ->. rewrite Nat.eqb_sym in E1. now rewrite E1.
Qed.

Lemma conn_of_upd_conn c c' f s :
  conn_of (upd_conn c' f s) c
  = if Nat.eqb c c' then f <$> conn_of s c else conn_of s c.
Proof. unfold conn_of, upd_conn. simpl. apply lookup_update_conn. Qed.

Lemma conn_of_upd_conn_same c f s k :
  conn_of s c = Some k -> conn_of (upd_conn c f s) c = Some (f k).
Proof. intros H. now rewrite conn_of_upd_conn, Nat.eqb_refl, H. Qed.




Lemma get_timer_Some c t s k x :
  conn_of s c = Some k -> find_timer t (timers k) = Some x ->
  get_timer c t s = Ok x s.
Proof.
  intros Hk Hx. unfold get_timer.
  rewrite (bind_Ok _ _ _ _ _ (get_conn_Some _ _ _ Hk)). now rewrite Hx.
Qed.






(** ** What a computation leaves untouched *)

Section Frame.

Context {X : Type} (core : ArdpConnRecord -> X) (c : ConnPtr).
















End Frame.




Section RingFrame.

Context (P : Platform) (c : ConnPtr).










End RingFrame.

(** ** The receive window after [AddRcvBuffer] *)









Lemma release_slots_length cnt : forall i l,
  length (release_slots cnt i l) = length l.
Proof.
  induction cnt as [|m IH]; intros i l; simpl; [done|].
  destruct (l !! i); [|done]. now rewrite IH, length_insert.
Qed.









(** ** The receive window after [AddRcvBuffer] and [UpdateRcvBuffers] *)



(** ** [ARDP_Send] *)

(** C10: [ARDP_Send] with [buf == NULL] or [len == 0] returns
    [ER_INVALID_DATA] and leaves the state, trace included, as it was;
    the test comes after that of the connection, so that an invalid
    connection or one that is not [OPEN] yields [ER_ARDP_INVALID_STATE]
    also then. *)
Theorem C10_send_rejects_empty_buffer (P : Platform) (s : St) (conn : ConnPtr)
    (buf len ttl : Z) :
  buf = 0 \/ len = 0 ->
  ARDP_Send P conn buf len ttl s =
    Ok (match conn_of s conn with
        | Some k => if bool_decide (STATE k = OPEN) then ER_INVALID_DATA
                    else ER_ARDP_INVALID_STATE
        | None => ER_ARDP_INVALID_STATE
        end) s.
Proof.
  intros Hb. unfold ARDP_Send.
  rewrite (bind_Ok _ _ _ _ _ (IsConnValid_eq conn s)).
  destruct (conn_of s conn) as [k|] eqn:Hk; simpl; [|reflexivity].
  rewrite (bind_Ok _ _ _ _ _ (get_conn_Some _ _ _ Hk)).
  destruct (bool_decide (STATE k = OPEN)); simpl; [|reflexivity].
  assert ((buf =? 0) || (len =? 0) = true) as ->; [|reflexivity].
  destruct Hb as [-> | ->]; [reflexivity|]. rewrite Z.eqb_refl. apply orb_true_r.
Qed.

(** C10 at work: an empty payload on the open connection, and a [NULL]
    buffer on a connection that does not exist. *)
Lemma C10_send_rejects_empty_buffer_witness :
  let s := Scenario.opened Scenario.debug_build 7 4 in
  ARDP_Send Scenario.debug_build Scenario.the_conn 4096 0 0 s = Ok ER_INVALID_DATA s /\
  ARDP_Send Scenario.debug_build 9%nat 0 5 0 s = Ok ER_ARDP_INVALID_STATE s.
Proof.
  intros s. split.
  - exact (C10_send_rejects_empty_buffer Scenario.debug_build s Scenario.the_conn
             4096 0 0 (or_intror eq_refl)).
  - exact (C10_send_rejects_empty_buffer Scenario.debug_build s 9%nat
             0 5 0 (or_introl eq_refl)).
Defined.




(** C3 (defect of the code): a payload that is an exact multiple of
    [maxDlen] -- here 1928 octets with [maxDlen = 964] -- is cut into
    [fcnt = 2] fragments of 964 and 0 octets: [lastLen = len % maxDlen]
    is 0, where the last fragment should carry [len - (fcnt - 1) * maxDlen
    = 964]. *)
Theorem C3_exact_multiple_last_fragment_empty :
  let s := Scenario.opened Scenario.debug_build 7 4 in
  let r := ARDP_Send Scenario.debug_build Scenario.the_conn 4096 (2 * 964) 0 s in
  SBUF_maxDlen (Scenario.conn_in s) = 964 /\
  fragment_count (2 * 964) 964 = 2 /\
  r = Ok ER_OK (Scenario.state_of r) /\
  data_lengths (new_events s (Scenario.state_of r)) = [964; 0].
Proof. vm_compute. repeat split; reflexivity. Qed.

(** C4 (defect of the code): [onTheWire] is never cleared, so a slot that
    has carried a segment before takes the retransmission branch of
    [SendMsgData] on its next first transmission.  The message offered
    here has [ttl = 10]; 20 ms pass between [tStart] and the test; it is
    sent all the same, the slot is taken, [SND.NXT] and [SBUF.pending]
    advance and a retransmit timer is armed. *)
Theorem C4_ttl_ignored_on_reused_slot :
  let s := Scenario.with_ticks [0; 20] Scenario.slot_reused in
  let r := ARDP_Send Scenario.debug_build Scenario.the_conn 8192 50 10 s in
  let k := Scenario.conn_in s in
  let k' := Scenario.conn_in (Scenario.state_of r) in
  (snd_inUse <$> SBUF_snd k, snd_onTheWire <$> SBUF_snd k) = ([false], [true]) /\
  (SND_NXT k, SBUF_pending k, length (timers k)) = (9, 0, 1%nat) /\
  r = Ok ER_OK (Scenario.state_of r) /\
  (snd_tStart <$> SBUF_snd k', now (world (Scenario.state_of r))) = ([1000], 1020) /\
  data_lengths (new_events s (Scenario.state_of r)) = [50] /\
  snd_inUse <$> SBUF_snd k' = [true] /\
  (SND_NXT k', SBUF_pending k', length (timers k')) = (10, 1, 2%nat).
Proof. vm_compute. repeat split; reflexivity. Qed.

(** On a slot that has not been used the same call is refused: nothing is
    sent and only the clock and the fields of the slot that [SendData]
    fills in have changed. *)
Example ttl_expires_on_fresh_slot :
  let s := Scenario.with_ticks [0; 20] (Scenario.opened Scenario.debug_build 7 1) in
  let r := ARDP_Send Scenario.debug_build Scenario.the_conn 8192 50 10 s in
  let k := Scenario.conn_in s in
  let k' := Scenario.conn_in (Scenario.state_of r) in
  r = Ok ER_ARDP_TTL_EXPIRED (Scenario.state_of r) /\
  new_events s (Scenario.state_of r) = [] /\
  snd_inUse <$> SBUF_snd k' = [false] /\
  (SND_NXT k', SBUF_pending k', timers k') = (SND_NXT k, SBUF_pending k, timers k).
Proof. vm_compute. repeat split; reflexivity. Qed.

(** ** [FlushAckedSegments] *)

(** C2 (defect of the code): the test for the last fragment is
    [seq != som + fcnt], which no fragment of the message passes.  The peer
    acknowledges both fragments (sequences 8 and 9, [som = 8], [fcnt = 2])
    of a message; both slots are flushed and [SND.UNA] moves past them, and
    [SendCb] is not called at all. *)
Theorem C2_fragmented_message_never_completes :
  let s := Scenario.fragments_in_flight in
  let r := ARDP_Run Scenario.debug_build 100 3 true
             (with_recvq [Scenario.from_peer (Scenario.ack_segment 9 4)] s) in
  let k := Scenario.conn_in s in
  let k' := Scenario.conn_in (Scenario.state_of r) in
  (fun b => (snd_inUse b, h_seq (snd_hdr b), h_som (snd_hdr b), h_fcnt (snd_hdr b)))
    <$> take 2 (SBUF_snd k) = [(true, 8, 8, 2); (true, 9, 8, 2)] /\
  r = Ok (ER_OK, 500) (Scenario.state_of r) /\
  (snd_in_use k', SBUF_pending k', SND_UNA k', SND_NXT k') = (0, 0, 10, 10) /\
  SendCb_events (new_events s (Scenario.state_of r)) = [].
Proof. vm_compute. repeat split; reflexivity. Qed.

(** The message of one segment is completed by its acknowledgement. *)
Example unfragmented_message_completes :
  let s := Scenario.segment_in_flight in
  let r := ARDP_Run Scenario.debug_build 100 3 true
             (with_recvq [Scenario.from_peer (Scenario.ack_segment 8 4)] s) in
  r = Ok (ER_OK, 500) (Scenario.state_of r) /\
  SendCb_events (new_events s (Scenario.state_of r))
    = [EvSendCb Scenario.the_conn 4096 100 ER_OK].
Proof. vm_compute. repeat split; reflexivity. Qed.

(** ** [RetransmitTimerHandler] *)

(** C1 (defect of the code): the loop that abandons a fragmented message
    has [conn->SBUF.pending--] twice.  Two fragments are in flight and the
    accounting holds ([pending = 2 = SND.NXT - SND.UNA], two slots in use);
    the retransmit timer of the second fragment expires with one retry
    left; the message is abandoned with one [SendCb(ER_FAIL)], and
    [pending] has gone down by four, to 65534 in a [uint16_t], while
    [SND.NXT - SND.UNA] is still 2 and [SND.MAX] is 4. *)
Theorem C1_abandon_counts_fragments_twice :
  let s := Scenario.before_abandon in
  let r := Scenario.timers_after Scenario.debug_build 125 s in
  let k := Scenario.conn_in s in
  let k' := Scenario.conn_in (Scenario.state_of r) in
  snd_accounting_ok k = true /\
  (SBUF_pending k, snd_in_use k, u32 (SND_NXT k - SND_UNA k), SND_MAX k) = (2, 2, 2, 4) /\
  (fun t => (t_ptr t, t_context t, t_when t, t_retry t)) <$> timers k
    = [(3%nat, CtxTimer 3%nat, 6000, 65535); (4%nat, CtxSndBuf 0, 3500, 1);
       (5%nat, CtxSndBuf 1, 3125, 1)] /\
  r = Ok (ER_FAIL, 0) (Scenario.state_of r) /\
  new_events s (Scenario.state_of r) = [EvSendCb Scenario.the_conn 4096 965 ER_FAIL] /\
  (SBUF_pending k', snd_in_use k', u32 (SND_NXT k' - SND_UNA k'), SND_MAX k')
    = (65534, 0, 2, 4) /\
  snd_accounting_ok k' = false.
Proof. vm_compute. repeat split; reflexivity. Qed.

(** ** [UpdateRcvBuffers] *)

(** With assertions compiled in, a buffer whose [fcnt] is at least 1 does
    not get past [assert((consumed->fcnt < 1) && "fcnt cannot be less than
    one!")]. *)
Lemma UpdateRcvBuffers_asserts_fcnt P conn consumed s k b :
  ndebug P = false ->
  conn_of s conn = Some k ->
  RBUF_rcv k !! consumed = Some b ->
  RBUF_first k = rcv_seq b ->
  RCV_MAX k <> 0 ->
  ring_slot k (rcv_seq b) = consumed ->
  1 <= rcv_fcnt b ->
  UpdateRcvBuffers P conn consumed s
  = Abort (AssertionFailed "fcnt cannot be less than one!") s.
Proof.
  intros Hd Hk Hb Hseq Hmax Hslot Hfcnt. unfold UpdateRcvBuffers.
  rewrite (bind_Ok _ _ _ _ _ (get_conn_Some _ _ _ Hk)).
  assert (Hget : get_rcv conn consumed s = Ok b s).
  { unfold get_rcv. rewrite (bind_Ok _ _ _ _ _ (get_conn_Some _ _ _ Hk)).
    now rewrite Hb. }
  rewrite (bind_Ok _ _ _ _ _ Hget).
  assert (Hassert : forall msg, assert_ P true msg s = Ok tt s).
  { intros msg. unfold assert_. now rewrite Hd. }
  rewrite Hseq, Z.eqb_refl, (bind_Ok _ _ _ _ _ (Hassert _)).
  apply Z.eqb_neq in Hmax. rewrite Hmax.
  unfold ring_slot in Hslot. rewrite Hslot, Nat.eqb_refl. simpl.
  assert ((rcv_fcnt b <? 1) = false) as -> by (apply Z.ltb_ge; lia).
  unfold bind, assert_. now rewrite Hd.
Qed.

(** C9 (defect of the code): the assertion on the fragment count is
    inverted.  The buffer handed back is the one at [RBUF.first], in use,
    delivered, with [fcnt = 1]; where assertions are compiled in the call
    stops at "fcnt cannot be less than one!" and nothing is released. *)
Theorem C9_release_assertion_inverted :
  let s := Scenario.delivered Scenario.debug_build in
  let k := Scenario.conn_in s in
  (fun b => (rcv_seq b, rcv_fcnt b, rcv_inUse b, rcv_isDelivered b))
    <$> RBUF_rcv k !! 1%nat = Some (101, 1, true, true) /\
  RBUF_first k = 101 /\
  ARDP_RecvReady Scenario.debug_build Scenario.the_conn 1 s
  = Abort (AssertionFailed "fcnt cannot be less than one!") s.
Proof. vm_compute. repeat split; reflexivity. Qed.

(** Without assertions the same call releases the slot. *)
Example release_without_assertions :
  let s := Scenario.delivered Scenario.release_build in
  let r := ARDP_RecvReady Scenario.release_build Scenario.the_conn 1 s in
  let k' := Scenario.conn_in (Scenario.state_of r) in
  r = Ok ER_OK (Scenario.state_of r) /\
  rcv_used k' = [false; false; false; false] /\
  (RBUF_first k', RBUF_last k', RBUF_window k') = (102, 102, 4).
Proof. vm_compute. repeat split; reflexivity. Qed.

(** ** [ARDP_Run] *)



(** A datagram that is not dropped is dispatched: [ARDP_Run_datagram]
    yields a status for it whenever it returns. *)
Lemma ARDP_Run_datagram_dispatched P fuel sock_ a p d s x s' :
  unmatched (handle s) d = false ->
  ARDP_Run_datagram P fuel sock_ a p d s = Ok x s' ->
  exists status, x = Some status.
Proof.
  unfold unmatched, ARDP_Run_datagram. intros Hu H.
  destruct ((0 <? d_nbytes d) && (d_nbytes d <? 65536)); simpl in Hu; [|discriminate].
  unfold ProtocolDemux in H. 
  destruct (h_dst (d_hdr d) =? 0) eqn:Hz; simpl in Hu.
  - apply bind_inv in H as (h & s1 & _ & H).
    destruct (accepting h && AcceptCb (cb h)).
    + apply bind_inv in H as (c & s2 & _ & H).
      apply bind_inv in H as (u & s3 & _ & H).
      apply bind_inv in H as (st & s4 & _ & H).
      inversion H. now exists st.
    + apply bind_inv in H as (st & s4 & _ & H).
      inversion H. now exists st.
  - unfold FindConn in H. unfold bind at 1 2 in H. unfold get_handle in H.
    simpl in H.
    destruct (FindConn_list (conns (handle s)) (h_dst (d_hdr d)) (h_src (d_hdr d)))
      as [c|] eqn:Hc.
    + apply bind_inv in H as (t & s2 & _ & H).
      apply bind_inv in H as (u & s3 & _ & H).
      apply bind_inv in H as (v & s4 & _ & H).
      apply bind_inv in H as (st & s5 & _ & H).
      inversion H. now exists st.
    + rewrite bool_decide_eq_true_2 in Hu by reflexivity. simpl in Hu.
      apply bool_decide_eq_false in Hu.
      unfold bind at 1 2 in H. simpl in H.
      destruct (FindConn_list (conns (handle s)) (h_dst (d_hdr d)) 0) as [c|];
        [|contradiction].
      apply bind_inv in H as (t & s2 & _ & H).
      apply bind_inv in H as (u & s3 & _ & H).
      apply bind_inv in H as (st & s5 & _ & H).
      inversion H. now exists st.
Qed.




(** ** [CheckConnTimers] *)




(** * More of the engine *)

Lemma u32_small x : 0 <= x < 2 ^ 32 -> u32 x = x.
Proof. intros H. unfold u32. now apply Z.mod_small. Qed.

Lemma u32_over x : 2 ^ 32 <= x < 2 * 2 ^ 32 -> u32 x = x - 2 ^ 32.
Proof.
  intros H. unfold u32. symmetry.
  apply (Z.mod_unique x (2 ^ 32) 1 (x - 2 ^ 32)); lia.
Qed.

Lemma u32_under x : - 2 ^ 32 <= x < 0 -> u32 x = x + 2 ^ 32.
Proof.
  intros H. unfold u32. symmetry.
  apply (Z.mod_unique x (2 ^ 32) (-1) (x + 2 ^ 32)); lia.
Qed.

Lemma u32_range x : 0 <= u32 x < 2 ^ 32.
Proof. unfold u32. apply Z.mod_pos_bound. lia. Qed.

(** X1: sequence numbers are compared modulo [2^32].  A number that lies
    less than [2^31] ahead of [a] is after [a], also across the
    wrap-around, and never before it; no number is before itself; at a
    distance of exactly [2^31] each of the two is before the other. *)
Theorem SEQ32_LT_wraparound (a k : Z) :
  0 <= a < 2 ^ 32 -> 0 < k < 2 ^ 31 ->
  SEQ32_LT a (u32 (a + k)) = true /\
  SEQ32_LT (u32 (a + k)) a = false /\
  SEQ32_LET a (u32 (a + k)) = true /\
  SEQ32_LT a a = false /\
  (SEQ32_LT a (u32 (a + 2 ^ 31)) = true /\ SEQ32_LT (u32 (a + 2 ^ 31)) a = true).
Proof.
  intros Ha Hk.
  assert (E31 : 2 ^ 31 = 2147483648) by reflexivity.
  assert (E32 : 2 ^ 32 = 4294967296) by reflexivity.
  assert (L1 : SEQ32_LT a (u32 (a + k)) = true).
  { unfold SEQ32_LT, i32.
    destruct (Z_lt_ge_dec (a + k) (2 ^ 32)) as [H|H].
    - rewrite (u32_small (a + k)) by lia.
      replace (a - (a + k)) with (- k) by lia.
      rewrite (u32_under (- k)) by lia.
      destruct (- k + 2 ^ 32 <? 2 ^ 31) eqn:E; [apply Z.ltb_lt in E; lia|].
      apply Z.ltb_lt. lia.
    - rewrite (u32_over (a + k)) by lia.
      replace (a - (a + k - 2 ^ 32)) with (2 ^ 32 - k) by lia.
      rewrite (u32_small (2 ^ 32 - k)) by lia.
      destruct (2 ^ 32 - k <? 2 ^ 31) eqn:E; [apply Z.ltb_lt in E; lia|].
      apply Z.ltb_lt. lia. }
  assert (L2 : SEQ32_LT (u32 (a + k)) a = false).
  { unfold SEQ32_LT, i32.
    destruct (Z_lt_ge_dec (a + k) (2 ^ 32)) as [H|H].
    - rewrite (u32_small (a + k)) by lia.
      replace (a + k - a) with k by lia.
      rewrite (u32_small k) by lia.
      destruct (k <? 2 ^ 31) eqn:E; [|apply Z.ltb_ge in E; lia].
      apply Z.ltb_ge. lia.
    - rewrite (u32_over (a + k)) by lia.
      replace (a + k - 2 ^ 32 - a) with (k - 2 ^ 32) by lia.
      rewrite (u32_under (k - 2 ^ 32)) by lia.
      destruct (k - 2 ^ 32 + 2 ^ 32 <? 2 ^ 31) eqn:E; [|apply Z.ltb_ge in E; lia].
      apply Z.ltb_ge. lia. }
  split; [exact L1|]. split; [exact L2|].
  split; [unfold SEQ32_LET; now rewrite L1|].
  split.
  { unfold SEQ32_LT. now rewrite Z.sub_diag. }
  split.
  - unfold SEQ32_LT, i32.
    destruct (Z_lt_ge_dec (a + 2 ^ 31) (2 ^ 32)) as [H|H].
    + rewrite (u32_small (a + 2 ^ 31)) by lia.
      replace (a - (a + 2 ^ 31)) with (- 2 ^ 31) by lia.
      rewrite (u32_under (- 2 ^ 31)) by lia. reflexivity.
    + rewrite (u32_over (a + 2 ^ 31)) by lia.
      replace (a - (a + 2 ^ 31 - 2 ^ 32)) with (2 ^ 31) by lia. reflexivity.
  - unfold SEQ32_LT, i32.
    destruct (Z_lt_ge_dec (a + 2 ^ 31) (2 ^ 32)) as [H|H].
    + rewrite (u32_small (a + 2 ^ 31)) by lia.
      replace (a + 2 ^ 31 - a) with (2 ^ 31) by lia. reflexivity.
    + rewrite (u32_over (a + 2 ^ 31)) by lia.
      replace (a + 2 ^ 31 - 2 ^ 32 - a) with (- 2 ^ 31) by lia.
      rewrite (u32_under (- 2 ^ 31)) by lia. reflexivity.
Qed.

Lemma SEQ32_LT_wraparound_witness :
  SEQ32_LT 4294967295 (u32 (4294967295 + 1)) = true /\
  SEQ32_LT (u32 (4294967295 + 1)) 4294967295 = false.
Proof.
  destruct (SEQ32_LT_wraparound 4294967295 1) as (H1 & H2 & _); [lia | lia |].
  split; [exact H1 | exact H2].
Defined.

(** X2: [IN_RANGE(uint32_t, beg, sz, p)] holds exactly when [p] is fewer
    than [sz] steps ahead of [beg] modulo [2^32], whether or not
    [beg + sz] wraps around. *)
Theorem IN_RANGE_modular_interval (beg sz p : Z) :
  0 <= beg < 2 ^ 32 -> 0 <= sz < 2 ^ 32 -> 0 <= p < 2 ^ 32 ->
  IN_RANGE beg sz p = (u32 (p - beg) <? sz).
Proof.
  intros Hb Hs Hp. unfold IN_RANGE.
  assert (E32 : 2 ^ 32 = 4294967296) by reflexivity.
  destruct (Z_lt_ge_dec (beg + sz) (2 ^ 32)) as [H|H].
  - rewrite (u32_small (beg + sz)) by lia.
    destruct (Z_lt_ge_dec p beg) as [Hpb|Hpb].
    + rewrite (u32_under (p - beg)) by lia.
      assert ((beg <=? p) = false) as -> by (apply Z.leb_gt; lia).
      assert ((beg + sz <? beg) = false) as -> by (apply Z.ltb_ge; lia).
      rewrite andb_false_r. simpl. symmetry. apply Z.ltb_ge. lia.
    + rewrite (u32_small (p - beg)) by lia.
      assert ((beg <=? p) = true) as -> by (apply Z.leb_le; lia).
      assert ((beg + sz <? beg) = false) as -> by (apply Z.ltb_ge; lia).
      rewrite andb_true_r. simpl. rewrite orb_false_r.
      destruct (p - beg <? sz) eqn:E.
      * apply Z.ltb_lt in E.
        assert ((beg <? beg + sz) = true) as -> by (apply Z.ltb_lt; lia).
        simpl. apply Z.ltb_lt. lia.
      * apply Z.ltb_ge in E.
        assert ((p <? beg + sz) = false) as -> by (apply Z.ltb_ge; lia).
        apply andb_false_r.
  - rewrite (u32_over (beg + sz)) by lia.
    assert ((beg <? beg + sz - 2 ^ 32) = false) as -> by (apply Z.ltb_ge; lia).
    assert ((beg + sz - 2 ^ 32 <? beg) = true) as -> by (apply Z.ltb_lt; lia).
    simpl.
    destruct (Z_lt_ge_dec p beg) as [Hpb|Hpb].
    + rewrite (u32_under (p - beg)) by lia.
      assert ((p <? beg) = true) as -> by (apply Z.ltb_lt; lia).
      simpl.
      destruct (p - beg + 2 ^ 32 <? sz) eqn:E.
      * apply Z.ltb_lt in E. apply negb_true_iff. apply Z.leb_gt. lia.
      * apply Z.ltb_ge in E. apply negb_false_iff. apply Z.leb_le. lia.
    + rewrite (u32_small (p - beg)) by lia.
      assert ((p <? beg) = false) as -> by (apply Z.ltb_ge; lia).
      simpl. symmetry. apply Z.ltb_lt. lia.
Qed.

Lemma IN_RANGE_modular_interval_witness :
  IN_RANGE 4294967294 4 1 = (u32 (1 - 4294967294) <? 4).
Proof.
  apply IN_RANGE_modular_interval; lia.
Defined.

(** ** The clock, the socket and the timers, step by step *)

Lemma TimeNow_eq s : TimeNow s = Ok (clock_read s) (tick s).
Proof.
  destruct s as [h w tr n]. destruct w as [nw tk sq rq rc ac rd ml].
  unfold TimeNow, pop, bind, get, put, ret, clock_read, tick. simpl.
  destruct tk; reflexivity.
Qed.

Lemma SendMsg_eq conn p s k :
  conn_of s conn = Some k ->
  SendMsg conn p s
  = Ok (sendmsg_status (next_sent s))
       (set_trace (trace s ++ [EvSendmsg conn p (next_sent s)]) (socket_used s)).
Proof.
  intros Hk. unfold SendMsg.
  rewrite (bind_Ok _ _ _ _ _ (get_conn_Some _ _ _ Hk)).
  destruct s as [h w tr n]. destruct w as [nw tk sq rq rc ac rd ml].
  unfold pop, bind, get, put, ret, emit, modify, next_sent, socket_used. simpl.
  destruct sq as [|r sq]; simpl; [reflexivity|]. now destruct r.
Qed.

Lemma AddTimer_eq conn type handler context timeout retry s k :
  conn_of s conn = Some k ->
  AddTimer conn type handler context timeout retry s
  = Ok (next_ptr s)
       (upd_conn conn
          (fun k => set_timers
             (timers k ++ [new_timer (next_ptr s) conn type handler context
                                     timeout retry (clock_read s)]) k)
          (tick (set_next_ptr (S (next_ptr s)) s))).
Proof.
  intros Hk. unfold AddTimer.
  assert (Hf : fresh_ptr s = Ok (next_ptr s) (set_next_ptr (S (next_ptr s)) s))
    by reflexivity.
  rewrite (bind_Ok _ _ _ _ _ Hf).
  rewrite (bind_Ok _ _ _ _ _ (TimeNow_eq _)).
  assert (Hk' : conn_of (tick (set_next_ptr (S (next_ptr s)) s)) conn = Some k)
    by exact Hk.
  rewrite (bind_Ok _ _ _ _ _ (modify_conn_Some _ _ _ _ Hk')).
  reflexivity.
Qed.

Lemma SendMsgHeader_eq conn h s k :
  conn_of s conn = Some k ->
  SendMsgHeader conn h s
  = SendMsg conn
      (PktHeader (if msk_sz (rcvMsk k) =? 0 then h
                  else set_h_flags (u8 (Z.lor (h_flags h) ARDP_FLAG_EACK)) h)
                 (take (Z.to_nat (msk_fixedSz (rcvMsk k))) (htnMask (rcvMsk k)))) s.
Proof.
  intros Hk. unfold SendMsgHeader.
  now rewrite (bind_Ok _ _ _ _ _ (get_conn_Some _ _ _ Hk)).
Qed.

(** ** The entry points on a connection that is not there, or not open *)

(** X3: [ARDP_Send], [ARDP_RecvReady], [ARDP_Disconnect] and [ARDP_Accept]
    return [ER_ARDP_INVALID_STATE] for a connection that is not on the
    list of the handle, and change nothing. *)
Theorem entry_points_reject_unknown_connection (P : Platform) (conn : ConnPtr)
    (s : St) :
  conn_of s conn = None ->
  (forall buf len ttl, ARDP_Send P conn buf len ttl s = Ok ER_ARDP_INVALID_STATE s) /\
  (forall rcv, ARDP_RecvReady P conn rcv s = Ok ER_ARDP_INVALID_STATE s) /\
  ARDP_Disconnect conn s = Ok ER_ARDP_INVALID_STATE s /\
  (forall segmax segbmax buf len,
     ARDP_Accept P conn segmax segbmax buf len s = Ok ER_ARDP_INVALID_STATE s).
Proof.
  intros Hk.
  repeat split; intros;
    unfold ARDP_Send, ARDP_RecvReady, ARDP_Disconnect, ARDP_Accept;
    rewrite (bind_Ok _ _ _ _ _ (IsConnValid_eq conn s)), Hk; reflexivity.
Qed.

Lemma entry_points_reject_unknown_connection_witness :
  let s := Scenario.opened Scenario.debug_build 7 4 in
  ARDP_Send Scenario.debug_build 9%nat 4096 100 0 s = Ok ER_ARDP_INVALID_STATE s /\
  ARDP_RecvReady Scenario.debug_build 9%nat 0 s = Ok ER_ARDP_INVALID_STATE s /\
  ARDP_Disconnect 9%nat s = Ok ER_ARDP_INVALID_STATE s /\
  ARDP_Accept Scenario.debug_build 9%nat 4 1024 4096 5 s = Ok ER_ARDP_INVALID_STATE s.
Proof.
  intros s.
  assert (H : conn_of s 9%nat = None) by (vm_compute; reflexivity).
  destruct (entry_points_reject_unknown_connection Scenario.debug_build 9%nat s H)
    as (H1 & H2 & H3 & H4).
  split; [apply H1|]. split; [apply H2|]. split; [apply H3|apply H4].
Defined.

(** X4: [ARDP_Send] on a valid connection that is not [OPEN] returns
    [ER_ARDP_INVALID_STATE], whatever the buffer, the length and the
    time to live, and changes nothing. *)
Theorem ARDP_Send_requires_OPEN (P : Platform) (conn : ConnPtr) (s : St)
    (k : ArdpConnRecord) (buf len ttl : Z) :
  conn_of s conn = Some k -> STATE k <> OPEN ->
  ARDP_Send P conn buf len ttl s = Ok ER_ARDP_INVALID_STATE s.
Proof.
  intros Hk Hst. unfold ARDP_Send.
  rewrite (bind_Ok _ _ _ _ _ (IsConnValid_eq conn s)), Hk. simpl.
  rewrite (bind_Ok _ _ _ _ _ (get_conn_Some _ _ _ Hk)).
  now rewrite bool_decide_eq_false_2.
Qed.

Lemma ARDP_Send_requires_OPEN_witness :
  let s := Scenario.state_of
             (ARDP_Connect Scenario.debug_build 3 Scenario.peer_addr
                Scenario.peer_port 4 1024 4096 5 0
                (ARDP_AllocHandle Scenario.config0
                   (mkWorld 1000 [] [] [] [] [] [7; 41] []))) in
  ARDP_Send Scenario.debug_build Scenario.the_conn 4096 100 0 s
  = Ok ER_ARDP_INVALID_STATE s.
Proof.
  intros s.
  assert (Hk : conn_of s Scenario.the_conn = Some (Scenario.conn_in s))
    by (vm_compute; reflexivity).
  assert (Hst : STATE (Scenario.conn_in s) <> OPEN)
    by (vm_compute; discriminate).
  exact (ARDP_Send_requires_OPEN Scenario.debug_build Scenario.the_conn s
           (Scenario.conn_in s) 4096 100 0 Hk Hst).
Defined.

Lemma Send_eq conn flags seq ack window s k :
  conn_of s conn = Some k ->
  Send conn flags seq ack window s
  = Ok (sendmsg_status (next_sent s))
       (set_trace (trace s ++ [EvSendmsg conn (header_only k flags seq ack window)
                                         (next_sent s)])
                  (socket_used s)).
Proof.
  intros Hk. unfold Send.
  rewrite (bind_Ok _ _ _ _ _ (get_conn_Some _ _ _ Hk)).
  rewrite (SendMsgHeader_eq _ _ _ _ Hk). now rewrite (SendMsg_eq _ _ _ _ Hk).
Qed.

Lemma SetState_eq conn st s k :
  conn_of s conn = Some k -> SetState conn st s = Ok tt (upd_conn conn (set_STATE st) s).
Proof. intros Hk. unfold SetState. now apply modify_conn_Some with k. Qed.

(** ** [ARDP_Disconnect] *)

(** X5: [ARDP_Disconnect] by the state of the connection.  [CLOSED] and
    [CLOSE_WAIT]: [ER_ARDP_INVALID_STATE], nothing changes.  [OPEN]: the
    disconnect timer is started with the [timewait] of the
    configuration, the state becomes [CLOSE_WAIT], one RST segment with
    [SND.NXT], [RCV.CUR] and the receive window is sent, and the status
    is that of the socket.  [LISTEN], [SYN_SENT], [SYN_RCVD]: the state
    becomes [CLOSED], the disconnect timer is started with timeout 0,
    nothing is sent and the status is [ER_OK]. *)
Theorem ARDP_Disconnect_by_state (conn : ConnPtr) (s : St) (k : ArdpConnRecord) :
  conn_of s conn = Some k ->
  match STATE k with
  | CLOSED | CLOSE_WAIT => ARDP_Disconnect conn s = Ok ER_ARDP_INVALID_STATE s
  | OPEN =>
      exists s',
        ARDP_Disconnect conn s = Ok (sendmsg_status (next_sent s)) s' /\
        conn_of s' conn
        = Some (set_STATE CLOSE_WAIT
                  (set_timers
                     (timers k ++
                      [new_timer (next_ptr s) conn DISCONNECT_TIMER
                                 DisconnectTimerHandler_fn CtxNULL
                                 (timewait (config (handle s)))
                                 ARDP_DISCONNECT_RETRY (clock_read s)]) k)) /\
        trace s' = trace s ++
          [EvSendmsg conn
             (header_only k (Z.lor ARDP_FLAG_RST ARDP_FLAG_VER) (SND_NXT k)
                          (RCV_CUR k) (RBUF_window k))
             (next_sent s)]
  | LISTEN | SYN_SENT | SYN_RCVD =>
      exists s',
        ARDP_Disconnect conn s = Ok ER_OK s' /\
        conn_of s' conn
        = Some (set_timers
                  (timers k ++
                   [new_timer (next_ptr s) conn DISCONNECT_TIMER
                              DisconnectTimerHandler_fn CtxNULL 0
                              ARDP_DISCONNECT_RETRY (clock_read s)])
                  (set_STATE CLOSED k)) /\
        trace s' = trace s
  end.
Proof.
  intros Hk.
  assert (Hhead : ARDP_Disconnect conn s
    = (if bool_decide (STATE k = CLOSED) || bool_decide (STATE k = CLOSE_WAIT)
       then ret ER_ARDP_INVALID_STATE
       else if bool_decide (STATE k = OPEN) then
         AddTimer conn DISCONNECT_TIMER DisconnectTimerHandler_fn CtxNULL
                  (timewait (config (handle s))) ARDP_DISCONNECT_RETRY ;;
         SetState conn CLOSE_WAIT ;;
         Send conn (Z.lor ARDP_FLAG_RST ARDP_FLAG_VER) (SND_NXT k) (RCV_CUR k)
              (RBUF_window k)
       else
         SetState conn CLOSED ;;
         AddTimer conn DISCONNECT_TIMER DisconnectTimerHandler_fn CtxNULL 0
                  ARDP_DISCONNECT_RETRY ;;
         ret ER_OK) s).
  { unfold ARDP_Disconnect.
    rewrite (bind_Ok _ _ _ _ _ (IsConnValid_eq conn s)), Hk. simpl.
    rewrite (bind_Ok _ _ _ _ _ (get_conn_Some _ _ _ Hk)). reflexivity. }
  rewrite Hhead. clear Hhead.
  destruct (STATE k) eqn:Est; simpl; try reflexivity.
  - (* LISTEN *)
    rewrite (bind_Ok _ _ _ _ _ (SetState_eq _ _ _ _ Hk)).
    pose proof (conn_of_upd_conn_same conn (set_STATE CLOSED) s k Hk) as Hk1.
    rewrite (bind_Ok _ _ _ _ _ (AddTimer_eq _ _ _ _ _ _ _ _ Hk1)).
    eexists. split; [reflexivity|]. split; [|reflexivity].
    match goal with |- conn_of (upd_conn conn ?f ?s0) conn = _ =>
      rewrite (conn_of_upd_conn_same conn f s0 _ Hk1) end.
    reflexivity.
  - (* SYN_SENT *)
    rewrite (bind_Ok _ _ _ _ _ (SetState_eq _ _ _ _ Hk)).
    pose proof (conn_of_upd_conn_same conn (set_STATE CLOSED) s k Hk) as Hk1.
    rewrite (bind_Ok _ _ _ _ _ (AddTimer_eq _ _ _ _ _ _ _ _ Hk1)).
    eexists. split; [reflexivity|]. split; [|reflexivity].
    match goal with |- conn_of (upd_conn conn ?f ?s0) conn = _ =>
      rewrite (conn_of_upd_conn_same conn f s0 _ Hk1) end.
    reflexivity.
  - (* SYN_RCVD *)
    rewrite (bind_Ok _ _ _ _ _ (SetState_eq _ _ _ _ Hk)).
    pose proof (conn_of_upd_conn_same conn (set_STATE CLOSED) s k Hk) as Hk1.
    rewrite (bind_Ok _ _ _ _ _ (AddTimer_eq _ _ _ _ _ _ _ _ Hk1)).
    eexists. split; [reflexivity|]. split; [|reflexivity].
    match goal with |- conn_of (upd_conn conn ?f ?s0) conn = _ =>
      rewrite (conn_of_upd_conn_same conn f s0 _ Hk1) end.
    reflexivity.
  - (* OPEN *)
    rewrite (bind_Ok _ _ _ _ _ (AddTimer_eq _ _ _ _ _ _ _ _ Hk)).
    match goal with |- context [upd_conn conn ?f ?s0] =>
      pose proof (conn_of_upd_conn_same conn f s0 k Hk) as Hk1 end.
    rewrite (bind_Ok _ _ _ _ _ (SetState_eq _ _ _ _ Hk1)).
    pose proof (conn_of_upd_conn_same conn (set_STATE CLOSE_WAIT) _ _ Hk1) as Hk2.
    rewrite (Send_eq _ _ _ _ _ _ _ Hk2).
    eexists. split; [reflexivity|]. split; [exact Hk2|]. reflexivity.
Qed.

Lemma ARDP_Disconnect_by_state_witness :
  let s := Scenario.opened Scenario.debug_build 7 4 in
  let k := Scenario.conn_in s in
  exists s',
    ARDP_Disconnect Scenario.the_conn s = Ok (sendmsg_status (next_sent s)) s' /\
    conn_of s' Scenario.the_conn
    = Some (set_STATE CLOSE_WAIT
              (set_timers
                 (timers k ++
                  [new_timer (next_ptr s) Scenario.the_conn DISCONNECT_TIMER
                             DisconnectTimerHandler_fn CtxNULL
                             (timewait (config (handle s)))
                             ARDP_DISCONNECT_RETRY (clock_read s)]) k)) /\
    trace s' = trace s ++
      [EvSendmsg Scenario.the_conn
         (header_only k (Z.lor ARDP_FLAG_RST ARDP_FLAG_VER) (SND_NXT k)
                      (RCV_CUR k) (RBUF_window k))
         (next_sent s)].
Proof.
  intros s k.
  assert (Hk : conn_of s Scenario.the_conn = Some k) by (vm_compute; reflexivity).
  assert (Hst : STATE k = OPEN) by (vm_compute; reflexivity).
  pose proof (ARDP_Disconnect_by_state Scenario.the_conn s k Hk) as W.
  rewrite Hst in W. exact W.
Defined.

(** ** Deleting a connection record *)

Lemma lookup_conn_None c l :
  c ∉ (fst <$> l) -> lookup_conn c l = None.
Proof.
  induction l as [|[c0 k0] l IH]; simpl; [done|].
  intros H. apply not_elem_of_cons in H as [H1 H2].
  destruct (Nat.eqb c c0) eqn:E; [apply Nat.eqb_eq in E; contradiction|].
  now apply IH.
Qed.

Lemma lookup_remove_conn c c' l :
  NoDup (fst <$> l) ->
  lookup_conn c (remove_conn c' l)
  = if Nat.eqb c c' then None else lookup_conn c l.
Proof.
  induction l as [|[c0 k0] l IH]; simpl; intros Hnd.
  - now destruct (Nat.eqb c c').
  - apply NoDup_cons in Hnd as [Hnotin Hnd].
    destruct (Nat.eqb c' c0) eqn:E1.
    + apply Nat.eqb_eq in E1 as ->.
      destruct (Nat.eqb c c0) eqn:E2; [|reflexivity].
      apply Nat.eqb_eq in E2 as ->. now apply lookup_conn_None.
    + simpl. destruct (Nat.eqb c c0) eqn:E2.
      * apply Nat.eqb_eq in E2 as ->. rewrite Nat.eqb_sym in E1. now rewrite E1.
      * now apply IH.
Qed.

Lemma fmap_fst_update_conn c f l :
  fst <$> update_conn c f l = fst <$> l.
Proof.
  induction l as [|[c0 k0] l IH]; simpl; [done|].
  destruct (Nat.eqb c c0); simpl; [done|]. f_equal. apply IH.
Qed.

Lemma remove_update_conn c f l :
  remove_conn c (update_conn c f l) = remove_conn c l.
Proof.
  induction l as [|[c0 k0] l IH]; simpl; [done|].
  destruct (Nat.eqb c c0) eqn:E; simpl; rewrite E; [done|]. f_equal. apply IH.
Qed.

Lemma DelConnRecord_eq P conn s k :
  conn_of s conn = Some k -> STATE k = CLOSED ->
  DelConnRecord P conn s
  = Ok tt (set_handle (set_conns (remove_conn conn (conns (handle s))) (handle s)) s).
Proof.
  intros Hk Hst. unfold DelConnRecord.
  rewrite (bind_Ok _ _ _ _ _ (get_conn_Some _ _ _ Hk)).
  assert (Ha : forall msg, assert_ P (bool_decide (STATE k = CLOSED)) msg s = Ok tt s).
  { intros msg. unfold assert_. rewrite bool_decide_eq_true_2 by done.
    now destruct (ndebug P). }
  rewrite (bind_Ok _ _ _ _ _ (Ha _)).
  unfold CancelAllTimers.
  rewrite (bind_Ok _ _ _ _ _ (modify_conn_Some _ _ _ _ Hk)).
  unfold modify_handle, modify, upd_conn. simpl.
  now rewrite remove_update_conn.
Qed.

Lemma conn_of_removed conn s :
  conns_distinct s ->
  forall c,
    conn_of (set_handle (set_conns (remove_conn conn (conns (handle s))) (handle s)) s) c
    = if Nat.eqb c conn then None else conn_of s c.
Proof. intros Hnd c. unfold conn_of. simpl. now apply lookup_remove_conn. Qed.

Lemma conns_distinct_upd_conn c f s :
  conns_distinct s -> conns_distinct (upd_conn c f s).
Proof.
  unfold conns_distinct, upd_conn. simpl. now rewrite fmap_fst_update_conn.
Qed.

Lemma get_handle_eq s : get_handle s = Ok (handle s) s.
Proof. reflexivity. Qed.

Lemma when_emit_eq (b : bool) e s :
  when_ b (emit e) s
  = Ok tt (set_trace (trace s ++ (if b then [e] else [])) s).
Proof.
  destruct s as [h w tr n]. destruct b; simpl; [reflexivity|].
  unfold ret, set_trace. simpl. now rewrite app_nil_r.
Qed.

Lemma bind_bind {A B C : Type} (m : M A) (f : A -> M B) (g : B -> M C) s :
  bind (bind m f) g s = bind m (fun x => bind (f x) g) s.
Proof. unfold bind. now destruct (m s). Qed.

(** Rewrite the first step of the computation in the goal with its
    result [E]. *)
Ltac mstep E :=
  repeat match goal with
         | |- context [bind (bind ?m ?f) ?g ?s0] => rewrite (bind_bind m f g s0)
         end;
  match goal with
  | |- context [bind ?m ?k ?s0] => rewrite (bind_Ok m k s0 _ _ E); cbv beta
  end.

Lemma conn_of_upd_conn_other c c' f s :
  c <> c' -> conn_of (upd_conn c' f s) c = conn_of s c.
Proof.
  intros Hc. rewrite conn_of_upd_conn.
  destruct (Nat.eqb c c') eqn:E; [apply Nat.eqb_eq in E; contradiction|done].
Qed.

(** X6: [DisconnectTimerHandler] and [ConnectTimerHandler] take the
    record off the list of the handle and leave the other records, the
    socket and the clock alone.  The first reports [ER_OK] through
    [DisconnectCb], the second [ER_FAIL] through [ConnectCb] with the
    [passive] flag of the record, each only when the callback is set. *)
Theorem expiry_handlers_delete_record (P : Platform) (conn : ConnPtr)
    (context : TimerContext) (s : St) (k : ArdpConnRecord) :
  conns_distinct s -> conn_of s conn = Some k ->
  (exists s',
     DisconnectTimerHandler P conn context s = Ok tt s' /\
     conn_of s' conn = None /\
     (forall c, c <> conn -> conn_of s' c = conn_of s c) /\
     trace s' = trace s ++ (if DisconnectCb (cb (handle s))
                            then [EvDisconnectCb conn ER_OK] else []) /\
     world s' = world s) /\
  (exists s',
     ConnectTimerHandler P conn context s = Ok tt s' /\
     conn_of s' conn = None /\
     (forall c, c <> conn -> conn_of s' c = conn_of s c) /\
     trace s' = trace s ++ (if ConnectCb (cb (handle s))
                            then [EvConnectCb conn (passive k) 0 ER_FAIL] else []) /\
     world s' = world s).
Proof.
  intros Hnd Hk. split.
  - unfold DisconnectTimerHandler.
    mstep (SetState_eq conn CLOSED s k Hk).
    set (s1 := upd_conn conn (set_STATE CLOSED) s).
    assert (Hk1 : conn_of s1 conn = Some (set_STATE CLOSED k))
      by exact (conn_of_upd_conn_same conn _ s k Hk).
    assert (Hnd1 : conns_distinct s1) by now apply conns_distinct_upd_conn.
    mstep (get_handle_eq s1).
    mstep (when_emit_eq (DisconnectCb (cb (handle s1))) (EvDisconnectCb conn ER_OK) s1).
    match goal with |- context [DelConnRecord P conn ?s2] =>
      rewrite (DelConnRecord_eq P conn s2 _ Hk1 eq_refl);
      pose proof (conn_of_removed conn s2 Hnd1) as Hrem
    end.
    eexists. split; [reflexivity|].
    split; [rewrite Hrem; now rewrite Nat.eqb_refl|].
    split; [|split; reflexivity].
    intros c Hc. rewrite Hrem.
    destruct (Nat.eqb c conn) eqn:E; [apply Nat.eqb_eq in E; contradiction|].
    exact (conn_of_upd_conn_other c conn _ s Hc).
  - unfold ConnectTimerHandler.
    mstep (get_handle_eq s).
    mstep (get_conn_Some conn s k Hk).
    mstep (when_emit_eq (ConnectCb (cb (handle s)))
                        (EvConnectCb conn (passive k) 0 ER_FAIL) s).
    match goal with |- context [bind _ _ ?s0] =>
      set (s1 := s0);
      assert (Hk0 : conn_of s1 conn = Some k) by exact Hk;
      assert (Hnd0 : conns_distinct s1) by exact Hnd
    end.
    mstep (SetState_eq conn CLOSED s1 k Hk0).
    set (s2 := upd_conn conn (set_STATE CLOSED) s1).
    assert (Hk2 : conn_of s2 conn = Some (set_STATE CLOSED k))
      by exact (conn_of_upd_conn_same conn _ s1 k Hk0).
    assert (Hnd2 : conns_distinct s2) by now apply conns_distinct_upd_conn.
    rewrite (DelConnRecord_eq P conn s2 _ Hk2 eq_refl).
    pose proof (conn_of_removed conn s2 Hnd2) as Hrem.
    eexists. split; [reflexivity|].
    split; [rewrite Hrem; now rewrite Nat.eqb_refl|].
    split; [|split; reflexivity].
    intros c Hc. rewrite Hrem.
    destruct (Nat.eqb c conn) eqn:E; [apply Nat.eqb_eq in E; contradiction|].
    exact (conn_of_upd_conn_other c conn _ s1 Hc).
Qed.

Lemma expiry_handlers_delete_record_witness :
  let s := Scenario.opened Scenario.debug_build 7 4 in
  (exists s',
     DisconnectTimerHandler Scenario.debug_build Scenario.the_conn CtxNULL s
     = Ok tt s' /\ conn_of s' Scenario.the_conn = None) /\
  (exists s',
     ConnectTimerHandler Scenario.debug_build Scenario.the_conn CtxNULL s
     = Ok tt s' /\ conn_of s' Scenario.the_conn = None).
Proof.
  intros s.
  assert (Hd : conns_distinct s)
    by (unfold conns_distinct; apply (bool_decide_unpack _); vm_compute; exact I).
  assert (Hk : conn_of s Scenario.the_conn = Some (Scenario.conn_in s))
    by (vm_compute; reflexivity).
  destruct (expiry_handlers_delete_record Scenario.debug_build Scenario.the_conn
              CtxNULL s (Scenario.conn_in s) Hd Hk)
    as [(s1 & H1 & H2 & _) (s2 & H3 & H4 & _)].
  split; [exists s1 | exists s2]; split; assumption.
Defined.

(** ** [FindConn] *)

Lemma lookup_conn_Some_elem c k l :
  lookup_conn c l = Some k -> (c, k) ∈ l.
Proof.
  induction l as [|[c0 k0] l IH]; simpl; [done|].
  destruct (Nat.eqb c c0) eqn:E.
  - apply Nat.eqb_eq in E as ->. intros [= ->]. apply list_elem_of_here.
  - intros H. apply list_elem_of_further. now apply IH.
Qed.

Lemma FindConn_list_Some l local_ foreign_ c :
  NoDup (fst <$> l) ->
  FindConn_list l local_ foreign_ = Some c ->
  exists k, lookup_conn c l = Some k /\ local k = local_ /\ foreign k = foreign_.
Proof.
  induction l as [|[c0 k0] l IH]; simpl; [done|].
  intros Hnd. apply NoDup_cons in Hnd as [Hnotin Hnd].
  destruct ((local k0 =? local_) && (foreign k0 =? foreign_)) eqn:E.
  - intros [= ->]. rewrite Nat.eqb_refl. exists k0.
    apply andb_true_iff in E as [E1 E2].
    apply Z.eqb_eq in E1, E2. auto.
  - intros H. destruct (IH Hnd H) as (k & Hk & Hl & Hf).
    exists k. split; [|auto].
    destruct (Nat.eqb c c0) eqn:E2; [|done].
    apply Nat.eqb_eq in E2 as ->. exfalso. apply Hnotin.
    apply lookup_conn_Some_elem in Hk.
    apply (list_elem_of_fmap_2 fst) in Hk. exact Hk.
Qed.

Lemma FindConn_list_None l local_ foreign_ :
  FindConn_list l local_ foreign_ = None ->
  forall c k, lookup_conn c l = Some k -> local k <> local_ \/ foreign k <> foreign_.
Proof.
  induction l as [|[c0 k0] l IH]; simpl; [done|].
  destruct ((local k0 =? local_) && (foreign k0 =? foreign_)) eqn:E; [done|].
  intros H c k. destruct (Nat.eqb c c0).
  - intros [= ->]. apply andb_false_iff in E as [E|E]; apply Z.eqb_neq in E; auto.
  - now apply IH.
Qed.

(** X7: [FindConn] returns a record whose [local] and [foreign] ports are
    the ones asked for, and returns [NULL] only when no record of the
    handle has them; it changes nothing. *)
Theorem FindConn_finds_matching_record (local_ foreign_ : Z) (s : St) :
  conns_distinct s ->
  exists r,
    FindConn local_ foreign_ s = Ok r s /\
    match r with
    | Some c =>
        exists k, conn_of s c = Some k /\ local k = local_ /\ foreign k = foreign_
    | None =>
        forall c k, conn_of s c = Some k -> local k <> local_ \/ foreign k <> foreign_
    end.
Proof.
  intros Hnd. exists (FindConn_list (conns (handle s)) local_ foreign_).
  split; [reflexivity|].
  destruct (FindConn_list (conns (handle s)) local_ foreign_) as [c|] eqn:E.
  - now apply FindConn_list_Some.
  - now apply FindConn_list_None.
Qed.

Lemma FindConn_finds_matching_record_witness :
  let s := Scenario.opened Scenario.debug_build 7 4 in
  exists r,
    FindConn 42 9 s = Ok r s /\
    match r with
    | Some c =>
        exists k, conn_of s c = Some k /\ local k = 42 /\ foreign k = 9
    | None =>
        forall c k, conn_of s c = Some k -> local k <> 42 \/ foreign k <> 9
    end.
Proof.
  intros s.
  assert (Hd : conns_distinct s)
    by (unfold conns_distinct; apply (bool_decide_unpack _); vm_compute; exact I).
  exact (FindConn_finds_matching_record 42 9 s Hd).
Defined.

(** ** A segment for port 0 when nobody accepts *)

(** X8: a datagram whose destination port is 0, arriving while the
    handle does not accept connections (or has no [AcceptCb]), is
    answered by one RST sent to its source address with [src = 0] and
    [dst] the source port of the datagram; [ARDP_Run] returns and the
    handle is as before. *)
Theorem unsolicited_segment_is_reset (P : Platform) (fuel : nat)
    (sock_ address port : Z) (d : Datagram) (s : St) :
  0 < d_nbytes d < 65536 ->
  h_dst (d_hdr d) = 0 ->
  accepting (handle s) && AcceptCb (cb (handle s)) = false ->
  exists status s',
    ARDP_Run_datagram P fuel sock_ address port d s = Ok (Some status) s' /\
    handle s' = handle s /\
    trace s' = trace s ++
      [EvSendTo (PktRst address port
                   (mkHeader (Z.lor ARDP_FLAG_RST ARDP_FLAG_VER)
                             (u8 (ARDP_FIXED_HEADER_LEN P / 2))
                             0 (h_src (d_hdr d)) 0 0 0 0 0 0 0 []))
                (next_sent s)].
Proof.
  intros Hn Hdst Hacc. unfold ARDP_Run_datagram, ProtocolDemux.
  assert ((0 <? d_nbytes d) && (d_nbytes d <? 65536) = true) as ->.
  { apply andb_true_iff. split; apply Z.ltb_lt; lia. }
  rewrite Hdst. simpl.
  mstep (get_handle_eq s). rewrite Hacc.
  destruct s as [h w tr n]. destruct w as [nw tk sq rq rc ac rd ml].
  unfold SendRst, pop, bind, get, put, ret, emit, modify, next_sent. simpl.
  destruct sq as [|r sq]; simpl; eauto.
Qed.

Lemma unsolicited_segment_is_reset_witness :
  let s := Scenario.opened Scenario.debug_build 7 4 in
  let d := mkDatagram 28 (mkHeader 65 14 7 0 0 50 0 0 0 0 0 []) 4 1024 [] in
  exists status s',
    ARDP_Run_datagram Scenario.debug_build 100 3 Scenario.peer_addr
                      Scenario.peer_port d s = Ok (Some status) s' /\
    handle s' = handle s /\
    trace s' = trace s ++
      [EvSendTo (PktRst Scenario.peer_addr Scenario.peer_port
                   (mkHeader (Z.lor ARDP_FLAG_RST ARDP_FLAG_VER)
                             (u8 (ARDP_FIXED_HEADER_LEN Scenario.debug_build / 2))
                             0 (h_src (d_hdr d)) 0 0 0 0 0 0 0 []))
                (next_sent s)].
Proof.
  intros s d.
  assert (H1 : 0 < d_nbytes d < 65536) by (vm_compute; split; reflexivity).
  assert (H2 : h_dst (d_hdr d) = 0) by reflexivity.
  assert (H3 : accepting (handle s) && AcceptCb (cb (handle s)) = false)
    by (vm_compute; reflexivity).
  exact (unsolicited_segment_is_reset Scenario.debug_build 100 3
           Scenario.peer_addr Scenario.peer_port d s H1 H2 H3).
Defined.

(** ** A new connection record *)

Lemma random_eq s : random s = Ok (next_random s) (random_used s).
Proof.
  destruct s as [h w tr n]. destruct w as [nw tk sq rq rc ac rd ml].
  unfold random, pop, bind, get, put, ret, next_random, random_used. simpl.
  destruct rd; reflexivity.
Qed.

Lemma malloc_ok_eq s : malloc_ok s = Ok (next_malloc s) (malloc_used s).
Proof.
  destruct s as [h w tr n]. destruct w as [nw tk sq rq rc ac rd ml].
  unfold malloc_ok, pop, bind, get, put, ret, next_malloc, malloc_used. simpl.
  destruct ml; reflexivity.
Qed.

Lemma NewConnRecord_eq P s :
  NewConnRecord P s = Ok (next_ptr s) (enlisted (zero_conn P) s).
Proof. reflexivity. Qed.

Lemma emit_eq e s : emit e s = Ok tt (set_trace (trace s ++ [e]) s).
Proof. reflexivity. Qed.

Lemma assert_true P msg s : assert_ P true msg s = Ok tt s.
Proof. unfold assert_. now destruct (ndebug P). Qed.

Lemma assert_ndebug P b msg s : ndebug P = true -> assert_ P b msg s = Ok tt s.
Proof. intros H. unfold assert_. now rewrite H. Qed.

Lemma fresh_conn_notin s :
  fresh_conn s -> next_ptr s ∉ (fst <$> conns (handle s)).
Proof.
  intros Hf Hin. apply list_elem_of_fmap in Hin as ([c k] & Hc & Hin).
  simpl in Hc. subst c. apply Hf in Hin. lia.
Qed.

Lemma lookup_conn_app_new c k l :
  c ∉ (fst <$> l) -> lookup_conn c (l ++ [(c, k)]) = Some k.
Proof.
  induction l as [|[c0 k0] l IH]; simpl.
  - now rewrite Nat.eqb_refl.
  - intros H. apply not_elem_of_cons in H as [H1 H2].
    destruct (Nat.eqb c c0) eqn:E; [apply Nat.eqb_eq in E; contradiction|].
    now apply IH.
Qed.

Lemma lookup_conn_app_other c c' k l :
  c <> c' -> lookup_conn c (l ++ [(c', k)]) = lookup_conn c l.
Proof.
  intros Hc. induction l as [|[c0 k0] l IH]; simpl.
  - destruct (Nat.eqb c c') eqn:E; [apply Nat.eqb_eq in E; contradiction|done].
  - now destruct (Nat.eqb c c0).
Qed.

Lemma remove_conn_app_new c k l :
  c ∉ (fst <$> l) -> remove_conn c (l ++ [(c, k)]) = l.
Proof.
  induction l as [|[c0 k0] l IH]; simpl.
  - now rewrite Nat.eqb_refl.
  - intros H. apply not_elem_of_cons in H as [H1 H2].
    destruct (Nat.eqb c c0) eqn:E; [apply Nat.eqb_eq in E; contradiction|].
    f_equal. now apply IH.
Qed.

Lemma conn_of_enlisted k s :
  fresh_conn s -> conn_of (enlisted k s) (next_ptr s) = Some k.
Proof.
  intros Hf. unfold conn_of, enlisted. simpl.
  apply lookup_conn_app_new. now apply fresh_conn_notin.
Qed.

Lemma conn_of_enlisted_other k s c :
  c <> next_ptr s -> conn_of (enlisted k s) c = conn_of s c.
Proof. intros Hc. unfold conn_of, enlisted. simpl. now apply lookup_conn_app_other. Qed.

(** The fact [conn_of s0 c = Some _] among the hypotheses, up to
    conversion of the state. *)
Ltac conn_fact c s0 :=
  match goal with
  | H : conn_of s0 c = Some _ |- _ => constr:(H)
  | H : conn_of _ c = Some ?k |- _ => constr:(H : conn_of s0 c = Some k)
  end.

Ltac mflat :=
  repeat match goal with
         | |- context [bind (bind ?m ?f) ?g ?s0] => rewrite (bind_bind m f g s0)
         end.

(** One step of a computation whose result is known. *)
Ltac mrun1 :=
  mflat;
  match goal with
  | |- context [bind (get_conn ?c) ?k ?s0] =>
      let H := conn_fact c s0 in
      rewrite (bind_Ok _ k s0 _ _ (get_conn_Some c s0 _ H)); cbv beta
  | |- context [bind (modify_conn ?c ?f) ?k ?s0] =>
      let H := conn_fact c s0 in
      rewrite (bind_Ok _ k s0 _ _ (modify_conn_Some c f s0 _ H)); cbv beta;
      pose proof (conn_of_upd_conn_same c f s0 _ H)
  | |- context [bind (SetState ?c ?st) ?k ?s0] =>
      let H := conn_fact c s0 in
      rewrite (bind_Ok _ k s0 _ _ (SetState_eq c st s0 _ H)); cbv beta;
      pose proof (conn_of_upd_conn_same c (set_STATE st) s0 _ H)
  | |- context [bind (AddTimer ?c ?ty ?h ?cx ?to ?re) ?k ?s0] =>
      let H := conn_fact c s0 in
      rewrite (bind_Ok _ k s0 _ _ (AddTimer_eq c ty h cx to re s0 _ H)); cbv beta;
      let H' := fresh "Hconn" in
      pose proof (conn_of_upd_conn_same c
                    (fun r => set_timers
                       (timers r ++ [new_timer (next_ptr s0) c ty h cx to re
                                               (clock_read s0)]) r)
                    (tick (set_next_ptr (S (next_ptr s0)) s0)) _ H) as H'
  | |- context [bind get_handle ?k ?s0] =>
      rewrite (bind_Ok _ k s0 _ _ (get_handle_eq s0)); cbv beta
  | |- context [bind TimeNow ?k ?s0] =>
      rewrite (bind_Ok _ k s0 _ _ (TimeNow_eq s0)); cbv beta
  | |- context [bind random ?k ?s0] =>
      rewrite (bind_Ok _ k s0 _ _ (random_eq s0)); cbv beta
  | |- context [bind malloc_ok ?k ?s0] =>
      rewrite (bind_Ok _ k s0 _ _ (malloc_ok_eq s0)); cbv beta
  | |- context [bind (emit ?e) ?k ?s0] =>
      rewrite (bind_Ok _ k s0 _ _ (emit_eq e s0)); cbv beta
  | |- context [bind (assert_ ?P true ?msg) ?k ?s0] =>
      rewrite (bind_Ok _ k s0 _ _ (assert_true P msg s0)); cbv beta
  | |- context [bind (ret ?a) ?k ?s0] =>
      change (bind (ret a) k s0) with (k a s0); cbv beta
  end.

Ltac mrun := repeat mrun1; mflat.

(** ** [ARDP_Connect] *)

(** X9: when the allocation of the receive buffers fails (the first or
    the second [malloc] returns [NULL]), [ARDP_Connect] returns
    [ER_OUT_OF_MEMORY], the list of connections is as before and
    nothing is sent. *)
Theorem ARDP_Connect_out_of_memory (P : Platform)
    (sock_ ipAddr_ ipPort_ segmax segbmax buf len ctx : Z) (s : St) :
  fresh_conn s ->
  (exists q, mallocq (world s) = false :: q \/ mallocq (world s) = true :: false :: q) ->
  exists c s',
    ARDP_Connect P sock_ ipAddr_ ipPort_ segmax segbmax buf len ctx s
    = Ok (ER_OUT_OF_MEMORY, c) s' /\
    conns (handle s') = conns (handle s) /\
    trace s' = trace s.
Proof.
  intros Hf [q Hq]. unfold ARDP_Connect.
  mstep (NewConnRecord_eq P s).
  pose proof (conn_of_enlisted (zero_conn P) s Hf) as Hk0.
  unfold InitConnRecord, InitSnd, InitRcv. mrun.
  destruct Hq as [Hq|Hq].
  - match goal with |- context [next_malloc ?s0] =>
      assert (Hm : next_malloc s0 = false)
        by (unfold next_malloc; simpl; now rewrite Hq)
    end.
    rewrite Hm. simpl.
    exists (next_ptr s). eexists. split; [reflexivity|]. split; [|reflexivity].
    simpl. rewrite !remove_update_conn.
    apply remove_conn_app_new. now apply fresh_conn_notin.
  - match goal with |- context [next_malloc ?s0] =>
      assert (Hm : next_malloc s0 = true)
        by (unfold next_malloc; simpl; now rewrite Hq)
    end.
    rewrite Hm. simpl. mrun.
    match goal with |- context [next_malloc ?s0] =>
      assert (Hm2 : next_malloc s0 = false)
        by (unfold next_malloc; simpl; now rewrite Hq)
    end.
    rewrite Hm2. simpl.
    exists (next_ptr s). eexists. split; [reflexivity|]. split; [|reflexivity].
    simpl. rewrite !remove_update_conn.
    apply remove_conn_app_new. now apply fresh_conn_notin.
Qed.

Lemma ARDP_Connect_out_of_memory_witness :
  let s := ARDP_AllocHandle Scenario.config0
             (mkWorld 1000 [] [] [] [] [] [7; 41] [true; false]) in
  exists c s',
    ARDP_Connect Scenario.debug_build 3 Scenario.peer_addr Scenario.peer_port
                 4 1024 4096 5 0 s
    = Ok (ER_OUT_OF_MEMORY, c) s' /\
    conns (handle s') = conns (handle s) /\
    trace s' = trace s.
Proof.
  intros s.
  assert (Hf : fresh_conn s).
  { intros c k H. assert (E : conns (handle s) = []) by reflexivity.
    rewrite E in H. inversion H. }
  assert (Hm : exists q, mallocq (world s) = false :: q
                         \/ mallocq (world s) = true :: false :: q)
    by (exists []; right; reflexivity).
  exact (ARDP_Connect_out_of_memory Scenario.debug_build 3 Scenario.peer_addr
           Scenario.peer_port 4 1024 4096 5 0 s Hf Hm).
Defined.

Ltac mrun2 :=
  first
    [ mrun1
    | mflat;
      match goal with
      | |- context [bind (SendMsg ?c ?p) ?k ?s0] =>
          let H := conn_fact c s0 in
          rewrite (bind_Ok _ k s0 _ _ (SendMsg_eq c p s0 _ H)); cbv beta
      | |- context [bind (assert_ ?P ?b ?msg) ?k ?s0] =>
          match goal with
          | H : ndebug P = true |- _ =>
              rewrite (bind_Ok _ k s0 _ _ (assert_ndebug P b msg s0 H)); cbv beta
          end
      end ].

Lemma conn_of_set_trace t s c : conn_of (set_trace t s) c = conn_of s c.
Proof. reflexivity. Qed.
Lemma conn_of_socket_used s c : conn_of (socket_used s) c = conn_of s c.
Proof. reflexivity. Qed.
Lemma conn_of_tick s c : conn_of (tick s) c = conn_of s c.
Proof. reflexivity. Qed.
Lemma conn_of_random_used s c : conn_of (random_used s) c = conn_of s c.
Proof. reflexivity. Qed.
Lemma conn_of_malloc_used s c : conn_of (malloc_used s) c = conn_of s c.
Proof. reflexivity. Qed.
Lemma conn_of_set_next_ptr n s c : conn_of (set_next_ptr n s) c = conn_of s c.
Proof. reflexivity. Qed.

(** Bring [conn_of] through the changes that leave the handle alone. *)
Ltac conn_norm :=
  rewrite ?conn_of_set_trace, ?conn_of_socket_used, ?conn_of_tick,
          ?conn_of_random_used, ?conn_of_malloc_used, ?conn_of_set_next_ptr.

Lemma u32_idem x : u32 (u32 x) = u32 x.
Proof. unfold u32. apply Z.mod_mod. lia. Qed.

(** X10: [ARDP_Connect] with data to send (or in a build without
    assertions), when memory is available, puts a new record on the
    list in state [SYN_SENT] with [passive = false], the context of
    the caller, [foreign = 0], a local port in [1, 65534],
    [SND.UNA = SND.ISS], [SND.NXT = SND.ISS + 1] and the receive limits
    of the caller; it starts the connect timer with [connectTimeout],
    sends one SYN that carries these values and the data of the caller,
    and returns the status of the socket.  The other connections are
    unchanged. *)
Theorem ARDP_Connect_sends_SYN (P : Platform)
    (sock_ ipAddr_ ipPort_ segmax segbmax buf len ctx : Z) (s : St) :
  fresh_conn s ->
  forallb id (take 2 (mallocq (world s))) = true ->
  ndebug P = true \/ (buf <> 0 /\ len <> 0) ->
  exists s' k',
    ARDP_Connect P sock_ ipAddr_ ipPort_ segmax segbmax buf len ctx s
    = Ok (sendmsg_status (next_sent s), next_ptr s) s' /\
    conn_of s' (next_ptr s) = Some k' /\
    (forall c, c <> next_ptr s -> conn_of s' c = conn_of s c) /\
    STATE k' = SYN_SENT /\ passive k' = false /\ context k' = ctx /\
    foreign k' = 0 /\ 1 <= local k' <= 65534 /\
    SND_UNA k' = SND_ISS k' /\ SND_NXT k' = u32 (SND_ISS k' + 1) /\
    (RCV_MAX k', RBUF_MAX k', RBUF_window k') = (segmax, segbmax, segmax) /\
    timers k'
    = [new_timer (S (next_ptr s)) (next_ptr s) CONNECT_TIMER ConnectTimerHandler_fn
                 CtxNULL (connectTimeout (config (handle s))) ARDP_CONNECT_RETRY
                 (clock_read s)] /\
    trace s' = trace s ++
      [EvSendmsg (next_ptr s)
         (PktSyn (mkSyn (Z.lor ARDP_FLAG_SYN ARDP_FLAG_VER)
                        (u8 (sizeof_ArdpSynSegment / 2)) (local k') 0 (u16 len)
                        (SND_ISS k') 0 (u16 segmax) (u16 segbmax)
                        (u16 (ARDP_FLAG_SDM P)))
                 buf (u16 len))
         (next_sent s)].
Proof.
  intros Hf Hm Hassert. unfold ARDP_Connect.
  mstep (NewConnRecord_eq P s).
  pose proof (conn_of_enlisted (zero_conn P) s Hf) as Hk0.
  unfold InitConnRecord, InitSnd, InitRcv. mrun.
  match goal with |- context [next_malloc ?s0] =>
    assert (Hm1 : next_malloc s0 = true)
      by (unfold next_malloc; simpl;
          destruct (mallocq (world s)) as [|[] ?]; simpl in Hm; done)
  end.
  rewrite Hm1. cbn [negb]. cbv iota. mrun.
  match goal with |- context [next_malloc ?s0] =>
    assert (Hm2 : next_malloc s0 = true)
      by (unfold next_malloc; simpl;
          destruct (mallocq (world s)) as [|[] [|[] ?]]; simpl in Hm; done)
  end.
  rewrite Hm2. cbn [negb]. cbv iota. mrun.
  rewrite bool_decide_eq_true_2 by reflexivity. cbn [negb]. cbv iota.
  unfold SendSyn, DoSendSyn. mrun.
  assert (Hgo : forall msg s0, assert_ P (negb (buf =? 0) && negb (len =? 0)) msg s0
                                 = Ok tt s0).
  { intros msg s0. destruct Hassert as [Hnd|[Hb Hl]].
    - now apply assert_ndebug.
    - apply Z.eqb_neq in Hb, Hl. rewrite Hb, Hl. apply assert_true. }
  match goal with |- context [bind (assert_ P ?b ?msg) ?k ?s0] =>
    rewrite (bind_Ok _ k s0 _ _ (Hgo msg s0)); cbv beta
  end.
  repeat mrun2. mflat.
  match goal with H : conn_of ?sf (next_ptr s) = Some ?kf |- _ =>
    match sf with context [new_timer] =>
      exists (set_trace (trace sf ++ [EvSendmsg (next_ptr s) (PktSyn (mkSyn (Z.lor ARDP_FLAG_SYN ARDP_FLAG_VER)
                        (u8 (sizeof_ArdpSynSegment / 2)) (local kf) 0 (u16 len)
                        (u32 (SND_ISS kf)) (u32 0) (u16 segmax) (u16 segbmax)
                        (u16 (ARDP_FLAG_SDM P))) buf (u16 len)) (next_sent s)]) (socket_used sf)), kf;
      pose proof H as Hfin
    end
  end.
  split; [reflexivity|].
  split; [conn_norm; exact Hfin|].
  split.
  { intros c Hc. unfold conn_of. simpl.
    rewrite !lookup_update_conn.
    destruct (Nat.eqb c (next_ptr s)) eqn:E; [apply Nat.eqb_eq in E; contradiction|].
    now apply lookup_conn_app_other. }
  split; [reflexivity|]. split; [reflexivity|]. split; [reflexivity|].
  split; [reflexivity|].
  split.
  { simpl. match goal with |- 1 <= u16 (?r mod 65534 + 1) <= 65534 =>
      pose proof (Z.mod_pos_bound r 65534 ltac:(lia)) as Hr;
      unfold u16; change (2 ^ 16) with 65536; rewrite Z.mod_small; lia
    end. }
  split; [reflexivity|]. split; [reflexivity|]. split; [reflexivity|].
  split; [reflexivity|].
  simpl. rewrite u32_idem. reflexivity.
Qed.

Lemma ARDP_Connect_sends_SYN_witness :
  let s := ARDP_AllocHandle Scenario.config0
             (mkWorld 1000 [] [] [] [] [] [7; 41] []) in
  exists s' k',
    ARDP_Connect Scenario.debug_build 3 Scenario.peer_addr Scenario.peer_port
                 4 1024 4096 5 0 s
    = Ok (sendmsg_status (next_sent s), next_ptr s) s' /\
    conn_of s' (next_ptr s) = Some k' /\
    STATE k' = SYN_SENT /\
    SND_NXT k' = u32 (SND_ISS k' + 1).
Proof.
  intros s.
  assert (Hf : fresh_conn s).
  { intros c k H. assert (E : conns (handle s) = []) by reflexivity.
    rewrite E in H. inversion H. }
  assert (Hm : forallb id (take 2 (mallocq (world s))) = true) by reflexivity.
  assert (Hb : ndebug Scenario.debug_build = true \/ (4096 <> 0 /\ 5 <> 0))
    by (right; split; lia).
  destruct (ARDP_Connect_sends_SYN Scenario.debug_build 3 Scenario.peer_addr
              Scenario.peer_port 4 1024 4096 5 0 s Hf Hm Hb)
    as (s' & k' & H1 & H2 & _ & H4 & _ & _ & _ & _ & _ & H10 & _).
  exists s', k'.
  split; [exact H1|]. split; [exact H2|]. split; [exact H4|exact H10].
Defined.

(** ** A pass over timers none of which is due *)

Lemma timer_after_split pre x rest :
  t_ptr x ∉ (t_ptr <$> pre) ->
  timer_after (t_ptr x) (pre ++ x :: rest) = head rest.
Proof.
  induction pre as [|y pre IH]; simpl; intros Hnotin.
  - now rewrite Nat.eqb_refl.
  - apply not_elem_of_cons in Hnotin as [Hne Hnotin].
    destruct (Nat.eqb (t_ptr x) (t_ptr y)) eqn:E;
      [apply Nat.eqb_eq in E; contradiction|].
    now apply IH.
Qed.

Lemma CheckConnTimers_body_not_due P fuel conn timer next now_ s :
  now_ < t_when timer ->
  CheckConnTimers_body P fuel conn timer next now_ s
  = Ok (Continue (t_ptr timer) (earlier (t_when timer) next)) s.
Proof.
  intros H. unfold CheckConnTimers_body.
  assert ((t_when timer <=? now_) = false) as -> by now apply Z.leb_gt.
  reflexivity.
Qed.

Lemma CheckConnTimers_loop_idle P fuel conn now_ s k :
  conn_of s conn = Some k ->
  NoDup (t_ptr <$> timers k) ->
  forall rest pre ln next n,
    timers k = pre ++ rest ->
    list_fwd ln (timers k) = head rest ->
    none_due now_ rest = true ->
    (length rest < n)%nat ->
    CheckConnTimers_loop P fuel n conn ln next now_ s
    = Ok (earliest rest next) s.
Proof.
  intros Hk Hnd rest.
  induction rest as [|x rest IH]; intros pre ln next n Hl Hfwd Hdue Hn.
  - destruct n; [simpl in Hn; lia|]. simpl.
    mstep (get_conn_Some conn s k Hk). now rewrite Hfwd.
  - destruct n; [simpl in Hn; lia|]. simpl in Hn.
    cbn [CheckConnTimers_loop].
    mstep (get_conn_Some conn s k Hk). rewrite Hfwd. change (head (x :: rest)) with (Some x). cbv iota.
    simpl in Hdue. apply andb_true_iff in Hdue as [Hx Hdue].
    apply Z.ltb_lt in Hx.
    mstep (CheckConnTimers_body_not_due P fuel conn x next now_ s Hx).
    cbv iota.
    rewrite (IH (pre ++ [x]) (Some (t_ptr x)) (earlier (t_when x) next) n).
    + reflexivity.
    + now rewrite <- app_assoc.
    + simpl. rewrite Hl. apply timer_after_split.
      rewrite Hl, fmap_app in Hnd. simpl in Hnd.
      apply NoDup_app in Hnd as (_ & Hdisj & _).
      intros Hin. apply (Hdisj _ Hin). apply list_elem_of_here.
    + exact Hdue.
    + lia.
Qed.

Lemma earliest_le l : forall next,
  earliest l next <= next /\
  Forall (fun t => earliest l next <= t_when t) l.
Proof.
  unfold earliest. induction l as [|x l IH]; intros next; simpl.
  - split; [lia|constructor].
  - destruct (IH (earlier (t_when x) next)) as [H1 H2].
    assert (He : earlier (t_when x) next <= next /\ earlier (t_when x) next <= t_when x).
    { unfold earlier. destruct (t_when x <? next) eqn:E.
      - apply Z.ltb_lt in E. lia.
      - apply Z.ltb_ge in E. lia. }
    split; [lia|]. constructor; [lia|exact H2].
Qed.

Lemma CheckConnTimers_idle P fuel conn next now_ s k :
  conn_of s conn = Some k ->
  NoDup (t_ptr <$> timers k) ->
  none_due now_ (timers k) = true ->
  (length (timers k) < fuel)%nat ->
  CheckConnTimers P fuel conn next now_ s = Ok (idle_conn_next P now_ k next) s.
Proof.
  intros Hk Hnd Hdue Hfuel. unfold CheckConnTimers, idle_conn_next.
  mstep (get_conn_Some conn s k Hk).
  destruct (timers k) as [|x l] eqn:El; [reflexivity|].
  rewrite <- El in *.
  mstep (CheckConnTimers_loop_idle P fuel conn now_ s k Hk Hnd (timers k) []
           None next fuel eq_refl eq_refl Hdue Hfuel).
  reflexivity.
Qed.

(** X11: [CheckConnTimers] on a connection none of whose timers is due
    runs no handler and changes nothing.  It returns [next] when the
    connection has no timer, and otherwise the distance from [now] to
    the earliest of [next] and the timers' expiry times, or
    [ARDP_NO_TIMEOUT] when that earliest value is [ARDP_NO_TIMEOUT]. *)
Theorem CheckConnTimers_nothing_due (P : Platform) (fuel : nat) (conn : ConnPtr)
    (next now_ : Z) (s : St) (k : ArdpConnRecord) :
  conn_of s conn = Some k ->
  NoDup (t_ptr <$> timers k) ->
  none_due now_ (timers k) = true ->
  (length (timers k) < fuel)%nat ->
  CheckConnTimers P fuel conn next now_ s
  = Ok (match timers k with
        | [] => next
        | _ => if earliest (timers k) next =? ARDP_NO_TIMEOUT P
               then ARDP_NO_TIMEOUT P
               else u32 (earliest (timers k) next - now_)
        end) s /\
  earliest (timers k) next <= next /\
  Forall (fun t => earliest (timers k) next <= t_when t) (timers k).
Proof.
  intros Hk Hnd Hdue Hfuel. split; [|apply earliest_le].
  exact (CheckConnTimers_idle P fuel conn next now_ s k Hk Hnd Hdue Hfuel).
Qed.

Lemma CheckConnTimers_nothing_due_witness :
  let s := Scenario.opened Scenario.debug_build 7 4 in
  let k := Scenario.conn_in s in
  let P := Scenario.debug_build in
  CheckConnTimers P 100 Scenario.the_conn (ARDP_NO_TIMEOUT P) 1000 s
  = Ok (match timers k with
        | [] => ARDP_NO_TIMEOUT P
        | _ => if earliest (timers k) (ARDP_NO_TIMEOUT P) =? ARDP_NO_TIMEOUT P
               then ARDP_NO_TIMEOUT P
               else u32 (earliest (timers k) (ARDP_NO_TIMEOUT P) - 1000)
        end) s.
Proof.
  intros s k P.
  assert (Hk : conn_of s Scenario.the_conn = Some k) by (vm_compute; reflexivity).
  assert (Hn : NoDup (t_ptr <$> timers k))
    by (unfold conns_distinct; apply (bool_decide_unpack _); vm_compute; exact I).
  assert (Hd : none_due 1000 (timers k) = true) by (vm_compute; reflexivity).
  assert (Hl : (length (timers k) < 100)%nat)
    by (apply Nat.ltb_lt; vm_compute; reflexivity).
  exact (proj1 (CheckConnTimers_nothing_due P 100 Scenario.the_conn
                  (ARDP_NO_TIMEOUT P) 1000 s k Hk Hn Hd Hl)).
Defined.

Lemma conn_after_split pre c k rest :
  c ∉ (fst <$> pre) ->
  conn_after c (pre ++ (c, k) :: rest) = fst <$> head rest.
Proof.
  induction pre as [|[c0 k0] pre IH]; simpl; intros Hnotin.
  - now rewrite Nat.eqb_refl.
  - apply not_elem_of_cons in Hnotin as [Hne Hnotin].
    destruct (Nat.eqb c c0) eqn:E; [apply Nat.eqb_eq in E; contradiction|].
    now apply IH.
Qed.

Lemma lookup_conn_split pre c k rest :
  c ∉ (fst <$> pre) -> lookup_conn c (pre ++ (c, k) :: rest) = Some k.
Proof.
  induction pre as [|[c0 k0] pre IH]; simpl; intros Hnotin.
  - now rewrite Nat.eqb_refl.
  - apply not_elem_of_cons in Hnotin as [Hne Hnotin].
    destruct (Nat.eqb c c0) eqn:E; [apply Nat.eqb_eq in E; contradiction|].
    now apply IH.
Qed.

Lemma match_nonempty {A B : Type} (l : list A) (a b : B) :
  l <> [] -> match l with [] => a | _ :: _ => b end = b.
Proof. now destruct l. Qed.

Lemma CheckTimers_loop_idle P fuel now_ s :
  conns_distinct s ->
  forall rest pre ln next n,
    conns (handle s) = pre ++ rest ->
    conns_fwd ln (conns (handle s)) = fst <$> head rest ->
    forallb (fun ck => idle_conn fuel now_ (snd ck)) rest = true ->
    (length rest < n)%nat ->
    CheckTimers_loop P fuel n ln next now_ s
    = Ok (idle_next P now_ rest next) s.
Proof.
  intros Hnd rest.
  induction rest as [|[c k] rest IH]; intros pre ln next n Hl Hfwd Hidle Hn.
  - destruct n; [simpl in Hn; lia|]. simpl.
    mstep (get_handle_eq s). now rewrite Hfwd.
  - destruct n; [simpl in Hn; lia|]. simpl in Hn.
    cbn [CheckTimers_loop].
    mstep (get_handle_eq s). rewrite Hfwd.
    change (fst <$> head ((c, k) :: rest)) with (Some c). cbv iota.
    assert (Hnotin : c ∉ (fst <$> pre)).
    { unfold conns_distinct in Hnd. rewrite Hl, fmap_app in Hnd.
      apply NoDup_app in Hnd as (_ & Hdisj & _).
      intros Hin. apply (Hdisj _ Hin). simpl. apply list_elem_of_here. }
    assert (Hk : conn_of s c = Some k).
    { unfold conn_of. rewrite Hl. now apply lookup_conn_split. }
    simpl in Hidle. apply andb_true_iff in Hidle as [Hc Hidle].
    unfold idle_conn in Hc. apply andb_true_iff in Hc as [Hc Hlen].
    apply andb_true_iff in Hc as [Hndt Hdue].
    apply bool_decide_eq_true in Hndt. apply Nat.ltb_lt in Hlen.
    mstep (CheckConnTimers_idle P fuel c next now_ s k Hk Hndt Hdue Hlen).
    mstep (IsConnValid_eq c s). rewrite Hk. cbv iota.
    mstep (get_handle_eq s).
    rewrite match_nonempty by (rewrite Hl; now destruct pre).
    rewrite (IH (pre ++ [(c, k)]) (Some c) _ n).
    + reflexivity.
    + now rewrite <- app_assoc.
    + simpl. rewrite Hl. now apply conn_after_split.
    + exact Hidle.
    + lia.
Qed.

(** X12: [CheckTimers], when no timer of any connection is due, reads the
    clock once, runs no handler, leaves every record as it is and
    returns the value that the connections' [CheckConnTimers] yield in
    turn, starting from [ARDP_NO_TIMEOUT]. *)
Theorem CheckTimers_nothing_due (P : Platform) (fuel : nat) (s : St) :
  conns_distinct s ->
  forallb (fun ck => idle_conn fuel (clock_read s) (snd ck)) (conns (handle s)) = true ->
  (length (conns (handle s)) < fuel)%nat ->
  CheckTimers P fuel s
  = Ok (idle_next P (clock_read s) (conns (handle s)) (ARDP_NO_TIMEOUT P)) (tick s).
Proof.
  intros Hnd Hidle Hfuel. unfold CheckTimers.
  mstep (TimeNow_eq s). mstep (get_handle_eq (tick s)).
  change (conns (handle (tick s))) with (conns (handle s)).
  destruct (conns (handle s)) as [|ck l] eqn:El; [reflexivity|].
  rewrite <- El in *.
  apply (CheckTimers_loop_idle P fuel (clock_read s) (tick s) Hnd
           (conns (handle s)) [] None (ARDP_NO_TIMEOUT P) fuel eq_refl eq_refl
           Hidle Hfuel).
Qed.

Lemma CheckTimers_nothing_due_witness :
  let s := Scenario.opened Scenario.debug_build 7 4 in
  let P := Scenario.debug_build in
  CheckTimers P 100 s
  = Ok (idle_next P (clock_read s) (conns (handle s)) (ARDP_NO_TIMEOUT P)) (tick s).
Proof.
  intros s P.
  assert (Hd : conns_distinct s)
    by (unfold conns_distinct; apply (bool_decide_unpack _); vm_compute; exact I).
  assert (Hi : forallb (fun ck => idle_conn 100 (clock_read s) (snd ck))
                       (conns (handle s)) = true)
    by (vm_compute; reflexivity).
  assert (Hl : (length (conns (handle s)) < 100)%nat)
    by (apply Nat.ltb_lt; vm_compute; reflexivity).
  exact (CheckTimers_nothing_due P 100 s Hd Hi Hl).
Defined.

(** ** The receive ring when a connection is set up *)

Lemma lookup_ring_init n i :
  (i < n)%nat ->
  map (fun i => zero_rcv (S i mod n)) (seq 0 n) !! i = Some (zero_rcv (S i mod n)).
Proof.
  intros Hi.
  change (map (fun i => zero_rcv (S i mod n)) (seq 0 n))
    with ((fun i => zero_rcv (S i mod n)) <$> seq 0 n).
  rewrite list_lookup_fmap, lookup_seq_lt by exact Hi. reflexivity.
Qed.

Lemma length_ring_init n :
  length (map (fun i => zero_rcv (S i mod n)) (seq 0 n)) = n.
Proof. now rewrite length_map, length_seq. Qed.

(** X13: [InitRcv], when memory is available, gives the connection a
    ring of [segmax] receive slots, each linked to the next and the last
    to the first, none in use and all marked delivered; it sets
    [RCV.MAX], [RBUF.MAX] and the window to the arguments and leaves
    [RBUF.first] and [RBUF.last] alone, so that the receive window
    accounting holds when these two are equal. *)
Theorem InitRcv_builds_ring (conn : ConnPtr) (segmax segbmax : Z) (s : St)
    (k : ArdpConnRecord) :
  conn_of s conn = Some k ->
  forallb id (take 2 (mallocq (world s))) = true ->
  exists s' k',
    InitRcv conn segmax segbmax s = Ok ER_OK s' /\
    conn_of s' conn = Some k' /\
    (forall c, c <> conn -> conn_of s' c = conn_of s c) /\
    trace s' = trace s /\
    length (RBUF_rcv k') = Z.to_nat segmax /\
    links_ok (RBUF_rcv k') /\
    ring_empty k' = true /\
    Forall (fun b => rcv_isDelivered b = true) (RBUF_rcv k') /\
    (RCV_MAX k', RBUF_MAX k', RBUF_window k') = (segmax, segbmax, segmax) /\
    (RBUF_first k', RBUF_last k') = (RBUF_first k, RBUF_last k) /\
    (RBUF_last k = RBUF_first k -> rcv_window_ok k').
Proof.
  intros Hk Hm. unfold InitRcv. mrun.
  match goal with |- context [next_malloc ?s0] =>
    assert (Hm1 : next_malloc s0 = true)
      by (unfold next_malloc; simpl;
          destruct (mallocq (world s)) as [|[] ?]; simpl in Hm; done)
  end.
  rewrite Hm1. cbn [negb]. cbv iota. mrun.
  match goal with |- context [next_malloc ?s0] =>
    assert (Hm2 : next_malloc s0 = true)
      by (unfold next_malloc; simpl;
          destruct (mallocq (world s)) as [|[] [|[] ?]]; simpl in Hm; done)
  end.
  rewrite Hm2. cbn [negb]. cbv iota. mrun.
  match goal with H : conn_of ?sf conn = Some ?kf |- _ =>
    match sf with context [zero_rcv] =>
      exists sf, kf; pose proof H as Hfin;
      assert (Hr : RBUF_rcv kf = map (fun i => zero_rcv (S i mod Z.to_nat segmax))
                                     (seq 0 (Z.to_nat segmax))) by reflexivity
    end
  end.
  assert (Hempty : ring_empty
            (set_RBUF_rcv (map (fun i => zero_rcv (S i mod Z.to_nat segmax))
                               (seq 0 (Z.to_nat segmax)))
               (set_RBUF_window segmax (set_RBUF_MAX segbmax (set_RCV_MAX segmax k))))
            = true).
  { unfold ring_empty, rcv_used. simpl. apply forallb_forall. intros x Hx.
    apply list_elem_of_In in Hx.
    apply list_elem_of_fmap in Hx as (b & -> & Hb).
    apply list_elem_of_In, in_map_iff in Hb as (i & <- & _). reflexivity. }
  split; [reflexivity|]. split; [exact Hfin|].
  split.
  { intros c Hc. unfold conn_of. simpl. rewrite !lookup_update_conn.
    destruct (Nat.eqb c conn) eqn:E; [apply Nat.eqb_eq in E; contradiction|done]. }
  split; [reflexivity|].
  split; [rewrite Hr; apply length_ring_init|].
  split.
  { rewrite Hr. intros i b Hb. rewrite length_ring_init.
    assert (Hi : (i < Z.to_nat segmax)%nat).
    { apply lookup_lt_Some in Hb. now rewrite length_ring_init in Hb. }
    rewrite lookup_ring_init in Hb by exact Hi. inversion Hb; subst. simpl.
    f_equal. lia. }
  split; [exact Hempty|].
  split.
  { rewrite Hr. apply Forall_forall. intros b Hb.
    apply list_elem_of_In, in_map_iff in Hb as (i & <- & _). reflexivity. }
  split; [reflexivity|]. split; [reflexivity|].
  intros Heq. unfold rcv_window_ok. rewrite Hempty. simpl. auto.
Qed.

Lemma InitRcv_builds_ring_witness :
  let s := Scenario.opened Scenario.debug_build 7 4 in
  exists s' k',
    InitRcv Scenario.the_conn 4 1024 s = Ok ER_OK s' /\
    conn_of s' Scenario.the_conn = Some k' /\
    length (RBUF_rcv k') = Z.to_nat 4 /\
    links_ok (RBUF_rcv k') /\
    ring_empty k' = true.
Proof.
  intros s.
  assert (Hk : conn_of s Scenario.the_conn = Some (Scenario.conn_in s))
    by (vm_compute; reflexivity).
  assert (Hm : forallb id (take 2 (mallocq (world s))) = true)
    by (vm_compute; reflexivity).
  destruct (InitRcv_builds_ring Scenario.the_conn 4 1024 s (Scenario.conn_in s)
              Hk Hm)
    as (s' & k' & H1 & H2 & _ & _ & H5 & H6 & H7 & _).
  exists s', k'.
  split; [exact H1|]. split; [exact H2|]. split; [exact H5|].
  split; [exact H6|exact H7].
Defined.

(** ** Assignments to one record, composed *)

Lemma update_conn_twice c f g l :
  update_conn c f (update_conn c g l) = update_conn c (fun k => f (g k)) l.
Proof.
  induction l as [|[c0 k0] l IH]; simpl; [done|].
  destruct (Nat.eqb c c0) eqn:E; simpl; rewrite E; [done|]. f_equal. apply IH.
Qed.

Lemma update_conn_ext c f g l k :
  lookup_conn c l = Some k -> f k = g k -> update_conn c f l = update_conn c g l.
Proof.
  induction l as [|[c0 k0] l IH]; simpl; [done|].
  destruct (Nat.eqb c c0).
  - intros [= ->] ->. reflexivity.
  - intros H1 H2. f_equal. now apply IH.
Qed.

Lemma update_conn_id c f l k :
  lookup_conn c l = Some k -> f k = k -> update_conn c f l = l.
Proof.
  induction l as [|[c0 k0] l IH]; simpl; [done|].
  destruct (Nat.eqb c c0).
  - intros [= ->] ->. reflexivity.
  - intros H1 H2. f_equal. now apply IH.
Qed.

Lemma upd_conn_twice c f g s :
  upd_conn c f (upd_conn c g s) = upd_conn c (fun k => f (g k)) s.
Proof. unfold upd_conn. simpl. now rewrite update_conn_twice. Qed.

Lemma upd_conn_ext c f g s k :
  conn_of s c = Some k -> f k = g k -> upd_conn c f s = upd_conn c g s.
Proof.
  intros Hk Hfg. unfold upd_conn. now rewrite (update_conn_ext c f g _ k Hk Hfg).
Qed.

Lemma upd_conn_id c f s k :
  conn_of s c = Some k -> f k = k -> upd_conn c f s = s.
Proof.
  intros Hk Hf. unfold upd_conn. rewrite (update_conn_id c f _ k Hk Hf).
  destruct s as [h w tr n]. now destruct h.
Qed.

Lemma modify_rcv_Some c i f s k b :
  conn_of s c = Some k -> RBUF_rcv k !! i = Some b ->
  modify_rcv c i f s
  = Ok tt (upd_conn c (fun k => set_RBUF_rcv (<[i := f b]> (RBUF_rcv k)) k) s).
Proof.
  intros Hk Hb. unfold modify_rcv, get_rcv.
  mstep (get_conn_Some c s k Hk). rewrite Hb.
  change (bind (ret b) ?g s) with (g b s). cbv beta.
  now apply modify_conn_Some with k.
Qed.

(** ** [PostInitRcv] *)

Lemma PostInitRcv_loop_eq conn irs : forall n i s k,
  conn_of s conn = Some k ->
  (i + n <= length (RBUF_rcv k))%nat ->
  PostInitRcv_loop n conn i irs s
  = Ok tt (upd_conn conn
             (fun k => set_RBUF_rcv (stamp_seq n i irs (RBUF_rcv k)) k) s).
Proof.
  induction n as [|n IH]; intros i s k Hk Hlen.
  - simpl. unfold ret. f_equal. symmetry.
    apply (upd_conn_id conn _ s k Hk). now destruct k.
  - cbn [PostInitRcv_loop].
    assert (Hi : (i < length (RBUF_rcv k))%nat) by lia.
    apply lookup_lt_is_Some_2 in Hi as [b Hb].
    mstep (modify_rcv_Some conn i (set_rcv_seq irs) s k b Hk Hb).
    rewrite (IH (S i) _ _ (conn_of_upd_conn_same conn _ s k Hk)).
    + f_equal. rewrite upd_conn_twice.
      apply (upd_conn_ext conn _ _ s k Hk). simpl. now rewrite Hb.
    + simpl. rewrite length_insert. lia.
Qed.

Lemma stamp_seq_length irs : forall n i l, length (stamp_seq n i irs l) = length l.
Proof.
  induction n as [|n IH]; intros i l; simpl; [done|].
  destruct (l !! i); [|done]. now rewrite IH, length_insert.
Qed.

Lemma stamp_seq_fmap {X : Type} (g : ArdpRcvBuf -> X) irs :
  (forall b, g (set_rcv_seq irs b) = g b) ->
  forall n i l, g <$> stamp_seq n i irs l = g <$> l.
Proof.
  intros Hg. induction n as [|n IH]; intros i l; simpl; [done|].
  destruct (l !! i) as [b|] eqn:Hb; [|done].
  rewrite IH, list_fmap_insert, Hg, list_insert_id; [done|].
  now rewrite list_lookup_fmap, Hb.
Qed.

Lemma stamp_seq_lookup irs : forall n i l j b,
  (i + n <= length l)%nat -> (i <= j < i + n)%nat ->
  stamp_seq n i irs l !! j = Some b -> rcv_seq b = irs.
Proof.
  induction n as [|n IH]; intros i l j b Hlen Hj; [lia|]. simpl.
  assert (Hi : (i < length l)%nat) by lia.
  apply lookup_lt_is_Some_2 in Hi as [bi Hbi]. rewrite Hbi.
  destruct (decide (j = i)) as [->|Hne].
  - intros H.
    assert (Hfix : forall m i0 l0, (i < i0)%nat ->
              stamp_seq m i0 irs l0 !! i = l0 !! i).
    { clear. induction m as [|m IHm]; intros i0 l0 Hlt; simpl; [done|].
      destruct (l0 !! i0); [|done].
      rewrite IHm by lia. apply list_lookup_insert_ne. lia. }
    rewrite Hfix in H by lia.
    rewrite list_lookup_insert_eq in H by (eapply lookup_lt_Some; eauto).
    now inversion H.
  - apply IH; [rewrite length_insert; lia|lia].
Qed.

(** X14: the steps that lead into [OPEN].  [RBUF.first] and [RBUF.last]
    become [RCV.CUR + 1], the first [RCV.MAX] slots get the sequence
    number [RCV.IRS], the links and the in-use flags stay, the state
    becomes [OPEN], the first connect timer is cancelled, [lastSeen] is
    the clock and the window check timer is started with
    [persistTimeout] and no limit on retries; nothing is sent.  An empty
    ring with a full window satisfies the receive window accounting
    afterwards. *)
Theorem enter_OPEN_sets_up_connection (conn : ConnPtr) (s : St)
    (k : ArdpConnRecord) :
  conn_of s conn = Some k ->
  (Z.to_nat (RCV_MAX k) <= length (RBUF_rcv k))%nat ->
  exists s' k',
    enter_OPEN conn s = Ok tt s' /\
    conn_of s' conn = Some k' /\
    STATE k' = OPEN /\
    RBUF_first k' = u32 (RCV_CUR k + 1) /\ RBUF_last k' = u32 (RCV_CUR k + 1) /\
    rcv_used k' = rcv_used k /\
    rcv_next <$> RBUF_rcv k' = rcv_next <$> RBUF_rcv k /\
    (forall j b, (j < Z.to_nat (RCV_MAX k))%nat ->
                 RBUF_rcv k' !! j = Some b -> rcv_seq b = RCV_IRS k) /\
    lastSeen k' = clock_read s /\
    timers k'
    = cancel_first CONNECT_TIMER CtxNULL (timers k) ++
      [new_timer (next_ptr s) conn WINDOW_CHECK_TIMER WindowCheckTimerHandler_fn
                 CtxNULL (persistTimeout (config (handle s))) ARDP_RETRY_ALWAYS
                 (clock_read (tick s))] /\
    trace s' = trace s /\
    (ring_empty k = true -> RBUF_window k = RCV_MAX k -> rcv_window_ok k').
Proof.
  intros Hk Hlen. unfold enter_OPEN, PostInitRcv. mrun.
  match goal with
  | H : conn_of ?s1 conn = Some ?k1 |- context [PostInitRcv_loop ?n conn 0%nat ?irs] =>
      mstep (PostInitRcv_loop_eq conn irs n 0%nat s1 k1 H Hlen);
      pose proof (conn_of_upd_conn_same conn
                    (fun r => set_RBUF_rcv (stamp_seq n 0 irs (RBUF_rcv r)) r)
                    s1 k1 H)
  end.
  unfold CancelTimer. mrun.
  match goal with H : conn_of ?sf conn = Some ?kf |- _ =>
    match sf with context [WINDOW_CHECK_TIMER] => pose proof H as Hfin end
  end.
  eexists. eexists. split; [reflexivity|].
  split; [exact Hfin|].
  split; [reflexivity|]. split; [reflexivity|]. split; [reflexivity|].
  split.
  { unfold rcv_used. simpl. apply stamp_seq_fmap. reflexivity. }
  split.
  { simpl. apply stamp_seq_fmap. reflexivity. }
  split.
  { intros j b Hj Hb. simpl in Hb.
    apply (stamp_seq_lookup _ _ 0%nat _ j b Hlen) in Hb; [exact Hb|lia]. }
  split; [reflexivity|]. split; [reflexivity|]. split; [reflexivity|].
  intros Hempty Hwin. unfold rcv_window_ok.
  match goal with |- if ring_empty ?kf then _ else _ =>
    assert (He : ring_empty kf = true)
  end.
  { unfold ring_empty, rcv_used in *. simpl.
    rewrite (stamp_seq_fmap rcv_inUse); [exact Hempty|reflexivity]. }
  rewrite He. simpl. auto.
Qed.

Lemma enter_OPEN_sets_up_connection_witness :
  let s := Scenario.state_of
             (ARDP_Connect Scenario.debug_build 3 Scenario.peer_addr
                Scenario.peer_port 4 1024 4096 5 0
                (ARDP_AllocHandle Scenario.config0
                   (mkWorld 1000 [] [] [] [] [] [7; 41] []))) in
  let k := Scenario.conn_in s in
  exists s' k',
    enter_OPEN Scenario.the_conn s = Ok tt s' /\
    conn_of s' Scenario.the_conn = Some k' /\
    STATE k' = OPEN /\
    RBUF_first k' = u32 (RCV_CUR k + 1) /\ RBUF_last k' = u32 (RCV_CUR k + 1) /\
    rcv_window_ok k'.
Proof.
  intros s k.
  assert (Hk : conn_of s Scenario.the_conn = Some k) by (vm_compute; reflexivity).
  assert (Hl : (Z.to_nat (RCV_MAX k) <= length (RBUF_rcv k))%nat)
    by (apply Nat.leb_le; vm_compute; reflexivity).
  assert (He : ring_empty k = true) by (vm_compute; reflexivity).
  assert (Hw : RBUF_window k = RCV_MAX k) by (vm_compute; reflexivity).
  destruct (enter_OPEN_sets_up_connection Scenario.the_conn s k Hk Hl)
    as (s' & k' & H1 & H2 & H3 & H4 & H5 & _ & _ & _ & _ & _ & _ & H12).
  exists s', k'.
  split; [exact H1|]. split; [exact H2|]. split; [exact H3|].
  split; [exact H4|]. split; [exact H5|exact (H12 He Hw)].
Defined.

(** ** The number of fragments *)

(** X15: for a message of [len > 0] octets the number of fragments that
    [SendData] computes is the least [f] with [len <= f * maxDlen], as
    long as that number fits 16 bits. *)
Theorem fragment_count_is_ceiling (len maxDlen : Z) :
  0 < maxDlen -> 0 < len ->
  len <= 65535 * maxDlen -> len + maxDlen - 1 < 2 ^ 32 ->
  (fragment_count len maxDlen - 1) * maxDlen < len
  /\ len <= fragment_count len maxDlen * maxDlen
  /\ 1 <= fragment_count len maxDlen <= 65535.
Proof.
  intros Hm Hl Hmax Hov. unfold fragment_count.
  replace (len + (maxDlen - 1)) with (len + maxDlen - 1) by lia.
  rewrite (u32_small (len + maxDlen - 1)) by lia.
  set (q := (len + maxDlen - 1) / maxDlen).
  pose proof (Z.div_mod (len + maxDlen - 1) maxDlen ltac:(lia)) as Hdm.
  pose proof (Z.mod_pos_bound (len + maxDlen - 1) maxDlen Hm) as Hr.
  fold q in Hdm.
  assert (Hq1 : 1 <= q) by nia.
  assert (Hq2 : q <= 65535) by nia.
  assert (Hu : u16 q = q).
  { unfold u16. apply Z.mod_small. change (2 ^ 16) with 65536. lia. }
  rewrite Hu. repeat split; nia.
Qed.

Lemma fragment_count_is_ceiling_witness :
  (fragment_count 1929 964 - 1) * 964 < 1929
  /\ 1929 <= fragment_count 1929 964 * 964
  /\ 1 <= fragment_count 1929 964 <= 65535.
Proof.
  apply fragment_count_is_ceiling; lia.
Defined.

(** X16: when the number of fragments is a multiple of [2^16], the
    [uint16_t] count is 0: [ARDP_Send] on an [OPEN] connection with room
    in its window returns [ER_OK] although it queued and sent
    nothing. *)
Theorem ARDP_Send_fragment_count_wraps (P : Platform) (conn : ConnPtr) (s : St)
    (k : ArdpConnRecord) (buf len ttl : Z) :
  conn_of s conn = Some k -> STATE k = OPEN ->
  buf <> 0 ->
  u32 (SND_NXT k - SND_UNA k) < window k ->
  u32 (SND_NXT k - SND_UNA k) < SND_MAX k ->
  0 <= SND_MAX k -> 0 <= window k ->
  0 < SBUF_maxDlen k < len ->
  fragment_count len (SBUF_maxDlen k) = 0 ->
  ARDP_Send P conn buf len ttl s = Ok ER_OK s.
Proof.
  intros Hk Hopen Hbuf Hwin Hmax Hm0 Hw0 Hlen Hf. unfold ARDP_Send.
  mstep (IsConnValid_eq conn s). rewrite Hk. cbn [negb]. cbv iota.
  mstep (get_conn_Some conn s k Hk).
  rewrite bool_decide_eq_true_2 by exact Hopen. cbn [negb]. cbv iota.
  assert ((buf =? 0) = false) as -> by now apply Z.eqb_neq.
  assert ((len =? 0) = false) as -> by (apply Z.eqb_neq; lia).
  assert ((window k =? 0) = false) as ->.
  { apply Z.eqb_neq. pose proof (u32_range (SND_NXT k - SND_UNA k)). lia. }
  assert ((window k <=? u32 (SND_NXT k - SND_UNA k)) = false) as ->
    by (apply Z.leb_gt; lia).
  cbn [orb]. cbv iota.
  unfold SendData. mstep (get_conn_Some conn s k Hk).
  assert ((u32 (SND_NXT k - SND_UNA k) <? SND_MAX k) = true) as ->
    by (apply Z.ltb_lt; lia).
  assert ((len <=? SBUF_maxDlen k) = false) as -> by (apply Z.leb_gt; lia).
  assert ((SBUF_maxDlen k =? 0) = false) as -> by (apply Z.eqb_neq; lia).
  rewrite Hf.
  assert ((SND_MAX k <? 0) = false) as -> by (apply Z.ltb_ge; lia).
  assert ((window k <? 0) = false) as -> by (apply Z.ltb_ge; lia).
  reflexivity.
Qed.

Lemma ARDP_Send_fragment_count_wraps_witness :
  let s := Scenario.opened Scenario.debug_build 7 4 in
  ARDP_Send Scenario.debug_build Scenario.the_conn 4096 63176704 0 s = Ok ER_OK s.
Proof.
  intros s.
  assert (Hk : conn_of s Scenario.the_conn = Some (Scenario.conn_in s))
    by (vm_compute; reflexivity).
  assert (Hst : STATE (Scenario.conn_in s) = OPEN) by (vm_compute; reflexivity).
  assert (Hb : 4096 <> 0) by lia.
  assert (H1 : u32 (SND_NXT (Scenario.conn_in s) - SND_UNA (Scenario.conn_in s))
               < window (Scenario.conn_in s)) by (vm_compute; reflexivity).
  assert (H2 : u32 (SND_NXT (Scenario.conn_in s) - SND_UNA (Scenario.conn_in s))
               < SND_MAX (Scenario.conn_in s)) by (vm_compute; reflexivity).
  assert (H3 : 0 <= SND_MAX (Scenario.conn_in s))
    by (apply Z.leb_le; vm_compute; reflexivity).
  assert (H4 : 0 <= window (Scenario.conn_in s))
    by (apply Z.leb_le; vm_compute; reflexivity).
  assert (H5 : 0 < SBUF_maxDlen (Scenario.conn_in s) < 63176704)
    by (split; vm_compute; reflexivity).
  assert (H6 : fragment_count 63176704 (SBUF_maxDlen (Scenario.conn_in s)) = 0)
    by (vm_compute; reflexivity).
  exact (ARDP_Send_fragment_count_wraps Scenario.debug_build Scenario.the_conn s
           (Scenario.conn_in s) 4096 63176704 0 Hk Hst Hb H1 H2 H3 H4 H5 H6).
Defined.

(** ** A segment with RST *)

(** X17: a segment with RST is never answered.  [CLOSED], [LISTEN] and
    [CLOSE_WAIT] ignore it; [SYN_SENT] goes to [CLOSED]; [SYN_RCVD] goes
    back to [LISTEN] when the connection is passive and to [CLOSED]
    otherwise; [OPEN] goes to [CLOSE_WAIT] and starts the disconnect
    timer with [timewait] (the last two for a sequence number in the
    receive window). *)
Theorem RST_is_never_answered (P : Platform) (fuel : nat) (conn : ConnPtr)
    (seg : ArdpSeg) (d : Datagram) (len : Z) (s : St) (k : ArdpConnRecord) :
  conn_of s conn = Some k ->
  has_flag (FLG seg) ARDP_FLAG_RST = true ->
  (STATE k = SYN_RCVD \/ STATE k = OPEN ->
   IN_RANGE (u32 (RCV_CUR k + 1)) (RCV_MAX k) (SEQ seg) = true) ->
  exists s',
    ArdpMachine P fuel conn seg d len s = Ok tt s' /\
    trace s' = trace s /\
    conn_of s' conn
    = Some (match STATE k with
            | CLOSED | LISTEN | CLOSE_WAIT => k
            | SYN_SENT => set_STATE CLOSED k
            | SYN_RCVD => set_STATE (if passive k then LISTEN else CLOSED) k
            | OPEN =>
                set_STATE CLOSE_WAIT
                  (set_timers
                     (timers k ++
                      [new_timer (next_ptr s) conn DISCONNECT_TIMER
                                 DisconnectTimerHandler_fn CtxNULL
                                 (timewait (config (handle s)))
                                 ARDP_DISCONNECT_RETRY (clock_read s)]) k)
            end).
Proof.
  intros Hk Hrst Hrange. unfold ArdpMachine.
  mstep (get_conn_Some conn s k Hk). mstep (get_handle_eq s).
  destruct (STATE k) eqn:Est; rewrite ?Hrst; cbv iota.
  - exists s. auto.
  - exists s. auto.
  - rewrite (SetState_eq conn CLOSED s k Hk). eexists. split; [reflexivity|].
    split; [reflexivity|]. exact (conn_of_upd_conn_same conn _ s k Hk).
  - rewrite Hrange by auto. cbn [negb]. cbv iota.
    destruct (passive k).
    + rewrite (SetState_eq conn LISTEN s k Hk). eexists. split; [reflexivity|].
      split; [reflexivity|]. exact (conn_of_upd_conn_same conn _ s k Hk).
    + rewrite (SetState_eq conn CLOSED s k Hk). eexists. split; [reflexivity|].
      split; [reflexivity|]. exact (conn_of_upd_conn_same conn _ s k Hk).
  - rewrite Hrange by auto. cbn [negb]. cbv iota.
    mrun.
    match goal with |- context [SetState conn CLOSE_WAIT ?s1] =>
      let H := conn_fact conn s1 in
      rewrite (SetState_eq conn CLOSE_WAIT s1 _ H);
      pose proof (conn_of_upd_conn_same conn (set_STATE CLOSE_WAIT) s1 _ H) as Hfin
    end.
    eexists. split; [reflexivity|]. split; [reflexivity|]. exact Hfin.
  - exists s. auto.
Qed.

Lemma RST_is_never_answered_witness :
  let s := Scenario.opened Scenario.debug_build 7 4 in
  let k := Scenario.conn_in s in
  let seg := mkSeg 101 8 0 0 0 0 0 42 9 4 0 72 16 in
  let d := mkDatagram 32 (mkHeader 72 16 9 42 0 101 8 4 0 0 0 [0]) 0 0 [] in
  exists s',
    ArdpMachine Scenario.debug_build 100 Scenario.the_conn seg d 32 s = Ok tt s' /\
    trace s' = trace s /\
    conn_of s' Scenario.the_conn
    = Some (set_STATE CLOSE_WAIT
              (set_timers
                 (timers k ++
                  [new_timer (next_ptr s) Scenario.the_conn DISCONNECT_TIMER
                             DisconnectTimerHandler_fn CtxNULL
                             (timewait (config (handle s)))
                             ARDP_DISCONNECT_RETRY (clock_read s)]) k)).
Proof.
  intros s k seg d.
  assert (Hk : conn_of s Scenario.the_conn = Some k) by (vm_compute; reflexivity).
  assert (Hst : STATE k = OPEN) by (vm_compute; reflexivity).
  assert (Hf : has_flag (FLG seg) ARDP_FLAG_RST = true) by (vm_compute; reflexivity).
  assert (Hr : STATE k = SYN_RCVD \/ STATE k = OPEN ->
               IN_RANGE (u32 (RCV_CUR k + 1)) (RCV_MAX k) (SEQ seg) = true)
    by (intros _; vm_compute; reflexivity).
  pose proof (RST_is_never_answered Scenario.debug_build 100 Scenario.the_conn
                seg d 32 s k Hk Hf Hr) as W.
  rewrite Hst in W. exact W.
Defined.

(** ** [ARDP_FreeHandle] *)

Lemma DelConnRecord_ndebug P conn s k :
  conn_of s conn = Some k -> ndebug P = true ->
  DelConnRecord P conn s
  = Ok tt (set_handle (set_conns (remove_conn conn (conns (handle s))) (handle s)) s).
Proof.
  intros Hk Hnd. unfold DelConnRecord.
  mstep (get_conn_Some conn s k Hk).
  mstep (assert_ndebug P (bool_decide (STATE k = CLOSED))
           "DelConnRecord(): Delete while not CLOSED" s Hnd).
  unfold CancelAllTimers.
  mstep (modify_conn_Some conn (set_timers []) s k Hk).
  unfold modify_handle, modify, upd_conn. simpl.
  now rewrite remove_update_conn.
Qed.

Lemma ARDP_FreeHandle_loop_eq P : forall l n s,
  conns (handle s) = l ->
  ndebug P = true \/ all_closed l = true ->
  (length l < n)%nat ->
  ARDP_FreeHandle_loop P n None s = Ok tt (set_handle (set_conns [] (handle s)) s).
Proof.
  induction l as [|[c k] l IH]; intros n s Hl Hok Hn.
  - destruct n; [simpl in Hn; lia|]. simpl.
    mstep (get_handle_eq s). rewrite Hl. simpl. unfold ret. f_equal.
    destruct s as [h w tr np]. simpl in *. destruct h. simpl in *. now subst.
  - destruct n; [simpl in Hn; lia|]. simpl in Hn. cbn [ARDP_FreeHandle_loop].
    mstep (get_handle_eq s). rewrite Hl.
    change (conns_fwd None ((c, k) :: l)) with (Some c). cbv iota.
    change (conn_before None c ((c, k) :: l))
      with (if Nat.eqb c c then None else conn_before (Some c) c l).
    rewrite Nat.eqb_refl.
    assert (Hk : conn_of s c = Some k).
    { unfold conn_of. rewrite Hl. simpl. now rewrite Nat.eqb_refl. }
    assert (Hdel : DelConnRecord P c s
                   = Ok tt (set_handle (set_conns l (handle s)) s)).
    { destruct Hok as [Hnd|Hcl].
      - rewrite (DelConnRecord_ndebug P c s k Hk Hnd). rewrite Hl. simpl.
        now rewrite Nat.eqb_refl.
      - simpl in Hcl. apply andb_true_iff in Hcl as [Hc _].
        apply bool_decide_eq_true in Hc.
        rewrite (DelConnRecord_eq P c s k Hk Hc). rewrite Hl. simpl.
        now rewrite Nat.eqb_refl. }
    mstep Hdel.
    rewrite (IH n (set_handle (set_conns l (handle s)) s)).
    + reflexivity.
    + reflexivity.
    + destruct Hok as [Hnd|Hcl]; [now left|right].
      simpl in Hcl. now apply andb_true_iff in Hcl as [_ Hcl].
    + lia.
Qed.

(** X18: [ARDP_FreeHandle] deletes every record of the handle when all
    of them are [CLOSED] or assertions are compiled out; in a build with
    assertions it stops at the assertion of [DelConnRecord] when the
    first record is not [CLOSED]. *)
Theorem ARDP_FreeHandle_needs_closed_connections (P : Platform) (fuel : nat)
    (s : St) :
  (length (conns (handle s)) < fuel)%nat ->
  (ndebug P = true \/ all_closed (conns (handle s)) = true ->
   exists s',
     ARDP_FreeHandle P fuel s = Ok tt s' /\
     conns (handle s') = [] /\ trace s' = trace s /\ world s' = world s) /\
  (forall c k rest,
     ndebug P = false ->
     conns (handle s) = (c, k) :: rest -> STATE k <> CLOSED ->
     ARDP_FreeHandle P fuel s
     = Abort (AssertionFailed "DelConnRecord(): Delete while not CLOSED") s).
Proof.
  intros Hfuel. split.
  - intros Hok. unfold ARDP_FreeHandle. mstep (get_handle_eq s).
    destruct (conns (handle s)) as [|ck l] eqn:El.
    + exists s. auto.
    + rewrite (ARDP_FreeHandle_loop_eq P (ck :: l) fuel s El Hok Hfuel).
      eexists. split; [reflexivity|]. auto.
  - intros c k rest Hnd Hl Hst. unfold ARDP_FreeHandle. mstep (get_handle_eq s).
    rewrite Hl. destruct fuel as [|n]; [rewrite Hl in Hfuel; simpl in Hfuel; lia|].
    cbn [ARDP_FreeHandle_loop]. mstep (get_handle_eq s). rewrite Hl.
    change (conns_fwd None ((c, k) :: rest)) with (Some c). cbv iota.
    assert (Hk : conn_of s c = Some k).
    { unfold conn_of. rewrite Hl. simpl. now rewrite Nat.eqb_refl. }
    unfold DelConnRecord. mflat. mstep (get_conn_Some c s k Hk).
    unfold bind, assert_. rewrite Hnd.
    now rewrite bool_decide_eq_false_2 by exact Hst.
Qed.

Lemma ARDP_FreeHandle_needs_closed_connections_witness :
  let s := Scenario.opened Scenario.debug_build 7 4 in
  (exists s',
     ARDP_FreeHandle Scenario.release_build 100 s = Ok tt s' /\
     conns (handle s') = [] /\ trace s' = trace s /\ world s' = world s) /\
  ARDP_FreeHandle Scenario.debug_build 100 s
  = Abort (AssertionFailed "DelConnRecord(): Delete while not CLOSED") s.
Proof.
  intros s.
  assert (Hl : (length (conns (handle s)) < 100)%nat)
    by (apply Nat.ltb_lt; vm_compute; reflexivity).
  assert (Hc : conns (handle s) = [(Scenario.the_conn, Scenario.conn_in s)])
    by (vm_compute; reflexivity).
  assert (Hst : STATE (Scenario.conn_in s) <> CLOSED)
    by (vm_compute; discriminate).
  split.
  - apply (proj1 (ARDP_FreeHandle_needs_closed_connections
                    Scenario.release_build 100 s Hl)).
    left. reflexivity.
  - exact (proj2 (ARDP_FreeHandle_needs_closed_connections
                    Scenario.debug_build 100 s Hl)
             Scenario.the_conn (Scenario.conn_in s) [] eq_refl Hc Hst).
Defined.

(** ** Contexts *)

(** X19: [ARDP_SetConnContext] stores nothing: [ARDP_GetConnContext]
    after it still returns the context the connection had.  The context
    of the handle, in contrast, is the one [ARDP_SetHandleContext] was
    given. *)
Theorem connection_context_is_not_stored (conn : ConnPtr) (v : Z) (s : St)
    (k : ArdpConnRecord) :
  conn_of s conn = Some k ->
  (ARDP_SetConnContext conn v ;; ARDP_GetConnContext conn) s = Ok (context k) s /\
  exists s',
    (ARDP_SetHandleContext v ;; ARDP_GetHandleContext) s = Ok v s' /\
    conns (handle s') = conns (handle s) /\ trace s' = trace s.
Proof.
  intros Hk. split.
  - unfold ARDP_SetConnContext, ARDP_GetConnContext.
    change (bind (ret tt) ?f s) with (f tt s). cbv beta.
    now mstep (get_conn_Some conn s k Hk).
  - eexists. split; [reflexivity|]. auto.
Qed.

Lemma connection_context_is_not_stored_witness :
  let s := Scenario.opened Scenario.debug_build 7 4 in
  (ARDP_SetConnContext Scenario.the_conn 5 ;; ARDP_GetConnContext Scenario.the_conn) s
  = Ok (context (Scenario.conn_in s)) s /\
  context (Scenario.conn_in s) = 0.
Proof.
  intros s.
  assert (Hk : conn_of s Scenario.the_conn = Some (Scenario.conn_in s))
    by (vm_compute; reflexivity).
  split.
  - exact (proj1 (connection_context_is_not_stored Scenario.the_conn 5 s
                    (Scenario.conn_in s) Hk)).
  - vm_compute. reflexivity.
Defined.

(** ** The EACK mask *)

Lemma get_mask_Some l i w s :
  l !! Z.to_nat i = Some w -> get_mask l i s = Ok w s.
Proof. intros H. unfold get_mask. now rewrite H. Qed.

(** X20: [AddRcvMsk] for the segment [delta] places after [RCV.CUR] sets
    bit [31 - (delta - 1) mod 32] of word [(delta - 1) / 32] of the
    acknowledgement mask, in [mask] and in [htnMask], and no other bit;
    the shift is between 0 and 31; the mask size grows to cover that
    word when it did not. *)
Theorem AddRcvMsk_sets_one_bit (P : Platform) (conn : ConnPtr) (delta : Z)
    (s : St) (k : ArdpConnRecord) (w : Z) :
  conn_of s conn = Some k ->
  1 <= delta < 2 ^ 32 ->
  (delta - 1) / 32 < msk_fixedSz (rcvMsk k) ->
  mask (rcvMsk k) !! Z.to_nat ((delta - 1) / 32) = Some w ->
  let bin32 := (delta - 1) / 32 in
  let bit := 31 - (delta - 1) mod 32 in
  let w' := Z.lor w (2 ^ bit) in
  exists s',
    AddRcvMsk P conn delta s = Ok tt s' /\
    trace s' = trace s /\
    conn_of s' conn
    = Some (set_rcvMsk
              (set_htnMask (<[Z.to_nat bin32 := w']> (htnMask (rcvMsk k)))
                 ((if msk_sz (rcvMsk k) <? bin32 + 1
                   then set_msk_sz (u16 (bin32 + 1)) else id)
                    (set_mask (<[Z.to_nat bin32 := w']> (mask (rcvMsk k)))
                              (rcvMsk k)))) k) /\
    0 <= bit <= 31 /\ Z.testbit w' bit = true /\
    (forall j, j <> bit -> 0 <= j -> Z.testbit w' j = Z.testbit w j).
Proof.
  intros Hk Hd Hfix Hw bin32 bit w'.
  assert (E32 : 2 ^ 32 = 4294967296) by reflexivity.
  pose proof (Z.div_mod (delta - 1) 32 ltac:(lia)) as Hdm.
  pose proof (Z.mod_pos_bound (delta - 1) 32 ltac:(lia)) as Hr.
  fold bin32 in Hdm, Hfix, Hw.
  assert (Hb0 : 0 <= bin32) by (apply Z.div_pos; lia).
  assert (H1 : u32 (delta - 1) = delta - 1) by (apply u32_small; lia).
  assert (H2 : u32 (Z.shiftl bin32 5) = 32 * bin32).
  { rewrite Z.shiftl_mul_pow2 by lia. change (2 ^ 5) with 32.
    rewrite u32_small by lia. lia. }
  assert (H3 : u32 (delta - 32 * bin32) = delta - 32 * bin32)
    by (apply u32_small; lia).
  assert (H4 : u32 (32 - (delta - 32 * bin32)) = bit).
  { rewrite u32_small by lia. unfold bit. lia. }
  assert (Hbit : 0 <= bit <= 31) by (unfold bit; lia).
  assert (H5 : u32 (Z.shiftl 1 bit) = 2 ^ bit).
  { rewrite Z.shiftl_1_l. apply u32_small. split; [apply Z.pow_nonneg; lia|].
    apply Z.pow_lt_mono_r; lia. }
  unfold AddRcvMsk. rewrite H1. fold bin32. rewrite H2, H3, H4.
  mstep (get_conn_Some conn s k Hk).
  assert (Ha : assert_ P (bin32 <? msk_fixedSz (rcvMsk k))
                 "bin32 < conn->rcvMsk.fixedSz" s = Ok tt s).
  { assert ((bin32 <? msk_fixedSz (rcvMsk k)) = true) as -> by now apply Z.ltb_lt.
    apply assert_true. }
  mstep Ha.
  mstep (get_mask_Some (mask (rcvMsk k)) bin32 w s Hw).
  assert ((32 <=? bit) = false) as -> by (apply Z.leb_gt; lia).
  rewrite H5. fold w'.
  rewrite (modify_conn_Some conn _ s k Hk).
  eexists. split; [reflexivity|]. split; [reflexivity|].
  split.
  { rewrite (conn_of_upd_conn_same conn _ s k Hk). unfold store_word.
    f_equal. simpl. now destruct (msk_sz (rcvMsk k) <? bin32 + 1). }
  split; [exact Hbit|].
  split.
  { unfold w'. rewrite Z.lor_spec, Z.pow2_bits_true by lia. apply orb_true_r. }
  intros j Hj Hj0. unfold w'.
  rewrite Z.lor_spec, Z.pow2_bits_false by lia. apply orb_false_r.
Qed.

Lemma AddRcvMsk_sets_one_bit_witness :
  let s := Scenario.opened Scenario.debug_build 7 4 in
  let k := Scenario.conn_in s in
  exists s',
    AddRcvMsk Scenario.debug_build Scenario.the_conn 3 s = Ok tt s' /\
    trace s' = trace s /\
    conn_of s' Scenario.the_conn
    = Some (set_rcvMsk
              (set_htnMask (<[Z.to_nat ((3 - 1) / 32) :=
                               Z.lor 0 (2 ^ (31 - (3 - 1) mod 32))]>
                              (htnMask (rcvMsk k)))
                 ((if msk_sz (rcvMsk k) <? (3 - 1) / 32 + 1
                   then set_msk_sz (u16 ((3 - 1) / 32 + 1)) else id)
                    (set_mask (<[Z.to_nat ((3 - 1) / 32) :=
                                  Z.lor 0 (2 ^ (31 - (3 - 1) mod 32))]>
                                 (mask (rcvMsk k)))
                              (rcvMsk k)))) k).
Proof.
  intros s k.
  assert (Hk : conn_of s Scenario.the_conn = Some k) by (vm_compute; reflexivity).
  assert (Hd : 1 <= 3 < 2 ^ 32) by lia.
  assert (Hb : (3 - 1) / 32 < msk_fixedSz (rcvMsk k)) by (vm_compute; reflexivity).
  assert (Hw : mask (rcvMsk k) !! Z.to_nat ((3 - 1) / 32) = Some 0)
    by (vm_compute; reflexivity).
  destruct (AddRcvMsk_sets_one_bit Scenario.debug_build Scenario.the_conn 3 s k 0
              Hk Hd Hb Hw)
    as (s' & H1 & H2 & H3 & _).
  exists s'. split; [exact H1|]. split; [exact H2|exact H3].
Defined.

(** ** Handing a receive buffer back, without assertions *)




(** ** Sending one segment *)

Lemma get_snd_Some c i s k b :
  conn_of s c = Some k -> SBUF_snd k !! i = Some b -> get_snd c i s = Ok b s.
Proof.
  intros Hk Hb. unfold get_snd. mstep (get_conn_Some c s k Hk). now rewrite Hb.
Qed.

Lemma modify_snd_Some c i f s k b :
  conn_of s c = Some k -> SBUF_snd k !! i = Some b ->
  modify_snd c i f s
  = Ok tt (upd_conn c (fun k => set_SBUF_snd (<[i := f b]> (SBUF_snd k)) k) s).
Proof.
  intros Hk Hb. unfold modify_snd.
  mstep (get_snd_Some c i s k b Hk Hb).
  now apply modify_conn_Some with k.
Qed.

(** The record and the slot after an assignment to the slot. *)
Lemma snd_facts_modify_snd c i f s k b :
  conn_of s c = Some k -> SBUF_snd k !! i = Some b ->
  conn_of (upd_conn c (fun k => set_SBUF_snd (<[i := f b]> (SBUF_snd k)) k) s) c
  = Some (set_SBUF_snd (<[i := f b]> (SBUF_snd k)) k)
  /\ SBUF_snd (set_SBUF_snd (<[i := f b]> (SBUF_snd k)) k) !! i = Some (f b).
Proof.
  intros Hk Hb. split.
  { exact (conn_of_upd_conn_same c
             (fun k => set_SBUF_snd (<[i := f b]> (SBUF_snd k)) k) s k Hk). }
  simpl. apply list_lookup_insert_eq. now apply lookup_lt_Some in Hb.
Qed.

(** Bring a record built by assignments to the form in which every field
    is written out. *)
Ltac rec_norm_in H :=
  cbn [STATE passive SND_NXT SND_UNA SND_MAX SND_ISS SBUF_MAX SBUF_snd SBUF_maxDlen SBUF_pending RCV_CUR RCV_MAX RCV_IRS RBUF_MAX RBUF_rcv RBUF_first RBUF_last RBUF_window local foreign sock ipAddr ipPort window minSendWindow sndHdrLen rcvHdrLen rcvMsk remoteMskSz lastSeen timers context set_STATE set_passive set_SND_NXT set_SND_UNA set_SND_MAX set_SND_ISS set_SBUF_MAX set_SBUF_snd set_SBUF_maxDlen set_SBUF_pending set_RCV_CUR set_RCV_MAX set_RCV_IRS set_RBUF_MAX set_RBUF_rcv set_RBUF_first set_RBUF_last set_RBUF_window set_local set_foreign set_sock set_ipAddr set_ipPort set_window set_minSendWindow set_sndHdrLen set_rcvHdrLen set_rcvMsk set_remoteMskSz set_lastSeen set_timers set_context snd_data snd_datalen snd_hdr snd_timer snd_ttl snd_tStart snd_onTheWire snd_inUse snd_hdrlen set_snd_data set_snd_datalen set_snd_hdr set_snd_timer set_snd_ttl set_snd_tStart set_snd_onTheWire set_snd_inUse set_snd_hdrlen h_flags h_hlen h_src h_dst h_dlen h_seq h_ack h_window h_ttl h_som h_fcnt h_ackMsk set_h_flags set_h_hlen set_h_src set_h_dst set_h_dlen set_h_seq set_h_ack set_h_window set_h_ttl set_h_som set_h_fcnt set_h_ackMsk mask htnMask msk_sz msk_fixedSz set_mask set_htnMask set_msk_sz set_msk_fixedSz] in H.

Ltac rec_norm :=
  cbn [STATE passive SND_NXT SND_UNA SND_MAX SND_ISS SBUF_MAX SBUF_snd SBUF_maxDlen SBUF_pending RCV_CUR RCV_MAX RCV_IRS RBUF_MAX RBUF_rcv RBUF_first RBUF_last RBUF_window local foreign sock ipAddr ipPort window minSendWindow sndHdrLen rcvHdrLen rcvMsk remoteMskSz lastSeen timers context set_STATE set_passive set_SND_NXT set_SND_UNA set_SND_MAX set_SND_ISS set_SBUF_MAX set_SBUF_snd set_SBUF_maxDlen set_SBUF_pending set_RCV_CUR set_RCV_MAX set_RCV_IRS set_RBUF_MAX set_RBUF_rcv set_RBUF_first set_RBUF_last set_RBUF_window set_local set_foreign set_sock set_ipAddr set_ipPort set_window set_minSendWindow set_sndHdrLen set_rcvHdrLen set_rcvMsk set_remoteMskSz set_lastSeen set_timers set_context snd_data snd_datalen snd_hdr snd_timer snd_ttl snd_tStart snd_onTheWire snd_inUse snd_hdrlen set_snd_data set_snd_datalen set_snd_hdr set_snd_timer set_snd_ttl set_snd_tStart set_snd_onTheWire set_snd_inUse set_snd_hdrlen h_flags h_hlen h_src h_dst h_dlen h_seq h_ack h_window h_ttl h_som h_fcnt h_ackMsk set_h_flags set_h_hlen set_h_src set_h_dst set_h_dlen set_h_seq set_h_ack set_h_window set_h_ttl set_h_som set_h_fcnt set_h_ackMsk mask htnMask msk_sz msk_fixedSz set_mask set_htnMask set_msk_sz set_msk_fixedSz].

Lemma next_sent_upd_conn c f s : next_sent (upd_conn c f s) = next_sent s.
Proof. reflexivity. Qed.
Lemma next_sent_tick s : next_sent (tick s) = next_sent s.
Proof. reflexivity. Qed.
Lemma next_sent_set_next_ptr n s : next_sent (set_next_ptr n s) = next_sent s.
Proof. reflexivity. Qed.
Lemma clock_read_upd_conn c f s : clock_read (upd_conn c f s) = clock_read s.
Proof. reflexivity. Qed.
Lemma clock_read_set_trace t s : clock_read (set_trace t s) = clock_read s.
Proof. reflexivity. Qed.
Lemma clock_read_socket_used s : clock_read (socket_used s) = clock_read s.
Proof. reflexivity. Qed.
Lemma clock_read_set_next_ptr n s : clock_read (set_next_ptr n s) = clock_read s.
Proof. reflexivity. Qed.
Lemma clock_read_tick_upd_conn c f s :
  clock_read (tick (upd_conn c f s)) = clock_read (tick s).
Proof. reflexivity. Qed.
Lemma next_ptr_upd_conn c f s : next_ptr (upd_conn c f s) = next_ptr s.
Proof. reflexivity. Qed.
Lemma next_ptr_tick s : next_ptr (tick s) = next_ptr s.
Proof. reflexivity. Qed.
Lemma next_ptr_set_trace t s : next_ptr (set_trace t s) = next_ptr s.
Proof. reflexivity. Qed.
Lemma next_ptr_socket_used s : next_ptr (socket_used s) = next_ptr s.
Proof. reflexivity. Qed.
Lemma trace_upd_conn c f s : trace (upd_conn c f s) = trace s.
Proof. reflexivity. Qed.
Lemma trace_tick s : trace (tick s) = trace s.
Proof. reflexivity. Qed.
Lemma trace_set_next_ptr n s : trace (set_next_ptr n s) = trace s.
Proof. reflexivity. Qed.
Lemma trace_socket_used s : trace (socket_used s) = trace s.
Proof. reflexivity. Qed.
Lemma trace_set_trace t s : trace (set_trace t s) = t.
Proof. reflexivity. Qed.
Lemma conn_of_upd_conn_eq c f s : conn_of (upd_conn c f s) c = f <$> conn_of s c.
Proof. now rewrite conn_of_upd_conn, Nat.eqb_refl. Qed.

(** Bring the observations of the surroundings through the changes that
    do not touch them. *)
Ltac world_norm1 :=
  rewrite ?next_sent_upd_conn, ?next_sent_tick, ?next_sent_set_next_ptr,
          ?clock_read_upd_conn, ?clock_read_set_trace, ?clock_read_socket_used,
          ?clock_read_set_next_ptr, ?clock_read_tick_upd_conn,
          ?next_ptr_upd_conn, ?next_ptr_tick, ?next_ptr_set_trace,
          ?next_ptr_socket_used,
          ?trace_set_trace, ?trace_upd_conn, ?trace_tick, ?trace_set_next_ptr,
          ?trace_socket_used.

Ltac world_norm := repeat (progress world_norm1).

Ltac world_norm_in H :=
  repeat (progress (rewrite ?next_sent_upd_conn, ?next_sent_tick, ?next_sent_set_next_ptr,
          ?clock_read_upd_conn, ?clock_read_set_trace, ?clock_read_socket_used,
          ?clock_read_set_next_ptr, ?clock_read_tick_upd_conn,
          ?next_ptr_upd_conn, ?next_ptr_tick, ?next_ptr_set_trace,
          ?next_ptr_socket_used,
          ?trace_set_trace, ?trace_upd_conn, ?trace_tick, ?trace_set_next_ptr,
          ?trace_socket_used in H)).

(** One step on the slot [i] of the record that [Hc] and [Hs] describe;
    the two facts are replaced by those of the new state. *)
Ltac snd_modify Hc Hs :=
  mflat;
  match goal with
  | |- context [bind (modify_snd ?c ?i ?f) ?g ?s0] =>
      rewrite (bind_Ok _ g s0 _ _ (modify_snd_Some c i f s0 _ _ Hc Hs)); cbv beta;
      let H := fresh "H" in
      pose proof (snd_facts_modify_snd c i f s0 _ _ Hc Hs) as H;
      clear Hc Hs; destruct H as [Hc Hs]; cbv beta in Hs;
      rec_norm_in Hc; rec_norm_in Hs; world_norm_in Hc; world_norm_in Hs
  end.

Ltac snd_get Hc Hs :=
  mflat;
  match goal with
  | |- context [bind (get_snd ?c ?i) ?g ?s0] =>
      rewrite (bind_Ok _ g s0 _ _ (get_snd_Some c i s0 _ _ Hc Hs)); cbv beta;
      rec_norm
  end.

Ltac conn_get Hc :=
  mflat;
  match goal with
  | |- context [bind (get_conn ?c) ?g ?s0] =>
      rewrite (bind_Ok _ g s0 _ _ (get_conn_Some c s0 _ Hc)); cbv beta;
      rec_norm
  end.

Ltac conn_modify Hc :=
  mflat;
  match goal with
  | |- context [bind (modify_conn ?c ?f) ?g ?s0] =>
      rewrite (bind_Ok _ g s0 _ _ (modify_conn_Some c f s0 _ Hc)); cbv beta;
      apply (conn_of_upd_conn_same c f s0) in Hc; cbv beta in Hc;
      rec_norm_in Hc
  end.

Lemma ARDP_Send_one_segment_run (P : Platform) (conn : ConnPtr) (s : St)
    (k : ArdpConnRecord) (b : ArdpSndBuf) (buf len : Z) :
  conn_of s conn = Some k -> STATE k = OPEN ->
  buf <> 0 -> 0 < len <= SBUF_maxDlen k ->
  u32 (SND_NXT k - SND_UNA k) < window k ->
  u32 (SND_NXT k - SND_UNA k) < SND_MAX k ->
  SBUF_pending k < SND_MAX k ->
  SBUF_snd k !! Z.to_nat (u16 (SND_NXT k mod SND_MAX k)) = Some b ->
  next_sent s <> SockError ->
  let index := Z.to_nat (u16 (SND_NXT k mod SND_MAX k)) in
  let timeout := match next_sent s with
                 | SockAgain => ARDP_URGENT_RETRANSMIT_TIMEOUT
                 | _ => ARDP_RETRANSMIT_TIMEOUT
                 end in
  exists s' k' b',
    ARDP_Send P conn buf len 0 s = Ok ER_OK s' /\
    conn_of s' conn = Some k' /\
    SND_NXT k' = u32 (SND_NXT k + 1) /\ SND_UNA k' = SND_UNA k /\
    SND_MAX k' = SND_MAX k /\
    SBUF_pending k' = u16 (SBUF_pending k + 1) /\
    SBUF_snd k' !! index = Some b' /\
    snd_inUse b' = true /\ snd_onTheWire b' = true /\
    snd_data b' = buf /\ snd_datalen b' = u16 len /\
    snd_timer b' = Some (next_ptr s) /\
    (h_seq (snd_hdr b'), h_som (snd_hdr b'), h_fcnt (snd_hdr b'), h_dlen (snd_hdr b'))
    = (SND_NXT k, SND_NXT k, 1, u16 len) /\
    (h_ack (snd_hdr b'), h_window (snd_hdr b'))
    = (RCV_CUR k, u16 (RBUF_window k)) /\
    timers k'
    = timers k ++
      [new_timer (next_ptr s) conn RETRANSMIT_TIMER RetransmitTimerHandler_fn
                 (CtxSndBuf index) timeout (ARDP_RETRANSMIT_RETRY + 1)
                 (clock_read (tick s))] /\
    trace s' = trace s ++
      [EvSendmsg conn
         (PktData (snd_hdr b')
                  (take (Z.to_nat (msk_fixedSz (rcvMsk k))) (htnMask (rcvMsk k)))
                  buf (u16 len))
         (next_sent s)].
Proof.
  intros Hk Hopen Hbuf Hlen Hwin Hmax Hpend Hb Hsock index timeout.
  pose proof (u32_range (SND_NXT k - SND_UNA k)) as Hr.
  unfold ARDP_Send.
  mstep (IsConnValid_eq conn s). rewrite Hk. cbn [negb]. cbv iota.
  mstep (get_conn_Some conn s k Hk).
  rewrite bool_decide_eq_true_2 by exact Hopen. cbn [negb]. cbv iota.
  assert ((buf =? 0) = false) as -> by now apply Z.eqb_neq.
  assert ((len =? 0) = false) as -> by (apply Z.eqb_neq; lia).
  assert ((window k =? 0) = false) as -> by (apply Z.eqb_neq; lia).
  assert ((window k <=? u32 (SND_NXT k - SND_UNA k)) = false) as ->
    by (apply Z.leb_gt; lia).
  cbn [orb]. cbv iota.
  unfold SendData. mstep (get_conn_Some conn s k Hk).
  assert (Hlt : (u32 (SND_NXT k - SND_UNA k) <? SND_MAX k) = true)
    by (apply Z.ltb_lt; lia).
  rewrite Hlt.
  assert ((len <=? SBUF_maxDlen k) = true) as -> by (apply Z.leb_le; lia).
  cbn [SendData_loop]. change (0 =? 1 - 1) with true. change (1 <? 1) with false.
  cbv iota. mstep (get_conn_Some conn s k Hk).
  assert ((SND_MAX k =? 0) = false) as -> by (apply Z.eqb_neq; lia).
  fold index in Hb |- *.
  pose proof Hk as Hc. pose proof Hb as Hs.
  mstep (get_snd_Some conn index s k b Hc Hs).
  rewrite Hlt.
  mstep (assert_true P "(conn->SND.NXT - conn->SND.UNA) < conn->SND.MAX" s).
  snd_modify Hc Hs.
  mrun1.
  snd_modify Hc Hs.
  assert (Hpb : (SBUF_pending k <? SND_MAX k) = true) by (apply Z.ltb_lt; lia).
  rewrite Hpb.
  match goal with |- context [bind (assert_ P true ?msg) ?g ?s0] =>
    rewrite (bind_Ok _ g s0 _ _ (assert_true P msg s0)); cbv beta
  end.
  unfold SendMsgData.
  conn_get Hc. snd_modify Hc Hs. snd_get Hc Hs.
  change (0 =? 0) with true. cbv iota.
  mflat.
  match goal with |- context [bind (ret false) ?g ?s0] =>
    change (bind (ret false) g s0) with (g false s0); cbv beta iota
  end.
  snd_modify Hc Hs. snd_get Hc Hs. conn_get Hc.
  mflat.
  match goal with |- context [bind (SendMsg ?c ?p) ?g ?s0] =>
    rewrite (bind_Ok _ g s0 _ _ (SendMsg_eq c p s0 _ Hc)); cbv beta
  end.
  world_norm.
  assert (Hst : (if bool_decide (sendmsg_status (next_sent s) = ER_WOULDBLOCK)
                 then ER_OK else sendmsg_status (next_sent s)) = ER_OK).
  { destruct (next_sent s); try reflexivity. contradiction. }
  assert (Hto : (if bool_decide (sendmsg_status (next_sent s) = ER_WOULDBLOCK)
                 then ARDP_URGENT_RETRANSMIT_TIMEOUT else ARDP_RETRANSMIT_TIMEOUT)
                = timeout).
  { unfold timeout. destruct (next_sent s); reflexivity. }
  rewrite Hst, Hto. rewrite bool_decide_eq_true_2 by reflexivity. cbv iota.
  mflat.
  match goal with |- context [bind (AddTimer ?c ?ty ?h ?cx ?to ?re) ?g ?s0] =>
    rewrite (bind_Ok _ g s0 _ _ (AddTimer_eq c ty h cx to re s0 _ Hc)); cbv beta;
    apply (conn_of_upd_conn_same c
             (fun r => set_timers
                (timers r ++ [new_timer (next_ptr s0) c ty h cx to re
                                        (clock_read s0)]) r)
             (tick (set_next_ptr (S (next_ptr s0)) s0))) in Hc; cbv beta in Hc
  end.
  rec_norm_in Hc. world_norm_in Hc.
  world_norm.
  snd_modify Hc Hs.
  conn_modify Hc. conn_modify Hc.
  mflat.
  match goal with |- context [bind (modify_snd ?c ?i ?f) ?g ?s0] =>
    rewrite (bind_Ok _ g s0 _ _ (modify_snd_Some c i f s0 _ _ Hc Hs)); cbv beta;
    pose proof (snd_facts_modify_snd c i f s0 _ _ Hc Hs) as [Hc' Hs']
  end.
  cbv beta in Hs'. rec_norm_in Hc'. rec_norm_in Hs'.
  world_norm_in Hc'. world_norm_in Hs'.
  cbn [SendData_loop]. unfold ret.
  destruct (msk_sz (rcvMsk k) =? 0);
  rec_norm_in Hc'; rec_norm_in Hs';
  match type of Hc' with _ = Some ?kf =>
    match type of Hs' with _ = Some ?bf => eexists; exists kf, bf end
  end;
  (split; [reflexivity|]); (split; [exact Hc'|]);
  (split; [reflexivity|]); (split; [reflexivity|]); (split; [reflexivity|]);
  (split; [reflexivity|]);
  (split; [exact Hs'|]);
  repeat (split; [reflexivity|]);
  world_norm; reflexivity.
Qed.

(** X22: [ARDP_Send] of a message that fits one segment, with no time
    to live, on an [OPEN] connection with room in the window of the peer and a socket that
    does not fail: it returns [ER_OK]; the slot [SND.NXT mod SND.MAX]
    holds the buffer, is in use and on the wire, with [seq = som =
    SND.NXT], [fcnt = 1], the length of the message and the current
    [RCV.CUR] and receive window in its header; one data segment is
    sent; the retransmit timer of the slot is started (with the urgent
    timeout when the socket was busy); [SND.NXT] and the number of
    pending segments grow by one, so that the send accounting is
    kept. *)
Theorem ARDP_Send_one_segment (P : Platform) (conn : ConnPtr) (s : St)
    (k : ArdpConnRecord) (b : ArdpSndBuf) (buf len : Z) :
  conn_of s conn = Some k -> STATE k = OPEN ->
  buf <> 0 -> 0 < len <= SBUF_maxDlen k ->
  u32 (SND_NXT k - SND_UNA k) < window k ->
  u32 (SND_NXT k - SND_UNA k) < SND_MAX k ->
  SBUF_pending k < SND_MAX k ->
  SBUF_snd k !! Z.to_nat (u16 (SND_NXT k mod SND_MAX k)) = Some b ->
  next_sent s <> SockError ->
  let index := Z.to_nat (u16 (SND_NXT k mod SND_MAX k)) in
  let timeout := match next_sent s with
                 | SockAgain => ARDP_URGENT_RETRANSMIT_TIMEOUT
                 | _ => ARDP_RETRANSMIT_TIMEOUT
                 end in
  exists s' k' b',
    ARDP_Send P conn buf len 0 s = Ok ER_OK s' /\
    conn_of s' conn = Some k' /\
    SND_NXT k' = u32 (SND_NXT k + 1) /\ SND_UNA k' = SND_UNA k /\
    SND_MAX k' = SND_MAX k /\
    SBUF_pending k' = u16 (SBUF_pending k + 1) /\
    SBUF_snd k' !! index = Some b' /\
    snd_inUse b' = true /\ snd_onTheWire b' = true /\
    snd_data b' = buf /\ snd_datalen b' = u16 len /\
    snd_timer b' = Some (next_ptr s) /\
    (h_seq (snd_hdr b'), h_som (snd_hdr b'), h_fcnt (snd_hdr b'), h_dlen (snd_hdr b'))
    = (SND_NXT k, SND_NXT k, 1, u16 len) /\
    (h_ack (snd_hdr b'), h_window (snd_hdr b'))
    = (RCV_CUR k, u16 (RBUF_window k)) /\
    timers k'
    = timers k ++
      [new_timer (next_ptr s) conn RETRANSMIT_TIMER RetransmitTimerHandler_fn
                 (CtxSndBuf index) timeout (ARDP_RETRANSMIT_RETRY + 1)
                 (clock_read (tick s))] /\
    trace s' = trace s ++
      [EvSendmsg conn
         (PktData (snd_hdr b')
                  (take (Z.to_nat (msk_fixedSz (rcvMsk k))) (htnMask (rcvMsk k)))
                  buf (u16 len))
         (next_sent s)] /\
    (snd_accounting_ok k = true -> SND_MAX k < 65536 ->
     snd_accounting_ok k' = true).
Proof.
  intros Hk Hopen Hbuf Hlen Hwin Hmax Hpend Hb Hsock index timeout.
  destruct (ARDP_Send_one_segment_run P conn s k b buf len
              Hk Hopen Hbuf Hlen Hwin Hmax Hpend Hb Hsock)
    as (s' & k' & b' & Hrun & Hk' & Hnxt & Huna & Hsmax & Hp & Hrest).
  exists s', k', b'.
  split; [exact Hrun|]. split; [exact Hk'|]. split; [exact Hnxt|].
  split; [exact Huna|]. split; [exact Hsmax|]. split; [exact Hp|].
  destruct Hrest as (H1 & H2 & H3 & H4 & H5 & H6 & H7 & H8 & H9 & H10).
  repeat (split; [assumption|]).
  intros Hacc H16. unfold snd_accounting_ok in *.
  apply andb_true_iff in Hacc as [Hacc Heq].
  apply andb_true_iff in Hacc as [Hp0 Hpm].
  apply Z.leb_le in Hp0, Hpm. apply Z.eqb_eq in Heq.
  rewrite Hnxt, Huna, Hsmax, Hp.
  assert (Hu16 : u16 (SBUF_pending k + 1) = SBUF_pending k + 1).
  { unfold u16. change (2 ^ 16) with 65536. apply Z.mod_small. lia. }
  rewrite Hu16.
  assert (Hu32 : u32 (u32 (SND_NXT k + 1) - SND_UNA k) = SBUF_pending k + 1).
  { rewrite <- Heq. unfold u32. rewrite Zminus_mod_idemp_l.
    replace (SND_NXT k + 1 - SND_UNA k) with ((SND_NXT k - SND_UNA k) + 1) by lia.
    rewrite <- Zplus_mod_idemp_l. fold (u32 (SND_NXT k - SND_UNA k)).
    apply Z.mod_small. rewrite Heq. change (2 ^ 32) with 4294967296. lia. }
  rewrite Hu32.
  apply andb_true_iff. split; [apply andb_true_iff; split|].
  - apply Z.leb_le. lia.
  - apply Z.leb_le. lia.
  - apply Z.eqb_eq. reflexivity.
Qed.

Lemma ARDP_Send_one_segment_witness :
  let s := Scenario.opened Scenario.debug_build 7 4 in
  let k := Scenario.conn_in s in
  exists s' k',
    ARDP_Send Scenario.debug_build Scenario.the_conn 4096 100 0 s = Ok ER_OK s' /\
    conn_of s' Scenario.the_conn = Some k' /\
    SND_NXT k' = u32 (SND_NXT k + 1) /\
    SBUF_pending k' = u16 (SBUF_pending k + 1) /\
    snd_accounting_ok k' = true.
Proof.
  intros s k.
  pose (b := match SBUF_snd k !! 0%nat with Some b => b | None => zero_snd end).
  assert (Hk : conn_of s Scenario.the_conn = Some k) by (vm_compute; reflexivity).
  assert (Hst : STATE k = OPEN) by (vm_compute; reflexivity).
  assert (Hb : 4096 <> 0) by lia.
  assert (Hlen : 0 < 100 <= SBUF_maxDlen k)
    by (split; [reflexivity | apply Z.leb_le; vm_compute; reflexivity]).
  assert (H1 : u32 (SND_NXT k - SND_UNA k) < window k) by (vm_compute; reflexivity).
  assert (H2 : u32 (SND_NXT k - SND_UNA k) < SND_MAX k) by (vm_compute; reflexivity).
  assert (H3 : SBUF_pending k < SND_MAX k) by (vm_compute; reflexivity).
  assert (H4 : SBUF_snd k !! Z.to_nat (u16 (SND_NXT k mod SND_MAX k)) = Some b)
    by (vm_compute; reflexivity).
  assert (H5 : next_sent s <> SockError) by (vm_compute; discriminate).
  assert (Ha : snd_accounting_ok k = true) by (vm_compute; reflexivity).
  assert (Hm : SND_MAX k < 65536) by (vm_compute; reflexivity).
  destruct (ARDP_Send_one_segment Scenario.debug_build Scenario.the_conn s k b
              4096 100 Hk Hst Hb Hlen H1 H2 H3 H4 H5)
    as (s' & k' & b' & W1 & W2 & W3 & _ & _ & W6 & _ & _ & _ & _ & _ & _ & _ & _
        & _ & _ & W17).
  exists s', k'.
  split; [exact W1|]. split; [exact W2|]. split; [exact W3|].
  split; [exact W6|exact (W17 Ha Hm)].
Defined.

(** ** Segments for an [OPEN] connection *)

(** X23: an [OPEN] connection that receives a segment whose sequence
    number is outside the receive window (a second copy of the segment
    received last is one) stops at [assert(false)] in a build with
    assertions; without them it answers with an ACK that carries
    [SND.NXT], [RCV.CUR] and the receive window, and stays as it
    was. *)
Theorem OPEN_segment_outside_window (P : Platform) (fuel : nat) (conn : ConnPtr)
    (seg : ArdpSeg) (d : Datagram) (len : Z) (s : St) (k : ArdpConnRecord) :
  conn_of s conn = Some k -> STATE k = OPEN ->
  IN_RANGE (u32 (RCV_CUR k + 1)) (RCV_MAX k) (SEQ seg) = false
  \/ (SEQ seg = RCV_CUR k /\ 0 <= RCV_CUR k < 2 ^ 32 /\ 0 <= RCV_MAX k < 2 ^ 32) ->
  if ndebug P
  then exists s',
         ArdpMachine P fuel conn seg d len s = Ok tt s' /\
         conn_of s' conn = Some k /\
         trace s' = trace s ++
           [EvSendmsg conn
              (header_only k (Z.lor ARDP_FLAG_ACK ARDP_FLAG_VER) (SND_NXT k)
                           (RCV_CUR k) (RBUF_window k))
              (next_sent s)]
  else ArdpMachine P fuel conn seg d len s = Abort (AssertionFailed "false") s.
Proof.
  intros Hk Hst Hout.
  assert (Hrange : IN_RANGE (u32 (RCV_CUR k + 1)) (RCV_MAX k) (SEQ seg) = false).
  { destruct Hout as [H|(Hseq & Hc & Hm)]; [exact H|].
    rewrite Hseq. unfold IN_RANGE, u32 in *. change (2 ^ 32) with 4294967296 in *.
    cbv zeta.
    destruct (Z.eq_dec (RCV_CUR k) 4294967295) as [E|E].
    - rewrite E. change ((4294967295 + 1) mod 4294967296) with 0.
      rewrite Z.add_0_l, (Z.mod_small (RCV_MAX k)) by lia.
      apply orb_false_iff. split.
      + apply andb_false_iff. right. apply Z.ltb_ge. lia.
      + apply andb_false_iff. left. apply Z.ltb_ge. lia.
    - rewrite (Z.mod_small (RCV_CUR k + 1)) by lia.
      pose proof (Z.mod_pos_bound (RCV_CUR k + 1 + RCV_MAX k) 4294967296 ltac:(lia)) as Hb.
      set (e := (RCV_CUR k + 1 + RCV_MAX k) mod 4294967296) in *.
      apply orb_false_iff. split.
      + apply andb_false_iff. left. apply andb_false_iff. right.
        apply Z.leb_gt. lia.
      + destruct (e <? RCV_CUR k + 1) eqn:El; [|reflexivity].
        apply Z.ltb_lt in El. cbn [andb].
        rewrite (proj2 (Z.ltb_lt (RCV_CUR k) (RCV_CUR k + 1))) by lia.
        rewrite (proj2 (Z.leb_le e (RCV_CUR k))) by lia. reflexivity. }
  unfold ArdpMachine.
  mstep (get_conn_Some conn s k Hk). mstep (get_handle_eq s).
  rewrite Hst. cbv iota. rewrite Hrange. cbn [negb]. cbv iota.
  destruct (ndebug P) eqn:En.
  - mstep (assert_ndebug P false "false" s En).
    mstep (Send_eq conn (Z.lor ARDP_FLAG_ACK ARDP_FLAG_VER) (SND_NXT k) (RCV_CUR k)
                   (RBUF_window k) s k Hk).
    eexists. split; [reflexivity|]. split; [|reflexivity].
    rewrite conn_of_set_trace, conn_of_socket_used. exact Hk.
  - unfold assert_. rewrite En. reflexivity.
Qed.

Lemma OPEN_segment_outside_window_witness :
  let s := Scenario.opened Scenario.debug_build 7 4 in
  let seg := mkSeg 100 8 0 0 100 1 3 42 9 4 0 66 16 in
  let d := Scenario.data_segment 100 1 100 [1; 2; 3] in
  ArdpMachine Scenario.debug_build 100 Scenario.the_conn seg d 35 s
  = Abort (AssertionFailed "false") s.
Proof.
  intros s seg d.
  assert (Hk : conn_of s Scenario.the_conn = Some (Scenario.conn_in s))
    by (vm_compute; reflexivity).
  assert (Hst : STATE (Scenario.conn_in s) = OPEN) by (vm_compute; reflexivity).
  assert (Hdup : SEQ seg = RCV_CUR (Scenario.conn_in s)
                 /\ 0 <= RCV_CUR (Scenario.conn_in s) < 2 ^ 32
                 /\ 0 <= RCV_MAX (Scenario.conn_in s) < 2 ^ 32).
  { split; [vm_compute; reflexivity|].
    split; (split; [apply Z.leb_le|apply Z.ltb_lt]; vm_compute; reflexivity). }
  exact (OPEN_segment_outside_window Scenario.debug_build 100 Scenario.the_conn
           seg d 35 s (Scenario.conn_in s) Hk Hst (or_intror Hdup)).
Defined.

(** X24: an [OPEN] connection that receives, inside the receive window
    and without RST, a segment with SYN leaves [OPEN] (for [LISTEN] when
    passive, [CLOSED] otherwise) and sends a RST with
    [seq = SEG.ACK + 1]; a segment with NUL and no SYN is answered with
    an ACK and changes nothing. *)
Theorem OPEN_control_segments (P : Platform) (fuel : nat) (conn : ConnPtr)
    (seg : ArdpSeg) (d : Datagram) (len : Z) (s : St) (k : ArdpConnRecord) :
  conn_of s conn = Some k -> STATE k = OPEN ->
  IN_RANGE (u32 (RCV_CUR k + 1)) (RCV_MAX k) (SEQ seg) = true ->
  has_flag (FLG seg) ARDP_FLAG_RST = false ->
  has_flag (FLG seg) ARDP_FLAG_SYN || has_flag (FLG seg) ARDP_FLAG_NUL = true ->
  exists s',
    ArdpMachine P fuel conn seg d len s = Ok tt s' /\
    if has_flag (FLG seg) ARDP_FLAG_SYN
    then conn_of s' conn
         = Some (set_STATE (if passive k then LISTEN else CLOSED) k) /\
         trace s' = trace s ++
           [EvSendmsg conn
              (header_only k (Z.lor ARDP_FLAG_RST ARDP_FLAG_VER) (ACK seg + 1) 0
                           (RBUF_window k))
              (next_sent s)]
    else conn_of s' conn = Some k /\
         trace s' = trace s ++
           [EvSendmsg conn
              (header_only k (Z.lor ARDP_FLAG_ACK ARDP_FLAG_VER) (SND_NXT k)
                           (RCV_CUR k) (RBUF_window k))
              (next_sent s)].
Proof.
  intros Hk Hst Hrange Hrst Hflag. unfold ArdpMachine.
  mstep (get_conn_Some conn s k Hk). mstep (get_handle_eq s).
  rewrite Hst. cbv iota. rewrite Hrange, Hrst. cbn [negb]. cbv iota.
  destruct (has_flag (FLG seg) ARDP_FLAG_SYN) eqn:Esyn.
  - destruct (passive k) eqn:Ep.
    + mstep (SetState_eq conn LISTEN s k Hk).
      pose proof (conn_of_upd_conn_same conn (set_STATE LISTEN) s k Hk) as Hk1.
      mstep (Send_eq conn (Z.lor ARDP_FLAG_RST ARDP_FLAG_VER) (ACK seg + 1) 0
                     (RBUF_window k) _ _ Hk1).
      eexists. split; [reflexivity|]. split.
      * rewrite conn_of_set_trace, conn_of_socket_used. exact Hk1.
      * reflexivity.
    + mstep (SetState_eq conn CLOSED s k Hk).
      pose proof (conn_of_upd_conn_same conn (set_STATE CLOSED) s k Hk) as Hk1.
      mstep (Send_eq conn (Z.lor ARDP_FLAG_RST ARDP_FLAG_VER) (ACK seg + 1) 0
                     (RBUF_window k) _ _ Hk1).
      eexists. split; [reflexivity|]. split.
      * rewrite conn_of_set_trace, conn_of_socket_used. exact Hk1.
      * reflexivity.
  - cbn [orb] in Hflag. rewrite Hflag.
    mstep (Send_eq conn (Z.lor ARDP_FLAG_ACK ARDP_FLAG_VER) (SND_NXT k) (RCV_CUR k)
                   (RBUF_window k) s k Hk).
    eexists. split; [reflexivity|]. split; [|reflexivity].
    rewrite conn_of_set_trace, conn_of_socket_used. exact Hk.
Qed.

Lemma OPEN_control_segments_witness :
  let s := Scenario.opened Scenario.debug_build 7 4 in
  let k := Scenario.conn_in s in
  let seg := mkSeg 101 8 4 1024 0 0 0 42 9 0 0 65 14 in
  let d := mkDatagram 28 (mkHeader 65 14 9 42 0 101 8 0 0 0 0 []) 4 1024 [] in
  exists s',
    ArdpMachine Scenario.debug_build 100 Scenario.the_conn seg d 28 s = Ok tt s' /\
    conn_of s' Scenario.the_conn = Some (set_STATE CLOSED k) /\
    trace s' = trace s ++
      [EvSendmsg Scenario.the_conn
         (header_only k (Z.lor ARDP_FLAG_RST ARDP_FLAG_VER) (ACK seg + 1) 0
                      (RBUF_window k))
         (next_sent s)].
Proof.
  intros s k seg d.
  assert (Hk : conn_of s Scenario.the_conn = Some k) by (vm_compute; reflexivity).
  assert (Hst : STATE k = OPEN) by (vm_compute; reflexivity).
  assert (Hr : IN_RANGE (u32 (RCV_CUR k + 1)) (RCV_MAX k) (SEQ seg) = true)
    by (vm_compute; reflexivity).
  assert (Hrst : has_flag (FLG seg) ARDP_FLAG_RST = false) by reflexivity.
  assert (Hf : has_flag (FLG seg) ARDP_FLAG_SYN || has_flag (FLG seg) ARDP_FLAG_NUL
               = true) by reflexivity.
  assert (Hsyn : has_flag (FLG seg) ARDP_FLAG_SYN = true) by reflexivity.
  assert (Hp : passive k = false) by (vm_compute; reflexivity).
  destruct (OPEN_control_segments Scenario.debug_build 100 Scenario.the_conn
              seg d 28 s k Hk Hst Hr Hrst Hf) as (s' & H1 & H2).
  rewrite Hsyn, Hp in H2. exists s'. split; [exact H1|exact H2].
Defined.

(** ** Segments for a [CLOSED] or [LISTEN] connection *)

(** X25: a [CLOSED] connection answers every segment without RST by a
    RST: with [ack = SEG.ACK + 1] when the segment has ACK or NUL, and
    with the flags RST and ACK and [ack = SEG.SEQ] otherwise.  A
    [LISTEN] connection answers a segment with ACK or NUL by a RST with
    [seq = SEG.ACK + 1].  The record is unchanged. *)
Theorem closed_connection_answers_with_RST (P : Platform) (fuel : nat)
    (conn : ConnPtr) (seg : ArdpSeg) (d : Datagram) (len : Z) (s : St)
    (k : ArdpConnRecord) :
  conn_of s conn = Some k ->
  has_flag (FLG seg) ARDP_FLAG_RST = false ->
  STATE k = CLOSED
  \/ (STATE k = LISTEN /\
      has_flag (FLG seg) ARDP_FLAG_ACK || has_flag (FLG seg) ARDP_FLAG_NUL = true) ->
  exists s',
    ArdpMachine P fuel conn seg d len s = Ok tt s' /\
    conn_of s' conn = Some k /\
    trace s' = trace s ++
      [EvSendmsg conn
         (match STATE k with
          | LISTEN =>
              header_only k (Z.lor ARDP_FLAG_RST ARDP_FLAG_VER) (ACK seg + 1) 0 0
          | _ =>
              if has_flag (FLG seg) ARDP_FLAG_ACK || has_flag (FLG seg) ARDP_FLAG_NUL
              then header_only k (Z.lor ARDP_FLAG_RST ARDP_FLAG_VER) 0 (ACK seg + 1)
                               (RCV_MAX k)
              else header_only k
                     (Z.lor (Z.lor ARDP_FLAG_RST ARDP_FLAG_VER) ARDP_FLAG_ACK)
                     0 (SEQ seg) (RCV_MAX k)
          end)
         (next_sent s)].
Proof.
  intros Hk Hrst Hcase. unfold ArdpMachine.
  mstep (get_conn_Some conn s k Hk). mstep (get_handle_eq s).
  destruct Hcase as [Hst|[Hst Hflag]]; rewrite Hst; cbv iota; rewrite Hrst.
  - destruct (has_flag (FLG seg) ARDP_FLAG_ACK || has_flag (FLG seg) ARDP_FLAG_NUL).
    + mstep (Send_eq conn (Z.lor ARDP_FLAG_RST ARDP_FLAG_VER) 0 (ACK seg + 1)
                     (RCV_MAX k) s k Hk).
      eexists. split; [reflexivity|]. split; [|reflexivity].
      rewrite conn_of_set_trace, conn_of_socket_used. exact Hk.
    + mstep (Send_eq conn (Z.lor (Z.lor ARDP_FLAG_RST ARDP_FLAG_VER) ARDP_FLAG_ACK)
                     0 (SEQ seg) (RCV_MAX k) s k Hk).
      eexists. split; [reflexivity|]. split; [|reflexivity].
      rewrite conn_of_set_trace, conn_of_socket_used. exact Hk.
  - rewrite Hflag.
    mstep (Send_eq conn (Z.lor ARDP_FLAG_RST ARDP_FLAG_VER) (ACK seg + 1) 0 0 s k Hk).
    eexists. split; [reflexivity|]. split; [|reflexivity].
    rewrite conn_of_set_trace, conn_of_socket_used. exact Hk.
Qed.

Lemma closed_connection_answers_with_RST_witness :
  let s := Scenario.state_of
             (ARDP_Disconnect Scenario.the_conn
                (Scenario.state_of
                   (ARDP_Connect Scenario.debug_build 3 Scenario.peer_addr
                      Scenario.peer_port 4 1024 4096 5 0
                      (ARDP_AllocHandle Scenario.config0
                         (mkWorld 1000 [] [] [] [] [] [7; 41] []))))) in
  let k := Scenario.conn_in s in
  let seg := mkSeg 101 8 0 0 0 0 0 42 9 4 0 66 16 in
  let d := Scenario.ack_segment 8 4 in
  exists s',
    ArdpMachine Scenario.debug_build 100 Scenario.the_conn seg d 32 s = Ok tt s' /\
    conn_of s' Scenario.the_conn = Some k /\
    trace s' = trace s ++
      [EvSendmsg Scenario.the_conn
         (header_only k (Z.lor ARDP_FLAG_RST ARDP_FLAG_VER) 0 (ACK seg + 1)
                      (RCV_MAX k))
         (next_sent s)].
Proof.
  intros s k seg d.
  assert (Hk : conn_of s Scenario.the_conn = Some k) by (vm_compute; reflexivity).
  assert (Hst : STATE k = CLOSED) by (vm_compute; reflexivity).
  assert (Hrst : has_flag (FLG seg) ARDP_FLAG_RST = false) by reflexivity.
  assert (Hf : has_flag (FLG seg) ARDP_FLAG_ACK || has_flag (FLG seg) ARDP_FLAG_NUL
               = true) by reflexivity.
  destruct (closed_connection_answers_with_RST Scenario.debug_build 100
              Scenario.the_conn seg d 32 s k Hk Hrst (or_introl Hst))
    as (s' & H1 & H2 & H3).
  rewrite Hst, Hf in H3. exists s'.
  split; [exact H1|]. split; [exact H2|exact H3].
Defined.

(** ** The SYN+ACK of the peer *)

Lemma clock_read_malloc_used s : clock_read (malloc_used s) = clock_read s.
Proof. reflexivity. Qed.
Lemma next_ptr_malloc_used s : next_ptr (malloc_used s) = next_ptr s.
Proof. reflexivity. Qed.
Lemma next_sent_malloc_used s : next_sent (malloc_used s) = next_sent s.
Proof. reflexivity. Qed.
Lemma next_sent_set_trace t s : next_sent (set_trace t s) = next_sent s.
Proof. reflexivity. Qed.
Lemma trace_malloc_used s : trace (malloc_used s) = trace s.
Proof. reflexivity. Qed.
Lemma clock_read_tick_malloc_used s :
  clock_read (tick (malloc_used s)) = clock_read (tick s).
Proof. reflexivity. Qed.
Lemma config_upd_conn c f s : config (handle (upd_conn c f s)) = config (handle s).
Proof. reflexivity. Qed.
Lemma config_tick s : config (handle (tick s)) = config (handle s).
Proof. reflexivity. Qed.
Lemma config_malloc_used s : config (handle (malloc_used s)) = config (handle s).
Proof. reflexivity. Qed.

Ltac world_norm2 :=
  repeat (progress
    (world_norm1;
     rewrite ?clock_read_malloc_used, ?next_ptr_malloc_used, ?next_sent_malloc_used,
             ?next_sent_set_trace, ?trace_malloc_used, ?config_upd_conn,
             ?clock_read_tick_malloc_used,
             ?config_tick, ?config_malloc_used)).

Ltac world_norm2_in H :=
  repeat (progress
    (rewrite ?next_sent_upd_conn, ?next_sent_tick, ?next_sent_set_next_ptr,
             ?clock_read_upd_conn, ?clock_read_set_trace, ?clock_read_socket_used,
             ?clock_read_set_next_ptr, ?clock_read_tick_upd_conn,
             ?next_ptr_upd_conn, ?next_ptr_tick, ?next_ptr_set_trace,
             ?next_ptr_socket_used,
             ?trace_set_trace, ?trace_upd_conn, ?trace_tick, ?trace_set_next_ptr,
             ?trace_socket_used,
             ?clock_read_malloc_used, ?next_ptr_malloc_used, ?next_sent_malloc_used,
             ?next_sent_set_trace, ?trace_malloc_used, ?config_upd_conn,
             ?clock_read_tick_malloc_used,
             ?config_tick, ?config_malloc_used in H)).

(** Restate the fact [Hc] about the record at the state the computation
    has reached, when the steps since have left the handle alone. *)
Ltac conn_sync Hc :=
  mflat;
  match goal with
  | |- context [bind _ _ ?s0] =>
      match type of Hc with
      | conn_of _ ?c = Some ?r =>
          let H := fresh "H" in
          assert (H : conn_of s0 c = Some r)
            by (repeat (progress conn_norm); exact Hc);
          clear Hc; rename H into Hc
      end
  end.

(** X26: the SYN+ACK of the peer opens a [SYN_SENT] connection, when
    memory is available and the buffer limit of the peer leaves room
    for data.  The record takes the port, the sequence number and the limits of the
    peer, gets a send ring of [segmax] empty slots and the segment size
    that the buffer limit of the peer leaves, [SND.UNA] becomes
    [SEG.ACK + 1] (the acknowledgement number is not compared with
    [SND.ISS]), the state becomes [OPEN], the connect timer is replaced
    by the window check timer, [ConnectCb] is told [ER_OK] when set,
    and one ACK is sent. *)
Theorem SYN_ACK_opens_connection (P : Platform) (fuel : nat) (conn : ConnPtr)
    (seg : ArdpSeg) (d : Datagram) (len : Z) (s : St) (k : ArdpConnRecord) :
  conn_of s conn = Some k -> STATE k = SYN_SENT ->
  has_flag (FLG seg) ARDP_FLAG_RST = false ->
  has_flag (FLG seg) ARDP_FLAG_SYN = true ->
  has_flag (FLG seg) ARDP_FLAG_ACK = true ->
  forallb id (take 2 (mallocq (world s))) = true ->
  let hdrLen := u8 (ARDP_FIXED_HEADER_LEN P + Z.shiftr (u32 (RCV_MAX k + 31)) 5 * 4) in
  let maxDlen := u16 (u32 (d_segbmax d - (20 + 8) - hdrLen)) in
  20 + 8 + hdrLen <= d_segbmax d -> maxDlen <> 0 ->
  (Z.to_nat (RCV_MAX k) <= length (RBUF_rcv k))%nat ->
  passive k = false ->
  exists s' k',
    ArdpMachine P fuel conn seg d len s = Ok tt s' /\
    conn_of s' conn = Some k' /\
    STATE k' = OPEN /\ foreign k' = SRC seg /\
    (RCV_CUR k', RCV_IRS k') = (SEQ seg, SEQ seg) /\
    (RBUF_first k', RBUF_last k') = (u32 (SEQ seg + 1), u32 (SEQ seg + 1)) /\
    SND_UNA k' = u32 (ACK seg + 1) /\ SND_NXT k' = SND_NXT k /\
    (SND_MAX k', window k', SBUF_MAX k') = (d_segmax d, u16 (d_segmax d), d_segbmax d) /\
    sndHdrLen k' = hdrLen /\ SBUF_maxDlen k' = maxDlen /\
    SBUF_snd k' = replicate (Z.to_nat (d_segmax d)) zero_snd /\
    timers k'
    = cancel_first CONNECT_TIMER CtxNULL (timers k) ++
      [new_timer (next_ptr s) conn WINDOW_CHECK_TIMER WindowCheckTimerHandler_fn
                 CtxNULL (persistTimeout (config (handle s))) ARDP_RETRY_ALWAYS
                 (clock_read (tick s))] /\
    trace s' = (trace s ++
                if ConnectCb (cb (handle s))
                then [EvConnectCb conn false (DLEN seg) ER_OK] else []) ++
      [EvSendmsg conn
         (header_only k' (Z.lor ARDP_FLAG_ACK ARDP_FLAG_VER) (SND_NXT k) (SEQ seg)
                      (RCV_MAX k))
         (next_sent s)].
Proof.
  intros Hk Hst Hrst Hsyn Hack Hm hdrLen maxDlen Hbmax Hdlen Hlen Hpas.
  unfold ArdpMachine.
  mstep (get_conn_Some conn s k Hk). mstep (get_handle_eq s).
  rewrite Hst. cbv iota. rewrite Hrst, Hsyn, Hack. cbv iota.
  pose proof Hk as Hc.
  conn_modify Hc. unfold InitSBUF. conn_get Hc. conn_modify Hc.
  fold hdrLen. fold maxDlen. fold hdrLen in Hc. fold maxDlen in Hc.
  rewrite (proj2 (Z.ltb_ge (d_segbmax d) (20 + 8 + hdrLen)) Hbmax).
  mrun1.
  match goal with |- context [next_malloc ?s0] =>
    assert (Hm1 : next_malloc s0 = true)
      by (unfold next_malloc; simpl;
          destruct (mallocq (world s)) as [|[] ?]; simpl in Hm; done)
  end.
  rewrite Hm1. cbn [negb]. cbv iota. mrun1.
  match goal with |- context [next_malloc ?s0] =>
    assert (Hm2 : next_malloc s0 = true)
      by (unfold next_malloc; simpl;
          destruct (mallocq (world s)) as [|[] [|[] ?]]; simpl in Hm; done)
  end.
  rewrite Hm2. cbn [negb]. cbv iota.
  conn_sync Hc. conn_modify Hc.
  rewrite (proj2 (Z.eqb_neq maxDlen 0) Hdlen).
  conn_modify Hc. mrun1.
  rewrite bool_decide_eq_true_2 by reflexivity. mrun1.
  conn_modify Hc.
  unfold enter_OPEN, PostInitRcv.
  conn_modify Hc. conn_get Hc.
  mflat.
  match goal with |- context [bind (PostInitRcv_loop ?n conn 0%nat ?irs) ?g ?s0] =>
    rewrite (bind_Ok _ g s0 _ _ (PostInitRcv_loop_eq conn irs n 0%nat s0 _ Hc Hlen));
    cbv beta;
    apply (conn_of_upd_conn_same conn
             (fun r => set_RBUF_rcv (stamp_seq n 0 irs (RBUF_rcv r)) r) s0) in Hc;
    cbv beta in Hc; rec_norm_in Hc
  end.
  mflat.
  match goal with |- context [bind (SetState ?c ?st) ?g ?s0] =>
    rewrite (bind_Ok _ g s0 _ _ (SetState_eq c st s0 _ Hc)); cbv beta;
    apply (conn_of_upd_conn_same c (set_STATE st) s0) in Hc; rec_norm_in Hc
  end.
  unfold CancelTimer. conn_modify Hc. mrun1. world_norm2.
  conn_sync Hc. conn_modify Hc. mrun1. world_norm2.
  mflat.
  match goal with |- context [bind (AddTimer ?c ?ty ?h ?cx ?to ?re) ?g ?s0] =>
    rewrite (bind_Ok _ g s0 _ _ (AddTimer_eq c ty h cx to re s0 _ Hc)); cbv beta;
    apply (conn_of_upd_conn_same c
             (fun r => set_timers
                (timers r ++ [new_timer (next_ptr s0) c ty h cx to re
                                        (clock_read s0)]) r)
             (tick (set_next_ptr (S (next_ptr s0)) s0))) in Hc; cbv beta in Hc
  end.
  rec_norm_in Hc. world_norm2_in Hc. world_norm2.
  mrun1. conn_get Hc. rewrite Hpas. cbn [negb].
  destruct (ConnectCb (cb (handle s))).
  - mrun1. mrun1. conn_sync Hc.
    mflat.
    match goal with |- context [bind (Send ?c ?fl ?sq ?ak ?w) ?g ?s0] =>
      rewrite (bind_Ok _ g s0 _ _ (Send_eq c fl sq ak w s0 _ Hc)); cbv beta
    end.
    unfold ret. world_norm2.
    match type of Hc with _ = Some ?kf => eexists; exists kf end.
    split; [reflexivity|].
    split; [rewrite conn_of_set_trace, conn_of_socket_used; exact Hc|].
    repeat (split; [reflexivity|]). reflexivity.
  - mrun1. conn_sync Hc.
    mflat.
    match goal with |- context [bind (Send ?c ?fl ?sq ?ak ?w) ?g ?s0] =>
      rewrite (bind_Ok _ g s0 _ _ (Send_eq c fl sq ak w s0 _ Hc)); cbv beta
    end.
    unfold ret. world_norm2.
    match type of Hc with _ = Some ?kf => eexists; exists kf end.
    split; [reflexivity|].
    split; [rewrite conn_of_set_trace, conn_of_socket_used; exact Hc|].
    repeat (split; [reflexivity|]). rewrite app_nil_r. reflexivity.
Qed.

Lemma SYN_ACK_opens_connection_witness :
  let s := Scenario.state_of
             (ARDP_Connect Scenario.debug_build 3 Scenario.peer_addr
                Scenario.peer_port 4 1024 4096 5 0
                (ARDP_AllocHandle Scenario.config0
                   (mkWorld 1000 [] [] [] [] [] [7; 41] []))) in
  let k := Scenario.conn_in s in
  let seg := mkSeg 100 7 4 1024 0 0 0 42 9 0 0 67 14 in
  let d := Scenario.synack 7 4 in
  exists s' k',
    ArdpMachine Scenario.debug_build 100 Scenario.the_conn seg d 28 s = Ok tt s' /\
    conn_of s' Scenario.the_conn = Some k' /\
    STATE k' = OPEN /\ foreign k' = 9 /\
    SND_UNA k' = u32 (7 + 1) /\
    SBUF_snd k' = replicate (Z.to_nat 4) zero_snd.
Proof.
  intros s k seg d.
  assert (Hk : conn_of s Scenario.the_conn = Some k) by (vm_compute; reflexivity).
  assert (Hst : STATE k = SYN_SENT) by (vm_compute; reflexivity).
  assert (Hrst : has_flag (FLG seg) ARDP_FLAG_RST = false) by reflexivity.
  assert (Hsyn : has_flag (FLG seg) ARDP_FLAG_SYN = true) by reflexivity.
  assert (Hack : has_flag (FLG seg) ARDP_FLAG_ACK = true) by reflexivity.
  assert (Hm : forallb id (take 2 (mallocq (world s))) = true)
    by (vm_compute; reflexivity).
  assert (Hb : 20 + 8 + u8 (ARDP_FIXED_HEADER_LEN Scenario.debug_build
                            + Z.shiftr (u32 (RCV_MAX k + 31)) 5 * 4)
               <= d_segbmax d)
    by (apply Z.leb_le; vm_compute; reflexivity).
  assert (Hd : u16 (u32 (d_segbmax d - (20 + 8)
                         - u8 (ARDP_FIXED_HEADER_LEN Scenario.debug_build
                               + Z.shiftr (u32 (RCV_MAX k + 31)) 5 * 4))) <> 0)
    by (vm_compute; discriminate).
  assert (Hl : (Z.to_nat (RCV_MAX k) <= length (RBUF_rcv k))%nat)
    by (apply Nat.leb_le; vm_compute; reflexivity).
  assert (Hp : passive k = false) by (vm_compute; reflexivity).
  destruct (SYN_ACK_opens_connection Scenario.debug_build 100 Scenario.the_conn
              seg d 28 s k Hk Hst Hrst Hsyn Hack Hm Hb Hd Hl Hp)
    as (s' & k' & H1 & H2 & H3 & H4 & _ & _ & H7 & _ & _ & _ & _ & H12 & _).
  exists s', k'.
  split; [exact H1|]. split; [exact H2|]. split; [exact H3|].
  split; [exact H4|]. split; [exact H7|exact H12].
Defined.

(** ** The window check timer *)

Lemma find_timer_app t l x l' :
  find_timer t l = Some x -> find_timer t (l ++ l') = Some x.
Proof.
  induction l as [|y l IH]; [discriminate|]. simpl.
  destruct (Nat.eqb t (t_ptr y)); [trivial|exact IH].
Qed.

(** X27: [WindowCheckTimerHandler] while the link is alive (the peer was
    heard less than ten probe timeouts before the expiry time) sends
    one NUL segment when the peer was silent for longer than
    [persistTimeout] or its window is below [minSendWindow], and
    nothing otherwise; the record is unchanged. *)
Theorem WindowCheckTimerHandler_probes (conn : ConnPtr) (timer : TimerPtr)
    (s : St) (k : ArdpConnRecord) (t : ArdpTimer) :
  conn_of s conn = Some k ->
  find_timer timer (timers k) = Some t ->
  u32 (t_when t - lastSeen k) < u32 (probeTimeout (config (handle s)) * 10) ->
  exists s',
    WindowCheckTimerHandler conn (CtxTimer timer) s = Ok tt s' /\
    conn_of s' conn = Some k /\
    trace s' = trace s ++
      if (lastSeen k <? u32 (t_when t - persistTimeout (config (handle s))))
         || (window k <? minSendWindow k)
      then [EvSendmsg conn
              (header_only k
                 (Z.lor (Z.lor ARDP_FLAG_ACK ARDP_FLAG_VER) ARDP_FLAG_NUL)
                 (SND_NXT k) (RCV_CUR k) (RBUF_window k))
              (next_sent s)]
      else [].
Proof.
  intros Hk Ht Hlive. unfold WindowCheckTimerHandler.
  mstep (get_handle_eq s).
  mstep (get_timer_Some conn timer s k t Hk Ht).
  mstep (get_conn_Some conn s k Hk).
  rewrite (proj2 (Z.leb_gt _ _) Hlive).
  mrun1.
  mstep (get_timer_Some conn timer s k t Hk Ht).
  mstep (get_conn_Some conn s k Hk).
  destruct ((lastSeen k <? u32 (t_when t - persistTimeout (config (handle s))))
            || (window k <? minSendWindow k)).
  - mstep (Send_eq conn (Z.lor (Z.lor ARDP_FLAG_ACK ARDP_FLAG_VER) ARDP_FLAG_NUL)
                   (SND_NXT k) (RCV_CUR k) (RBUF_window k) s k Hk).
    eexists. split; [reflexivity|]. split; [|reflexivity].
    rewrite conn_of_set_trace, conn_of_socket_used. exact Hk.
  - exists s. split; [reflexivity|]. split; [exact Hk|].
    now rewrite app_nil_r.
Qed.

Lemma WindowCheckTimerHandler_probes_witness :
  let s := Scenario.opened Scenario.debug_build 7 4 in
  let k := Scenario.conn_in s in
  exists s',
    WindowCheckTimerHandler Scenario.the_conn (CtxTimer 3%nat) s = Ok tt s' /\
    conn_of s' Scenario.the_conn = Some k /\
    trace s' = trace s ++
      [EvSendmsg Scenario.the_conn
         (header_only k
            (Z.lor (Z.lor ARDP_FLAG_ACK ARDP_FLAG_VER) ARDP_FLAG_NUL)
            (SND_NXT k) (RCV_CUR k) (RBUF_window k))
         (next_sent s)].
Proof.
  intros s k.
  pose (t := mkTimer 3%nat (Some WindowCheckTimerHandler_fn) Scenario.the_conn
                     WINDOW_CHECK_TIMER (CtxTimer 3%nat) 5000 6000 65535).
  assert (Hk : conn_of s Scenario.the_conn = Some k) by (vm_compute; reflexivity).
  assert (Ht : find_timer 3%nat (timers k) = Some t) by (vm_compute; reflexivity).
  assert (Hl : u32 (t_when t - lastSeen k)
               < u32 (probeTimeout (config (handle s)) * 10))
    by (vm_compute; reflexivity).
  assert (Hp : (lastSeen k <? u32 (t_when t - persistTimeout (config (handle s))))
               || (window k <? minSendWindow k) = true)
    by (vm_compute; reflexivity).
  destruct (WindowCheckTimerHandler_probes Scenario.the_conn 3%nat s k t Hk Ht Hl)
    as (s' & H1 & H2 & H3).
  rewrite Hp in H3. exists s'.
  split; [exact H1|]. split; [exact H2|exact H3].
Defined.

(** X28: [WindowCheckTimerHandler] on an [OPEN] connection whose peer was
    silent for ten probe timeouts disconnects: the state becomes
    [CLOSE_WAIT], the disconnect timer is started and a RST is sent.
    The handler then goes on to the probe test, and sends a NUL segment
    after the RST when that test holds. *)
Theorem WindowCheckTimerHandler_link_timeout (conn : ConnPtr) (timer : TimerPtr)
    (s : St) (k : ArdpConnRecord) (t : ArdpTimer) :
  conn_of s conn = Some k -> STATE k = OPEN ->
  find_timer timer (timers k) = Some t ->
  u32 (probeTimeout (config (handle s)) * 10) <= u32 (t_when t - lastSeen k) ->
  exists s',
    WindowCheckTimerHandler conn (CtxTimer timer) s = Ok tt s' /\
    conn_of s' conn
    = Some (set_STATE CLOSE_WAIT
              (set_timers
                 (timers k ++
                  [new_timer (next_ptr s) conn DISCONNECT_TIMER
                             DisconnectTimerHandler_fn CtxNULL
                             (timewait (config (handle s)))
                             ARDP_DISCONNECT_RETRY (clock_read s)]) k)) /\
    trace s' = (trace s ++
      [EvSendmsg conn
         (header_only k (Z.lor ARDP_FLAG_RST ARDP_FLAG_VER) (SND_NXT k)
                      (RCV_CUR k) (RBUF_window k))
         (next_sent s)]) ++
      if (lastSeen k <? u32 (t_when t - persistTimeout (config (handle s))))
         || (window k <? minSendWindow k)
      then [EvSendmsg conn
              (header_only k
                 (Z.lor (Z.lor ARDP_FLAG_ACK ARDP_FLAG_VER) ARDP_FLAG_NUL)
                 (SND_NXT k) (RCV_CUR k) (RBUF_window k))
              (next_sent (socket_used s))]
      else [].
Proof.
  intros Hk Hst Ht Hdead. unfold WindowCheckTimerHandler.
  mstep (get_handle_eq s).
  mstep (get_timer_Some conn timer s k t Hk Ht).
  mstep (get_conn_Some conn s k Hk).
  rewrite (proj2 (Z.leb_le _ _) Hdead).
  unfold ARDP_Disconnect.
  mstep (IsConnValid_eq conn s). rewrite Hk. cbn [negb]. cbv iota.
  mstep (get_conn_Some conn s k Hk). mstep (get_handle_eq s).
  rewrite Hst.
  rewrite (bool_decide_eq_false_2 (OPEN = CLOSED)) by discriminate.
  rewrite (bool_decide_eq_false_2 (OPEN = CLOSE_WAIT)) by discriminate.
  rewrite (bool_decide_eq_true_2 (OPEN = OPEN)) by reflexivity.
  cbn [orb]. cbv iota.
  pose proof Hk as Hc.
  mflat.
  match goal with |- context [bind (AddTimer ?c ?ty ?h ?cx ?to ?re) ?g ?s0] =>
    rewrite (bind_Ok _ g s0 _ _ (AddTimer_eq c ty h cx to re s0 _ Hc)); cbv beta;
    apply (conn_of_upd_conn_same c
             (fun r => set_timers
                (timers r ++ [new_timer (next_ptr s0) c ty h cx to re
                                        (clock_read s0)]) r)
             (tick (set_next_ptr (S (next_ptr s0)) s0))) in Hc; cbv beta in Hc
  end.
  mflat.
  match goal with |- context [bind (SetState ?c ?st) ?g ?s0] =>
    rewrite (bind_Ok _ g s0 _ _ (SetState_eq c st s0 _ Hc)); cbv beta;
    apply (conn_of_upd_conn_same c (set_STATE st) s0) in Hc
  end.
  mflat.
  match goal with |- context [bind (Send ?c ?fl ?sq ?ak ?w) ?g ?s0] =>
    rewrite (bind_Ok _ g s0 _ _ (Send_eq c fl sq ak w s0 _ Hc)); cbv beta
  end.
  mrun1.
  match goal with |- context [bind (get_timer conn timer) ?g ?s0] =>
    assert (Hc2 : conn_of s0 conn = Some
              (set_STATE CLOSE_WAIT
                 (set_timers
                    (timers k ++
                     [new_timer (next_ptr s) conn DISCONNECT_TIMER
                                DisconnectTimerHandler_fn CtxNULL
                                (timewait (config (handle s)))
                                ARDP_DISCONNECT_RETRY (clock_read s)]) k)))
      by (rewrite conn_of_set_trace, conn_of_socket_used; exact Hc);
    rewrite (bind_Ok _ g s0 _ _
               (get_timer_Some conn timer s0 _ t Hc2
                  (find_timer_app timer (timers k) t _ Ht)));
    cbv beta
  end.
  mstep (get_conn_Some conn _ _ Hc2). rec_norm.
  destruct ((lastSeen k <? u32 (t_when t - persistTimeout (config (handle s))))
            || (window k <? minSendWindow k)).
  - mflat.
    match goal with |- context [bind (Send ?c ?fl ?sq ?ak ?w) ?g ?s0] =>
      rewrite (bind_Ok _ g s0 _ _ (Send_eq c fl sq ak w s0 _ Hc2)); cbv beta
    end.
    eexists. split; [reflexivity|]. split.
    + rewrite conn_of_set_trace, conn_of_socket_used. exact Hc2.
    + reflexivity.
  - eexists. split; [reflexivity|]. split; [exact Hc2|].
    rewrite app_nil_r. reflexivity.
Qed.

Lemma WindowCheckTimerHandler_link_timeout_witness :
  let s := fold_left
             (fun s dt =>
                Scenario.state_of (Scenario.timers_after Scenario.debug_build dt s))
             [5000; 5000; 5000; 5000; 5000; 5000; 5000; 5000; 5000]
             (Scenario.opened Scenario.debug_build 7 4) in
  exists s' k',
    WindowCheckTimerHandler Scenario.the_conn (CtxTimer 3%nat) s = Ok tt s' /\
    conn_of s' Scenario.the_conn = Some k' /\
    STATE k' = CLOSE_WAIT.
Proof.
  intros s.
  pose (k := Scenario.conn_in s).
  pose (t := mkTimer 3%nat (Some WindowCheckTimerHandler_fn) Scenario.the_conn
                     WINDOW_CHECK_TIMER (CtxTimer 3%nat) 5000 51000 65535).
  assert (Hk : conn_of s Scenario.the_conn = Some k) by (vm_compute; reflexivity).
  assert (Hst : STATE k = OPEN) by (vm_compute; reflexivity).
  assert (Ht : find_timer 3%nat (timers k) = Some t) by (vm_compute; reflexivity).
  assert (Hl : u32 (probeTimeout (config (handle s)) * 10)
               <= u32 (t_when t - lastSeen k))
    by (apply Z.leb_le; vm_compute; reflexivity).
  destruct (WindowCheckTimerHandler_link_timeout Scenario.the_conn 3%nat s k t
              Hk Hst Ht Hl)
    as (s' & H1 & H2 & _).
  exists s'. eexists. split; [exact H1|]. split; [exact H2|reflexivity].
Defined.
